(** * Knowledge-base store ([utils/kb_store.py]): a shallow embedding

    The module keeps one directory per knowledge base below a storage
    root, each holding [meta.json], [schema.json] and [prompts.json],
    plus a flat [index.json] at the root.  Every operation is a short
    sequence of existence checks, JSON reads and JSON writes.

    The embedding follows the Python text function by function:
    - JSON documents are values of [json]; a Python [dict] with string
      keys is an association list in insertion order;
    - the disk is a record [fs]: whether the storage root exists, the
      optional index document and a finite map from directory name to
      the files of that directory;
    - effects (disk, logger, raised exceptions) are threaded by the small
      monad [M] over [world];
    - the two readings of the environment, [uuid.uuid4()] and
      [datetime.utcnow().isoformat()], are passed in as arguments.

    Scope of the disk model.  A record identifier names a directory
    directly below the storage root (ordinary file names such as the
    eight characters [create_knowledge_base] generates).  Entries of a
    record directory are regular files.  A storage root that does not
    exist holds no index and no record directory; [_ensure_store]
    creates it.  A file's text is either the serialisation of a JSON
    value, read back unchanged by [json.load], or text that [json.load]
    rejects. *)

From Stdlib Require Import String Ascii ZArith List Bool.
From Corelib Require Import PrimFloat.
From stdpp Require Import gmap strings list fin_maps.
Import ListNotations.

Local Open Scope string_scope.
Local Open Scope list_scope.
Set Warnings "-register-all".

(** ** JSON values as [json.load] produces them *)

Inductive json : Type :=
| JNull
| JBool (b : bool)
| JInt (n : Z)
| JFloat (x : float)
| JStr (s : string)
| JList (items : list json)
| JObj (fields : list (string * json)).

(** A Python dict with string keys; the head is the oldest key. *)
Definition dict : Type := list (string * json).

(** [d.get(k)] seen as an option: [None] when the key is missing. *)
Fixpoint dict_get (d : dict) (k : string) : option json :=
  match d with
  | [] => None
  | (k', v) :: d' => if String.eqb k' k then Some v else dict_get d' k
  end.

(** [d[k] = v]: an existing key keeps its position, a new one goes last. *)
Fixpoint dict_set (d : dict) (k : string) (v : json) : dict :=
  match d with
  | [] => [(k, v)]
  | (k', v') :: d' =>
      if String.eqb k' k then (k', v) :: d' else (k', v') :: dict_set d' k v
  end.

(** [d.update(other)] for a dict [other]: for each key of [other], in
    order, [d[key] = other[key]]. *)
Definition dict_merge (d other : dict) : dict :=
  fold_left
    (fun acc k => match dict_get other k with
                  | Some v => dict_set acc k v
                  | None => acc
                  end)
    (map fst other) d.

(** Python truthiness, as used by [if not kb_id]. *)
Definition truthy (v : json) : bool :=
  match v with
  | JNull => false
  | JBool b => b
  | JInt n => negb (n =? 0)%Z
  | JFloat x => negb (PrimFloat.eqb x 0%float)
  | JStr s => negb (String.eqb s "")
  | JList items => match items with [] => false | _ => true end
  | JObj fields => match fields with [] => false | _ => true end
  end.

(** [v == s] for a Python [str] [s]. *)
Definition eq_str (v : json) (s : string) : bool :=
  match v with
  | JStr s' => String.eqb s' s
  | _ => false
  end.

(** ** Exceptions and outcomes *)

Inductive exn : Type :=
| JSONDecodeError
| AttributeError
| TypeError
| ValueError
| FileNotFoundError.

Inductive outcome (A : Type) : Type :=
| Ok (a : A)
| Raise (e : exn).
Arguments Ok {A} a.
Arguments Raise {A} e.

(** [v.get(k, dflt)]: only a dict has the method. *)
Definition py_get (v : json) (k : string) (dflt : json) : outcome json :=
  match v with
  | JObj d => Ok (default dflt (dict_get d k))
  | _ => Raise AttributeError
  end.

(** [v[k] = x] for a string [k]: only a dict accepts it. *)
Definition py_setitem (v : json) (k : string) (x : json) : outcome json :=
  match v with
  | JObj d => Ok (JObj (dict_set d k x))
  | _ => Raise TypeError
  end.

(** [Path / v]: the operand has to be a [str]. *)
Definition py_path_part (v : json) : outcome string :=
  match v with
  | JStr s => Ok s
  | _ => Raise TypeError
  end.

(** *** [dict.update] with an argument that is not a dict

    CPython walks the argument as a sequence of two-element sequences and
    stores each pair as it goes, so the pairs before a bad element stay.
    The result dict is tracked on its string keys: a pair whose key is a
    number, a boolean or [None] is stored by Python under that key and
    cannot be seen through any string key, so it leaves [dict] as it is. *)

Definition hashable (v : json) : bool :=
  match v with
  | JList _ | JObj _ => false
  | _ => true
  end.

Definition as_pair (item : json) : outcome (json * json) :=
  match item with
  | JList [k; v] => Ok (k, v)
  | JList _ => Raise ValueError
  | JStr (String a (String b EmptyString)) =>
      Ok (JStr (String a EmptyString), JStr (String b EmptyString))
  | JStr _ => Raise ValueError
  | JObj [(k1, _); (k2, _)] => Ok (JStr k1, JStr k2)
  | JObj _ => Raise ValueError
  | JNull | JBool _ | JInt _ | JFloat _ => Raise TypeError
  end.

Definition store_pair (d : dict) (kv : json * json) : outcome dict :=
  match fst kv with
  | JStr k => Ok (dict_set d k (snd kv))
  | k => if hashable k then Ok d else Raise TypeError
  end.

Fixpoint merge_from_seq (d : dict) (items : list json) : dict * option exn :=
  match items with
  | [] => (d, None)
  | item :: rest =>
      match as_pair item with
      | Raise e => (d, Some e)
      | Ok kv =>
          match store_pair d kv with
          | Raise e => (d, Some e)
          | Ok d' => merge_from_seq d' rest
          end
      end
  end.

(** [d.update(other)] for any loaded document: the dict as the call
    leaves it, and the exception it raised, if any. *)
Definition dict_update (d : dict) (other : json) : dict * option exn :=
  match other with
  | JObj o => (dict_merge d o, None)
  | JList items => merge_from_seq d items
  | JStr EmptyString => (d, None)
  | JStr _ => (d, Some ValueError)
  | JNull | JBool _ | JInt _ | JFloat _ => (d, Some TypeError)
  end.

(** ** The disk and the logger *)

Definition KB_STORE_ROOT : string := "kb_store".
Definition INDEX_FILE : string := "index.json".
Definition META_FILE : string := "meta.json".
Definition SCHEMA_FILE : string := "schema.json".
Definition PROMPTS_FILE : string := "prompts.json".

(** What a file holds, as far as [json.load] can tell. *)
Inductive content : Type :=
| Json (v : json)
| Garbage.

(** The storage root: whether the directory [kb_store] exists, the
    index file in it and the record directories below it. *)
Record fs : Type := mkFs {
  store_exists : bool;
  index_json : option content;
  kb_dirs : gmap string (gmap string content)
}.

(** One [logger.warning] call. *)
Inductive warning : Type :=
| FailedIndex (e : exn)
| FailedMeta (kb_id : string) (e : exn)
| FailedSchema (kb_id : string) (e : exn)
| FailedPrompts (kb_id : string) (e : exn).

Record world : Type := mkWorld {
  disk : fs;
  log : list warning
}.

(** ** The effect monad *)

Definition M (A : Type) : Type := world -> outcome A * world.

Definition ret {A} (a : A) : M A := fun w => (Ok a, w).

Definition bind {A B} (m : M A) (k : A -> M B) : M B :=
  fun w =>
    match m w with
    | (Ok a, w') => k a w'
    | (Raise e, w') => (Raise e, w')
    end.

Definition raise {A} (e : exn) : M A := fun w => (Raise e, w).

Definition lift {A} (o : outcome A) : M A := fun w => (o, w).

(** [try: body except Exception as e: handler]; what the body did to
    the world before it raised stays done. *)
Definition try_except {A} (body : M A) (handler : exn -> M A) : M A :=
  fun w =>
    match body w with
    | (Ok a, w') => (Ok a, w')
    | (Raise e, w') => handler e w'
    end.

Declare Scope kb_scope.
Delimit Scope kb_scope with kb.
Notation "x <- m ;; k" := (bind m (fun x => k))
  (at level 100, m at next level, right associativity) : kb_scope.
Notation "m ;;; k" := (bind m (fun _ => k))
  (at level 100, right associativity) : kb_scope.
Local Open Scope kb_scope.

Definition get_fs : M fs := fun w => (Ok (disk w), w).
Definition put_fs (f : fs) : M unit :=
  fun w => (Ok tt, mkWorld f (log w)).
Definition warn (msg : warning) : M unit :=
  fun w => (Ok tt, mkWorld (disk w) (log w ++ [msg])).

(** *** File-system primitives *)

(** [_ensure_store()]: [mkdir(parents=True, exist_ok=True)] on the
    root, which exists afterwards; what it holds stays. *)
Definition _ensure_store : M unit :=
  f <- get_fs ;; put_fs (mkFs true (index_json f) (kb_dirs f)).

(** [(_store_dir() / INDEX_FILE).exists()] *)
Definition index_exists : M bool :=
  f <- get_fs ;; ret (bool_decide (is_Some (index_json f))).

(** [_kb_dir(kb_id).exists()] *)
Definition kb_dir_exists (kb_id : string) : M bool :=
  f <- get_fs ;; ret (bool_decide (is_Some (kb_dirs f !! kb_id))).

(** [(_kb_dir(kb_id) / name).exists()] *)
Definition kb_file_exists (kb_id name : string) : M bool :=
  f <- get_fs ;;
  ret (bool_decide (is_Some (kb_dirs f !! kb_id ≫= (.!! name)))).

Definition load_content (c : option content) : M json :=
  match c with
  | None => raise FileNotFoundError
  | Some Garbage => raise JSONDecodeError
  | Some (Json v) => ret v
  end.

(** [with open(index path) as f: json.load(f)] *)
Definition json_load_index : M json :=
  f <- get_fs ;; load_content (index_json f).

(** [with open(_kb_dir(kb_id) / name) as f: json.load(f)] *)
Definition json_load (kb_id name : string) : M json :=
  f <- get_fs ;; load_content (kb_dirs f !! kb_id ≫= (.!! name)).

(** [with open(index path, "w") as f: json.dump(v, f, ...)] *)
Definition json_dump_index (v : json) : M unit :=
  f <- get_fs ;;
  if store_exists f then put_fs (mkFs true (Some (Json v)) (kb_dirs f))
  else raise FileNotFoundError.

(** [with open(_kb_dir(kb_id) / name, "w") as f: json.dump(v, f, ...)] *)
Definition json_dump (kb_id name : string) (v : json) : M unit :=
  f <- get_fs ;;
  match kb_dirs f !! kb_id with
  | None => raise FileNotFoundError
  | Some files =>
      put_fs (mkFs (store_exists f) (index_json f)
                   (<[kb_id := <[name := Json v]> files]> (kb_dirs f)))
  end.

(** [_kb_dir(kb_id).mkdir(parents=True, exist_ok=True)]: a missing
    root is created on the way. *)
Definition mkdir (kb_id : string) : M unit :=
  f <- get_fs ;;
  match kb_dirs f !! kb_id with
  | Some _ => ret tt
  | None => put_fs (mkFs true (index_json f) (<[kb_id := ∅]> (kb_dirs f)))
  end.

(** [shutil.rmtree(_kb_dir(kb_id))] *)
Definition rmtree (kb_id : string) : M unit :=
  f <- get_fs ;;
  match kb_dirs f !! kb_id with
  | None => raise FileNotFoundError
  | Some _ =>
      put_fs (mkFs (store_exists f) (index_json f) (delete kb_id (kb_dirs f)))
  end.

(** [str(_kb_dir(kb_id) / name)] *)
Definition path_str (kb_id name : string) : string :=
  KB_STORE_ROOT +:+ "/" +:+ kb_id +:+ "/" +:+ name.

(** ** The module's functions *)

(** [_load_index()] *)
Definition _load_index : M (list json) :=
  _ensure_store ;;;
  ex <- index_exists ;;
  if negb ex then ret []
  else
    try_except
      (data <- json_load_index ;;
       ret (match data with JList entries => entries | _ => [] end))
      (fun e => warn (FailedIndex e) ;;; ret []).

(** [_save_index(entries)] *)
Definition _save_index (entries : list json) : M unit :=
  _ensure_store ;;;
  json_dump_index (JList entries).

(** The five-key dict literal that [list_knowledge_bases] builds, with
    its four [src.get(key, default)] calls in source order. *)
Definition summary_from (src : json) (kb_id : string) : M dict :=
  name <- lift (py_get src "name" (JStr kb_id)) ;;
  dataset_name <- lift (py_get src "dataset_name" (JStr "")) ;;
  created_at <- lift (py_get src "created_at" (JStr "")) ;;
  updated_at <- lift (py_get src "updated_at" (JStr "")) ;;
  ret [("id", JStr kb_id); ("name", name); ("dataset_name", dataset_name);
       ("created_at", created_at); ("updated_at", updated_at)].

(** The [for entry in index] loop of [list_knowledge_bases]. *)
Fixpoint list_loop (index : list json) (result : list dict) : M (list dict) :=
  match index with
  | [] => ret result
  | entry :: rest =>
      kb_id <- lift (py_get entry "id" JNull) ;;
      if negb (truthy kb_id) then list_loop rest result
      else
        k <- lift (py_path_part kb_id) ;;
        ex <- kb_file_exists k META_FILE ;;
        if ex then
          result' <-
            try_except
              (meta <- json_load k META_FILE ;;
               s <- summary_from meta k ;;
               ret (result ++ [s]))
              (fun e =>
                 warn (FailedMeta k e) ;;;
                 s <- summary_from entry k ;;
                 ret (result ++ [s])) ;;
          list_loop rest result'
        else
          s <- summary_from entry k ;;
          list_loop rest (result ++ [s])
  end.

(** [list_knowledge_bases()] *)
Definition list_knowledge_bases : M (list dict) :=
  index <- _load_index ;;
  list_loop index [].

(** [_default_schema()] *)
Definition _default_schema : dict :=
  [("Nodes", JList (map JStr
      ["person"; "location"; "organization"; "event"; "object";
       "concept"; "time_period"; "creative_work"; "biological_entity";
       "natural_phenomenon"]));
   ("Relations", JList (map JStr
      ["is_a"; "part_of"; "located_in"; "created_by"; "used_by";
       "participates_in"; "related_to"; "belongs_to"; "influences";
       "precedes"; "arrives_in"; "comparable_to"]));
   ("Attributes", JList (map JStr
      ["name"; "date"; "size"; "type"; "description"; "status";
       "quantity"; "value"; "position"; "duration"; "time"]))].

(** [_default_prompts()] *)
Definition _default_prompts : dict :=
  [("construction", JStr ""); ("decomposition", JStr "");
   ("retrieval", JStr "")].

(** [get_knowledge_base(kb_id)].  [result.update(meta)] runs inside the
    [try]; when it raises half-way the [except] clause only logs, and
    [result] stays as the failed call left it. *)
Definition get_knowledge_base (kb_id : string) : M (option dict) :=
  ex <- kb_dir_exists kb_id ;;
  if negb ex then ret None
  else
    let result : dict := [("id", JStr kb_id)] in
    meta_ex <- kb_file_exists kb_id META_FILE ;;
    result <-
      (if meta_ex then
         loaded <-
           try_except
             (meta <- json_load kb_id META_FILE ;;
              ret (dict_update result meta))
             (fun e => ret (result, Some e)) ;;
         match snd loaded with
         | None => ret (fst loaded)
         | Some e => warn (FailedMeta kb_id e) ;;; ret (fst loaded)
         end
       else ret result) ;;
    schema_ex <- kb_file_exists kb_id SCHEMA_FILE ;;
    schema <-
      (if schema_ex then
         try_except
           (json_load kb_id SCHEMA_FILE)
           (fun e => warn (FailedSchema kb_id e) ;;; ret (JObj _default_schema))
       else ret (JObj _default_schema)) ;;
    let result := dict_set result "schema" schema in
    prompts_ex <- kb_file_exists kb_id PROMPTS_FILE ;;
    prompts <-
      (if prompts_ex then
         try_except
           (json_load kb_id PROMPTS_FILE)
           (fun e => warn (FailedPrompts kb_id e) ;;; ret (JObj _default_prompts))
       else ret (JObj _default_prompts)) ;;
    let result := dict_set result "prompts" prompts in
    ret (Some result).

(** [create_knowledge_base(name, dataset_name, schema, prompts)];
    [uuid4] is the text of [uuid.uuid4()] and [utcnow] that of
    [datetime.utcnow().isoformat()]. *)
Definition create_knowledge_base (uuid4 utcnow : string)
    (name dataset_name : string) (schema prompts : option dict)
    : M (option dict) :=
  _ensure_store ;;;
  let kb_id := substring 0 8 uuid4 in
  mkdir kb_id ;;;
  let now := utcnow +:+ "Z" in
  let meta : dict :=
    [("id", JStr kb_id); ("name", JStr name);
     ("dataset_name", JStr dataset_name);
     ("created_at", JStr now); ("updated_at", JStr now)] in
  json_dump kb_id META_FILE (JObj meta) ;;;
  let schema_data := match schema with Some s => s | None => _default_schema end in
  json_dump kb_id SCHEMA_FILE (JObj schema_data) ;;;
  let prompts_data := match prompts with Some p => p | None => _default_prompts end in
  json_dump kb_id PROMPTS_FILE (JObj prompts_data) ;;;
  index <- _load_index ;;
  let index := index ++
    [JObj [("id", JStr kb_id); ("name", JStr name);
           ("dataset_name", JStr dataset_name);
           ("created_at", JStr now); ("updated_at", JStr now)]] in
  _save_index index ;;;
  get_knowledge_base kb_id.

(** The [for i, entry in enumerate(index)] loop of
    [update_knowledge_base]: the first entry whose id matches is
    replaced, and the loop stops there. *)
Fixpoint update_loop (index : list json) (kb_id : string) (meta : json)
    (now : string) : M (list json) :=
  match index with
  | [] => ret []
  | entry :: rest =>
      eid <- lift (py_get entry "id" JNull) ;;
      if eq_str eid kb_id then
        name <- lift (py_get meta "name" (JStr kb_id)) ;;
        dataset_name <- lift (py_get meta "dataset_name" (JStr "")) ;;
        entry_created <- lift (py_get entry "created_at" (JStr "")) ;;
        created_at <- lift (py_get meta "created_at" entry_created) ;;
        ret (JObj [("id", JStr kb_id); ("name", name);
                   ("dataset_name", dataset_name);
                   ("created_at", created_at);
                   ("updated_at", JStr now)] :: rest)
      else
        rest' <- update_loop rest kb_id meta now ;;
        ret (entry :: rest')
  end.

(** [update_knowledge_base(kb_id, name, dataset_name, schema, prompts)] *)
Definition update_knowledge_base (utcnow : string) (kb_id : string)
    (name dataset_name : option string) (schema prompts : option dict)
    : M (option dict) :=
  ex <- kb_dir_exists kb_id ;;
  if negb ex then ret None
  else
    let now := utcnow +:+ "Z" in
    meta_ex <- kb_file_exists kb_id META_FILE ;;
    meta <- (if meta_ex then json_load kb_id META_FILE else ret (JObj [])) ;;
    meta <- match name with
            | Some n => lift (py_setitem meta "name" (JStr n))
            | None => ret meta
            end ;;
    meta <- match dataset_name with
            | Some d => lift (py_setitem meta "dataset_name" (JStr d))
            | None => ret meta
            end ;;
    meta <- lift (py_setitem meta "updated_at" (JStr now)) ;;
    meta <- lift (py_setitem meta "id" (JStr kb_id)) ;;
    json_dump kb_id META_FILE meta ;;;
    match schema with
    | Some s => json_dump kb_id SCHEMA_FILE (JObj s)
    | None => ret tt
    end ;;;
    match prompts with
    | Some p => json_dump kb_id PROMPTS_FILE (JObj p)
    | None => ret tt
    end ;;;
    index <- _load_index ;;
    index <- update_loop index kb_id meta now ;;
    _save_index index ;;;
    get_knowledge_base kb_id.

(** [[e for e in index if e.get("id") != kb_id]] *)
Fixpoint without_id (index : list json) (kb_id : string) : M (list json) :=
  match index with
  | [] => ret []
  | e :: rest =>
      eid <- lift (py_get e "id" JNull) ;;
      rest' <- without_id rest kb_id ;;
      ret (if eq_str eid kb_id then rest' else e :: rest')
  end.

(** [delete_knowledge_base(kb_id)] *)
Definition delete_knowledge_base (kb_id : string) : M bool :=
  ex <- kb_dir_exists kb_id ;;
  if negb ex then ret false
  else
    rmtree kb_id ;;;
    index <- _load_index ;;
    index <- without_id index kb_id ;;
    _save_index index ;;;
    ret true.

(** A Python value handed back under an [Optional] annotation: [None]
    is the absent result. *)
Definition py_optional (v : json) : option json :=
  match v with
  | JNull => None
  | _ => Some v
  end.

(** [get_schema_path_for_kb(kb_id)] *)
Definition get_schema_path_for_kb (kb_id : string) : M (option string) :=
  ex <- kb_file_exists kb_id SCHEMA_FILE ;;
  ret (if ex then Some (path_str kb_id SCHEMA_FILE) else None).

(** [get_schema_dict_for_kb(kb_id)] *)
Definition get_schema_dict_for_kb (kb_id : string) : M (option json) :=
  kb <- get_knowledge_base kb_id ;;
  match kb with
  | None => ret None
  | Some kb => ret (py_optional (default JNull (dict_get kb "schema")))
  end.

(** [get_prompts_for_kb(kb_id)] *)
Definition get_prompts_for_kb (kb_id : string) : M (option json) :=
  kb <- get_knowledge_base kb_id ;;
  match kb with
  | None => ret None
  | Some kb => ret (py_optional (default JNull (dict_get kb "prompts")))
  end.

(** ** What the operations read from a given disk

    Pure readings of a store state, used to state what the effectful
    functions above return. *)

(** The world with further warnings logged. *)
Definition add_log (w : world) (ws : list warning) : world :=
  mkWorld (disk w) (log w ++ ws).

(** The entries [_load_index] finds on disk [f]. *)
Definition stored_index (f : fs) : list json :=
  match index_json f with
  | Some (Json (JList entries)) => entries
  | _ => []
  end.

Definition index_warnings (f : fs) : list warning :=
  match index_json f with
  | Some Garbage => [FailedIndex JSONDecodeError]
  | _ => []
  end.

(** The record after the metadata step of [get_knowledge_base]. *)
Definition read_meta (kb_id : string) (c : option content)
    : dict * list warning :=
  match c with
  | None => ([("id", JStr kb_id)], [])
  | Some Garbage => ([("id", JStr kb_id)], [FailedMeta kb_id JSONDecodeError])
  | Some (Json v) =>
      let r := dict_update [("id", JStr kb_id)] v in
      (fst r, match snd r with
              | None => []
              | Some e => [FailedMeta kb_id e]
              end)
  end.

(** A sub-document, or its default when the file is missing or does not
    parse. *)
Definition read_doc (c : option content) (dflt : dict)
    (failed : exn -> warning) : json * list warning :=
  match c with
  | None => (JObj dflt, [])
  | Some Garbage => (JObj dflt, [failed JSONDecodeError])
  | Some (Json v) => (v, [])
  end.

(** The full record assembled from the files of a record directory. *)
Definition full_record (kb_id : string) (files : gmap string content) : dict :=
  dict_set
    (dict_set (fst (read_meta kb_id (files !! META_FILE)))
       "schema"
       (fst (read_doc (files !! SCHEMA_FILE) _default_schema (FailedSchema kb_id))))
    "prompts"
    (fst (read_doc (files !! PROMPTS_FILE) _default_prompts (FailedPrompts kb_id))).

Definition read_warnings (kb_id : string) (files : gmap string content)
    : list warning :=
  snd (read_meta kb_id (files !! META_FILE))
  ++ snd (read_doc (files !! SCHEMA_FILE) _default_schema (FailedSchema kb_id))
  ++ snd (read_doc (files !! PROMPTS_FILE) _default_prompts (FailedPrompts kb_id)).

(** The five summary fields taken from one dict, with the defaults of
    [list_knowledge_bases]: the id for a missing name, the empty string
    for the other three. *)
Definition summary_of (src : dict) (kb_id : string) : dict :=
  [("id", JStr kb_id);
   ("name", default (JStr kb_id) (dict_get src "name"));
   ("dataset_name", default (JStr "") (dict_get src "dataset_name"));
   ("created_at", default (JStr "") (dict_get src "created_at"));
   ("updated_at", default (JStr "") (dict_get src "updated_at"))].

(** What listing does with one index entry on disk [f]: the summary it
    appends, if any, and the warnings it logs; or the exception that
    ends the listing.  The metadata document alone fills the summary
    when it is an object; in every other case the entry does. *)
Definition listed_entry (f : fs) (entry : json)
    : outcome (option dict * list warning) :=
  match entry with
  | JObj e =>
      let kb_id := default JNull (dict_get e "id") in
      if negb (truthy kb_id) then Ok (None, [])
      else
        match kb_id with
        | JStr k =>
            match kb_dirs f !! k ≫= (.!! META_FILE) with
            | Some (Json (JObj m)) => Ok (Some (summary_of m k), [])
            | Some (Json _) =>
                Ok (Some (summary_of e k), [FailedMeta k AttributeError])
            | Some Garbage =>
                Ok (Some (summary_of e k), [FailedMeta k JSONDecodeError])
            | None => Ok (Some (summary_of e k), [])
            end
        | _ => Raise TypeError
        end
  | _ => Raise AttributeError
  end.

(** Shapes of index entries. *)
Definition is_obj (v : json) : bool :=
  match v with
  | JObj _ => true
  | _ => false
  end.

(** The entry is an object whose ["id"] is the string [kb_id]. *)
Definition has_id (kb_id : string) (entry : json) : bool :=
  match entry with
  | JObj e => eq_str (default JNull (dict_get e "id")) kb_id
  | _ => false
  end.

(** The entries the listing loop does not skip: objects whose ["id"] is
    truthy ([if not kb_id: continue]). *)
Definition has_truthy_id (entry : json) : bool :=
  match entry with
  | JObj e => truthy (default JNull (dict_get e "id"))
  | _ => false
  end.

(** An entry as the index data model has it: an object whose ["id"], when
    it has one that is not falsy, is a string. *)
Definition entry_ok (entry : json) : bool :=
  match entry with
  | JObj e =>
      match default JNull (dict_get e "id") with
      | JStr _ => true
      | v => negb (truthy v)
      end
  | _ => false
  end.

(** The metadata document and the three files [create_knowledge_base]
    writes. *)
Definition created_meta (kb_id name dataset_name now : string) : dict :=
  [("id", JStr kb_id); ("name", JStr name);
   ("dataset_name", JStr dataset_name);
   ("created_at", JStr now); ("updated_at", JStr now)].

Definition created_files (files : gmap string content)
    (kb_id name dataset_name now : string) (schema prompts : option dict)
    : gmap string content :=
  <[PROMPTS_FILE := Json (JObj (default _default_prompts prompts))]>
    (<[SCHEMA_FILE := Json (JObj (default _default_schema schema))]>
       (<[META_FILE := Json (JObj (created_meta kb_id name dataset_name now))]>
          files)).

(** The metadata [update_knowledge_base] starts from: the stored object,
    or the empty dict when the file is missing. *)
Definition meta_dict (c : option content) : option dict :=
  match c with
  | None => Some []
  | Some (Json (JObj m)) => Some m
  | _ => None
  end.

Definition set_opt (d : dict) (key : string) (v : option string) : dict :=
  match v with
  | Some s => dict_set d key (JStr s)
  | None => d
  end.

(** The metadata document [update_knowledge_base] writes back. *)
Definition updated_meta (m : dict) (kb_id : string)
    (name dataset_name : option string) (now : string) : dict :=
  dict_set
    (dict_set (set_opt (set_opt m "name" name) "dataset_name" dataset_name)
       "updated_at" (JStr now))
    "id" (JStr kb_id).

Definition write_opt (files : gmap string content) (name : string)
    (doc : option dict) : gmap string content :=
  match doc with
  | Some d => <[name := Json (JObj d)]> files
  | None => files
  end.

(** The record directory after [update_knowledge_base] has written. *)
Definition updated_files (files : gmap string content) (m' : dict)
    (schema prompts : option dict) : gmap string content :=
  write_opt
    (write_opt (<[META_FILE := Json (JObj m')]> files) SCHEMA_FILE schema)
    PROMPTS_FILE prompts.

(** The listing of an index on disk [f], entry by entry: the summaries
    in index order, or the first exception. *)
Fixpoint listing (f : fs) (index : list json) : outcome (list dict) :=
  match index with
  | [] => Ok []
  | entry :: rest =>
      match listed_entry f entry with
      | Raise e => Raise e
      | Ok (s, _) =>
          match listing f rest with
          | Raise e => Raise e
          | Ok l => Ok (match s with Some s => s :: l | None => l end)
          end
      end
  end.

(** One call of [update_knowledge_base] on a fixed record: the clock
    reading and the four optional arguments. *)
Record update_call : Type := mkCall {
  call_utcnow : string;
  call_name : option string;
  call_dataset_name : option string;
  call_schema : option dict;
  call_prompts : option dict
}.

(** The world after a sequence of updates of record [kb_id], each run
    to its end whether it returns or raises. *)
Fixpoint run_updates (kb_id : string) (calls : list update_call) (w : world)
    : world :=
  match calls with
  | [] => w
  | c :: rest =>
      run_updates kb_id rest
        (snd (update_knowledge_base (call_utcnow c) kb_id (call_name c)
                (call_dataset_name c) (call_schema c) (call_prompts c) w))
  end.

(** The metadata of record [kb_id] is an object stamped [c] and [u]. *)
Definition stamped (w : world) (kb_id c u : string) : Prop :=
  exists files m,
    kb_dirs (disk w) !! kb_id = Some files /\
    files !! META_FILE = Some (Json (JObj m)) /\
    dict_get m "created_at" = Some (JStr c) /\
    dict_get m "updated_at" = Some (JStr u).

(** A disk as a file system can have it: a storage root that does not
    exist holds no index file and no record directory. *)
Definition well_formed (f : fs) : Prop :=
  store_exists f = false -> index_json f = None /\ kb_dirs f = ∅.

(** * Properties *)

(** ** Dictionaries *)

Section Dictionaries.

Implicit Types (d o : dict) (k : string) (v : json).

Lemma dict_get_set_eq d k v : dict_get (dict_set d k v) k = Some v.
Proof.
  induction d as [|[k' v'] d IH]; simpl.
  - by rewrite String.eqb_refl.
  - destruct (String.eqb k' k) eqn:E; simpl; by rewrite E.
Qed.

Lemma dict_get_set_ne d k k' v :
  k <> k' -> dict_get (dict_set d k v) k' = dict_get d k'.
Proof.
  intros Hne. induction d as [|[k0 v0] d IH]; simpl.
  - destruct (String.eqb_spec k k'); [done | reflexivity].
  - destruct (String.eqb_spec k0 k) as [->|Hk]; simpl.
    + destruct (String.eqb_spec k k'); [done | reflexivity].
    + by rewrite IH.
Qed.

Lemma dict_get_set d k k' v :
  dict_get (dict_set d k v) k' =
    if String.eqb k k' then Some v else dict_get d k'.
Proof.
  destruct (String.eqb_spec k k') as [->|Hne].
  - apply dict_get_set_eq.
  - by apply dict_get_set_ne.
Qed.

Lemma dict_get_keys o k :
  k ∈ map fst o <-> is_Some (dict_get o k).
Proof.
  induction o as [|[k' v'] o IH]; simpl.
  - split; [by intros ?%elem_of_nil | by intros [? ?]].
  - rewrite elem_of_cons.
    destruct (String.eqb_spec k' k) as [->|Hne].
    + split; eauto.
    + rewrite <- IH. split; [intros [?|?]; [done | assumption] | auto].
Qed.

(** Folding [d[key] = other[key]] over any list of keys. *)
Lemma dict_get_merge_keys o ks d k :
  dict_get
    (fold_left
       (fun acc k0 => match dict_get o k0 with
                      | Some v => dict_set acc k0 v
                      | None => acc
                      end) ks d) k =
    match dict_get o k with
    | Some v => if bool_decide (k ∈ ks) then Some v else dict_get d k
    | None => dict_get d k
    end.
Proof.
  revert d. induction ks as [|k0 ks IH]; intros d; cbn [fold_left].
  - destruct (dict_get o k); [|done].
    rewrite bool_decide_eq_false_2; [done | apply not_elem_of_nil].
  - rewrite IH. destruct (dict_get o k) as [v|] eqn:E.
    + destruct (decide (k ∈ ks)) as [Hin|Hin].
      * rewrite !bool_decide_eq_true_2; [done | by right | done].
      * rewrite (bool_decide_eq_false_2 _ Hin).
        destruct (decide (k = k0)) as [->|Hne].
        -- rewrite E, dict_get_set_eq.
           rewrite bool_decide_eq_true_2; [done | by left].
        -- rewrite bool_decide_eq_false_2.
           ++ destruct (dict_get o k0); [|done].
              by rewrite dict_get_set_ne.
           ++ intros [?|?]%elem_of_cons; done.
    + destruct (dict_get o k0) as [v0|] eqn:E0; [|done].
      rewrite dict_get_set_ne; [done|]. intros ->. congruence.
Qed.

(** After [d.update(o)] a key reads from [o] when [o] has it. *)
Lemma dict_get_merge d o k :
  dict_get (dict_merge d o) k =
    match dict_get o k with
    | Some v => Some v
    | None => dict_get d k
    end.
Proof.
  unfold dict_merge. rewrite dict_get_merge_keys.
  destruct (dict_get o k) as [v|] eqn:E; [|done].
  rewrite bool_decide_eq_true_2; [done|].
  apply dict_get_keys. by rewrite E.
Qed.

End Dictionaries.

(** ** Running the primitives and the readers *)

(** Unfolds the monad and the primitives, leaving map operations and
    the dictionary functions folded. *)
Ltac run :=
  cbv beta iota zeta delta
    [bind ret raise lift try_except get_fs put_fs warn _ensure_store
     index_exists kb_dir_exists kb_file_exists load_content
     json_load_index json_load json_dump_index json_dump mkdir rmtree];
  cbn [disk log store_exists index_json kb_dirs fst snd].

Section Runs.

Implicit Types (w : world) (f : fs) (k : string).

Lemma add_log_nil w : add_log w [] = w.
Proof. destruct w. unfold add_log. simpl. by rewrite app_nil_r. Qed.

Lemma ensure_store_run w :
  _ensure_store w =
    (Ok tt, mkWorld (mkFs true (index_json (disk w)) (kb_dirs (disk w))) (log w)).
Proof. reflexivity. Qed.

(** [_load_index] creates a missing root and changes nothing else. *)
Lemma load_index_run w :
  _load_index w =
    (Ok (stored_index (disk w)),
     mkWorld (mkFs true (index_json (disk w)) (kb_dirs (disk w)))
       (log w ++ index_warnings (disk w))).
Proof.
  destruct w as [[root ix dirs] l].
  unfold _load_index, stored_index, index_warnings.
  destruct ix as [[v|]|]; cbn.
  - rewrite app_nil_r. by destruct v.
  - done.
  - by rewrite app_nil_r.
Qed.

Lemma save_index_run w entries :
  _save_index entries w =
    (Ok tt, mkWorld (mkFs true (Some (Json (JList entries))) (kb_dirs (disk w))) (log w)).
Proof. done. Qed.

Lemma get_knowledge_base_absent w k :
  kb_dirs (disk w) !! k = None ->
  get_knowledge_base k w = (Ok None, w).
Proof.
  intros H. unfold get_knowledge_base. run. by rewrite H.
Qed.

Lemma get_knowledge_base_present w k files :
  kb_dirs (disk w) !! k = Some files ->
  get_knowledge_base k w =
    (Ok (Some (full_record k files)), add_log w (read_warnings k files)).
Proof.
  intros H. destruct w as [f l].
  unfold get_knowledge_base, full_record, read_warnings, add_log.
  cbn [disk log] in *.
  destruct (files !! META_FILE) as [[vm|]|] eqn:Em;
    destruct (files !! SCHEMA_FILE) as [[vs|]|] eqn:Es;
    destruct (files !! PROMPTS_FILE) as [[vp|]|] eqn:Ep;
    try destruct (dict_update [("id", JStr k)] vm) as [r [e|]] eqn:Eu;
    repeat (run; rewrite ?H, ?Em, ?Es, ?Ep, ?Eu; cbn);
    rewrite <- ?app_assoc, ?app_nil_r; reflexivity.
Qed.

End Runs.

(** ** Listing *)

Section Listing.

Implicit Types (w : world) (entry : json) (result : list dict).

Lemma summary_from_obj d k w :
  summary_from (JObj d) k w = (Ok (summary_of d k), w).
Proof. reflexivity. Qed.

(** One turn of the loop is [listed_entry]. *)
Lemma list_loop_cons entry rest result w :
  list_loop (entry :: rest) result w =
    match listed_entry (disk w) entry with
    | Ok (None, _) => list_loop rest result w
    | Ok (Some s, ws) => list_loop rest (result ++ [s]) (add_log w ws)
    | Raise e => (Raise e, w)
    end.
Proof.
  destruct entry as [| | | | |?|e]; try reflexivity.
  cbn [list_loop listed_entry]. unfold bind at 1, lift at 1.
  cbn [py_get].
  destruct (default JNull (dict_get e "id")) as [|b|n|x|k|l|o] eqn:Eid;
    cbn [truthy negb].
  - reflexivity.
  - destruct b; reflexivity.
  - destruct (n =? 0)%Z; reflexivity.
  - destruct (PrimFloat.eqb x 0); reflexivity.
  - destruct (String.eqb k ""); cbn [negb]; [reflexivity|].
    run. cbn [py_path_part].
    destruct (kb_dirs (disk w) !! k ≫= lookup META_FILE)
      as [[m|]|] eqn:Em; cbn beta iota.
    + rewrite bool_decide_eq_true_2 by eauto. run. rewrite Em.
      destruct m; try reflexivity.
      rewrite summary_from_obj, add_log_nil. reflexivity.
    + rewrite bool_decide_eq_true_2 by eauto. run. rewrite Em.
      reflexivity.
    + rewrite bool_decide_eq_false_2 by (intros [? ?]; done).
      rewrite summary_from_obj, add_log_nil. reflexivity.
  - destruct l; reflexivity.
  - destruct o; reflexivity.
Qed.

Lemma listed_entry_some f entry s ws :
  listed_entry f entry = Ok (Some s, ws) ->
  exists k, has_id k entry = true /\ k <> "" /\
            dict_get s "id" = Some (JStr k).
Proof.
  destruct entry as [| | | | |?|e]; try discriminate.
  cbn [listed_entry has_id].
  destruct (default JNull (dict_get e "id")) as [|b|n|x|k|l|o];
    cbn [truthy negb]; try discriminate.
  - destruct b; discriminate.
  - destruct (negb (n =? 0)%Z); discriminate.
  - destruct (negb (PrimFloat.eqb x 0)); discriminate.
  - destruct (String.eqb_spec k "") as [->|Hk]; cbn [negb]; [discriminate|].
    intros H. exists k. cbn [eq_str]. rewrite String.eqb_refl.
    split; [done|]. split; [done|].
    destruct (kb_dirs f !! k ≫= lookup META_FILE) as [[m|]|];
      [destruct m|..]; by simplify_eq.
  - destruct l; discriminate.
  - destruct o; discriminate.
Qed.

Lemma listed_entry_ok f entry :
  entry_ok entry = true -> exists r, listed_entry f entry = Ok r.
Proof.
  destruct entry as [| | | | |?|e]; try discriminate.
  cbn [listed_entry entry_ok].
  destruct (default JNull (dict_get e "id")) as [|b|n|x|k|l|o];
    intros H; try rewrite H; eauto.
  cbn [truthy negb]. destruct (negb (String.eqb k "")); eauto.
  destruct (kb_dirs f !! k ≫= lookup META_FILE) as [[m|]|];
    [destruct m|..]; eauto.
Qed.

(** The reading of an entry depends on the disk only through the
    directory the entry names. *)
Lemma listed_entry_untracked f f' k entry :
  has_id k entry = false ->
  kb_dirs f' = delete k (kb_dirs f) ->
  listed_entry f' entry = listed_entry f entry.
Proof.
  intros Hid Hdel. destruct entry as [| | | | |?|e]; try reflexivity.
  cbn [listed_entry has_id] in *.
  destruct (default JNull (dict_get e "id")) as [|b|n|x|k'|l|o];
    try reflexivity.
  cbn [eq_str] in Hid. apply String.eqb_neq in Hid.
  rewrite Hdel, lookup_delete_ne by done. reflexivity.
Qed.

(** Every summary listed comes from an index entry with that id, a
    non-empty string. *)
Lemma list_loop_ids index : forall result w l w',
  list_loop index result w = (Ok l, w') ->
  forall s, s ∈ l ->
    s ∈ result \/
    exists entry k, entry ∈ index /\ has_id k entry = true /\ k <> "" /\
                    dict_get s "id" = Some (JStr k).
Proof.
  induction index as [|entry rest IH]; intros result w l w' Hrun s Hs.
  - left. cbv [list_loop ret] in Hrun. by simplify_eq.
  - rewrite list_loop_cons in Hrun.
    destruct (listed_entry (disk w) entry) as [[[s0|] ws]|e] eqn:E;
      [| |discriminate].
    + destruct (IH _ _ _ _ Hrun s Hs) as [Hin|(en & k & ? & ? & ? & ?)].
      * apply elem_of_app in Hin as [Hin|Hin]; [by left|].
        apply list_elem_of_singleton in Hin as ->.
        destruct (listed_entry_some _ _ _ _ E) as (k & ? & ? & ?).
        right. exists entry, k. split; [apply elem_of_cons; by left | done].
      * right. exists en, k. split; [apply elem_of_cons; by right | done].
    + destruct (IH _ _ _ _ Hrun s Hs) as [Hin|(en & k & ? & ? & ? & ?)].
      * by left.
      * right. exists en, k. split; [apply elem_of_cons; by right | done].
Qed.

Lemma list_loop_total index : forall result w,
  forallb entry_ok index = true ->
  exists l w', list_loop index result w = (Ok l, w').
Proof.
  induction index as [|entry rest IH]; intros result w Hok.
  - by exists result, w.
  - cbn [forallb] in Hok. apply andb_true_iff in Hok as [He Hrest].
    rewrite list_loop_cons.
    destruct (listed_entry_ok (disk w) entry He) as [[[s|] ws] ->]; eauto.
Qed.

(** A directory that no index entry names has no part in the listing. *)
Lemma list_loop_untracked k index : forall result w w',
  forallb (fun entry => negb (has_id k entry)) index = true ->
  kb_dirs (disk w') = delete k (kb_dirs (disk w)) ->
  fst (list_loop index result w') = fst (list_loop index result w).
Proof.
  induction index as [|entry rest IH]; intros result w w' Hno Hdel; [done|].
  cbn [forallb] in Hno. apply andb_true_iff in Hno as [He Hrest].
  apply negb_true_iff in He.
  rewrite !list_loop_cons.
  rewrite (listed_entry_untracked (disk w) (disk w') k entry He Hdel).
  destruct (listed_entry (disk w) entry) as [[[s|] ws]|e]; [| |done].
  - by apply IH.
  - by apply IH.
Qed.

End Listing.

(** ** Writers *)

Section Writers.

Implicit Types (w : world) (k : string) (files : gmap string content).

Lemma bind_ok {A B} (m : M A) (c : A -> M B) w a w' :
  m w = (Ok a, w') -> bind m c w = c a w'.
Proof. intros H. unfold bind. by rewrite H. Qed.

Lemma bind_raise {A B} (m : M A) (c : A -> M B) w e w' :
  m w = (Raise e, w') -> bind m c w = (Raise e, w').
Proof. intros H. unfold bind. by rewrite H. Qed.

Lemma kb_dir_exists_run w k :
  kb_dir_exists k w = (Ok (bool_decide (is_Some (kb_dirs (disk w) !! k))), w).
Proof. reflexivity. Qed.

Lemma kb_file_exists_run w k name files :
  kb_dirs (disk w) !! k = Some files ->
  kb_file_exists k name w = (Ok (bool_decide (is_Some (files !! name))), w).
Proof. intros H. unfold kb_file_exists. run. by rewrite H. Qed.

Lemma json_load_run w k name files v :
  kb_dirs (disk w) !! k = Some files ->
  files !! name = Some (Json v) ->
  json_load k name w = (Ok v, w).
Proof. intros H Hf. unfold json_load. run. rewrite H. cbn. by rewrite Hf. Qed.

Lemma json_dump_run w k name v files :
  kb_dirs (disk w) !! k = Some files ->
  json_dump k name v w =
    (Ok tt,
     mkWorld (mkFs (store_exists (disk w)) (index_json (disk w))
                   (<[k := <[name := Json v]> files]> (kb_dirs (disk w))))
             (log w)).
Proof. intros H. unfold json_dump. run. by rewrite H. Qed.

(** The list comprehension of [delete_knowledge_base]. *)
Lemma without_id_run index k w :
  without_id index k w =
    (if forallb is_obj index
     then Ok (List.filter (fun e => negb (has_id k e)) index)
     else Raise AttributeError, w).
Proof.
  induction index as [|e rest IH]; [reflexivity|].
  cbn [without_id forallb List.filter].
  destruct e as [| | | | |?|d]; try reflexivity.
  cbn [is_obj andb has_id].
  unfold bind at 1, lift at 1. cbn [py_get].
  unfold bind at 1. rewrite IH.
  destruct (forallb is_obj rest); [|reflexivity].
  cbv [ret]. by destruct (eq_str _ k).
Qed.

Lemma mkdir_run w k :
  store_exists (disk w) = true ->
  mkdir k w =
    (Ok tt,
     mkWorld (mkFs true (index_json (disk w))
                   (<[k := default ∅ (kb_dirs (disk w) !! k)]> (kb_dirs (disk w))))
             (log w)).
Proof.
  intros Hroot. unfold mkdir. run.
  destruct (kb_dirs (disk w) !! k) eqn:E; cbn.
  - rewrite insert_id by done. destruct w as [[? ? ?] ?].
    cbn in Hroot. by subst.
  - reflexivity.
Qed.

Lemma rmtree_run w k files :
  kb_dirs (disk w) !! k = Some files ->
  rmtree k w =
    (Ok tt,
     mkWorld (mkFs (store_exists (disk w)) (index_json (disk w))
                   (delete k (kb_dirs (disk w)))) (log w)).
Proof. intros H. unfold rmtree. run. by rewrite H. Qed.

Lemma delete_run_absent w k :
  kb_dirs (disk w) !! k = None ->
  delete_knowledge_base k w = (Ok false, w).
Proof.
  intros H. unfold delete_knowledge_base.
  rewrite (bind_ok _ _ _ _ _ (kb_dir_exists_run w k)), H.
  reflexivity.
Qed.

Lemma delete_run_present w k files :
  kb_dirs (disk w) !! k = Some files ->
  delete_knowledge_base k w =
    if forallb is_obj (stored_index (disk w))
    then
      (Ok true,
       mkWorld
         (mkFs true (Some (Json (JList (List.filter (fun e => negb (has_id k e))
                                     (stored_index (disk w))))))
               (delete k (kb_dirs (disk w))))
         (log w ++ index_warnings (disk w)))
    else
      (Raise AttributeError,
       mkWorld (mkFs true (index_json (disk w)) (delete k (kb_dirs (disk w))))
               (log w ++ index_warnings (disk w))).
Proof.
  intros H. unfold delete_knowledge_base.
  rewrite (bind_ok _ _ _ _ _ (kb_dir_exists_run w k)), H.
  rewrite bool_decide_eq_true_2 by eauto. cbn [negb].
  rewrite (bind_ok _ _ _ _ _ (rmtree_run w k files H)).
  rewrite (bind_ok _ _ _ _ _ (load_index_run _)).
  unfold bind at 1. rewrite without_id_run.
  cbn [disk log store_exists index_json kb_dirs].
  change (stored_index (mkFs (store_exists (disk w)) (index_json (disk w))
                          (delete k (kb_dirs (disk w)))))
    with (stored_index (disk w)).
  change (index_warnings (mkFs (store_exists (disk w)) (index_json (disk w))
                            (delete k (kb_dirs (disk w)))))
    with (index_warnings (disk w)).
  destruct (forallb is_obj (stored_index (disk w))); reflexivity.
Qed.

Lemma create_run w uuid4 utcnow name dataset_name schema prompts :
  let k := substring 0 8 uuid4 in
  let files' :=
    created_files (default ∅ (kb_dirs (disk w) !! k))
      k name dataset_name (utcnow +:+ "Z") schema prompts in
  create_knowledge_base uuid4 utcnow name dataset_name schema prompts w =
    (Ok (Some (full_record k files')),
     mkWorld
       (mkFs true (Some (Json (JList (stored_index (disk w) ++
                [JObj (created_meta k name dataset_name (utcnow +:+ "Z"))]))))
             (<[k := files']> (kb_dirs (disk w))))
       (log w ++ index_warnings (disk w) ++ read_warnings k files')).
Proof.
  intros k files'. unfold create_knowledge_base.
  rewrite (bind_ok _ _ _ _ _ (ensure_store_run w)).
  erewrite bind_ok; [|by apply mkdir_run].
  cbn [disk kb_dirs index_json log].
  fold k. set (files0 := default ∅ (kb_dirs (disk w) !! k)).
  erewrite bind_ok; last first.
  { apply json_dump_run. cbn [disk kb_dirs]. apply lookup_insert_eq. }
  cbn [disk kb_dirs index_json log]. rewrite insert_insert_eq.
  erewrite bind_ok; last first.
  { apply json_dump_run. cbn [disk kb_dirs]. apply lookup_insert_eq. }
  cbn [disk kb_dirs index_json log]. rewrite insert_insert_eq.
  erewrite bind_ok; last first.
  { apply json_dump_run. cbn [disk kb_dirs]. apply lookup_insert_eq. }
  cbn [disk kb_dirs index_json log]. rewrite insert_insert_eq.
  rewrite (bind_ok _ _ _ _ _ (load_index_run _)).
  rewrite (bind_ok _ _ _ _ _ (save_index_run _ _)).
  cbn [disk kb_dirs index_json log add_log].
  erewrite get_knowledge_base_present; last first.
  { cbn [disk kb_dirs]. apply lookup_insert_eq. }
  unfold add_log. cbn [disk log]. rewrite <- app_assoc. reflexivity.
Qed.

(** The index loop of [update_knowledge_base] touches neither disk nor
    log, and goes through when the entries are objects. *)
Lemma update_loop_pure index k m now :
  exists o,
    (forall w, update_loop index k (JObj m) now w = (o, w)) /\
    (forallb is_obj index = true -> exists index', o = Ok index').
Proof.
  induction index as [|entry rest (o & Hrun & Hok)].
  - exists (Ok []). split; [done | eauto].
  - destruct entry as [| | | | |?|e];
      try (exists (Raise AttributeError); split; [done | discriminate]).
    cbn [update_loop py_get forallb is_obj andb].
    destruct (eq_str (default JNull (dict_get e "id")) k) eqn:Eid.
    + exists (Ok (JObj
          [("id", JStr k);
           ("name", default (JStr k) (dict_get m "name"));
           ("dataset_name", default (JStr "") (dict_get m "dataset_name"));
           ("created_at",
            default (default (JStr "") (dict_get e "created_at"))
              (dict_get m "created_at"));
           ("updated_at", JStr now)] :: rest)).
      split; [|eauto]. intros w.
      unfold bind at 1, lift at 1. rewrite Eid. reflexivity.
    + destruct o as [index'|ex].
      * exists (Ok (JObj e :: index')). split; [|eauto]. intros w.
        unfold bind at 1, lift at 1. rewrite Eid.
        unfold bind. by rewrite Hrun.
      * exists (Raise ex). split.
        -- intros w. unfold bind at 1, lift at 1. rewrite Eid.
           unfold bind. by rewrite Hrun.
        -- intros H. destruct (Hok H) as [? ?]. discriminate.
Qed.

Lemma update_run_absent w utcnow k name dataset_name schema prompts :
  kb_dirs (disk w) !! k = None ->
  update_knowledge_base utcnow k name dataset_name schema prompts w =
    (Ok None, w).
Proof.
  intros H. unfold update_knowledge_base.
  rewrite (bind_ok _ _ _ _ _ (kb_dir_exists_run w k)), H.
  reflexivity.
Qed.

(** Unparseable metadata: the [json.load] of the update is not guarded. *)
Lemma update_run_garbage w utcnow k files name dataset_name schema prompts :
  kb_dirs (disk w) !! k = Some files ->
  files !! META_FILE = Some Garbage ->
  update_knowledge_base utcnow k name dataset_name schema prompts w =
    (Raise JSONDecodeError, w).
Proof.
  intros H Hm. unfold update_knowledge_base.
  rewrite (bind_ok _ _ _ _ _ (kb_dir_exists_run w k)), H.
  rewrite bool_decide_eq_true_2 by eauto. cbn [negb].
  rewrite (bind_ok _ _ _ _ _ (kb_file_exists_run w k META_FILE files H)), Hm.
  rewrite bool_decide_eq_true_2 by eauto.
  apply bind_raise. unfold json_load. run. rewrite H. cbn.
  by rewrite Hm.
Qed.

(** Metadata that parses but is not an object: the first item
    assignment raises, before anything is written. *)
Lemma update_run_not_obj w utcnow k files v name dataset_name schema prompts :
  kb_dirs (disk w) !! k = Some files ->
  files !! META_FILE = Some (Json v) ->
  is_obj v = false ->
  update_knowledge_base utcnow k name dataset_name schema prompts w =
    (Raise TypeError, w).
Proof.
  intros H Hm Hv. unfold update_knowledge_base.
  rewrite (bind_ok _ _ _ _ _ (kb_dir_exists_run w k)), H.
  rewrite bool_decide_eq_true_2 by eauto. cbn [negb].
  rewrite (bind_ok _ _ _ _ _ (kb_file_exists_run w k META_FILE files H)), Hm.
  rewrite bool_decide_eq_true_2 by eauto.
  rewrite (bind_ok _ _ _ _ _ (json_load_run w k META_FILE files v H Hm)).
  destruct v; try discriminate; destruct name, dataset_name; reflexivity.
Qed.

Lemma write_opt_run w k name doc files :
  kb_dirs (disk w) !! k = Some files ->
  match doc with
  | Some d => json_dump k name (JObj d)
  | None => ret tt
  end w =
    (Ok tt,
     mkWorld (mkFs (store_exists (disk w)) (index_json (disk w))
                   (<[k := write_opt files name doc]> (kb_dirs (disk w))))
             (log w)).
Proof.
  intros H. destruct doc as [d|]; cbn [write_opt].
  - by apply json_dump_run.
  - rewrite insert_id by done. by destruct w as [[? ? ?] ?].
Qed.

Lemma update_run w utcnow k files m name dataset_name schema prompts :
  kb_dirs (disk w) !! k = Some files ->
  meta_dict (files !! META_FILE) = Some m ->
  let m' := updated_meta m k name dataset_name (utcnow +:+ "Z") in
  let files' := updated_files files m' schema prompts in
  let dirs' := <[k := files']> (kb_dirs (disk w)) in
  exists o,
    update_knowledge_base utcnow k name dataset_name schema prompts w =
      match o with
      | Ok index' =>
          (Ok (Some (full_record k files')),
           mkWorld (mkFs true (Some (Json (JList index'))) dirs')
             (log w ++ index_warnings (disk w) ++ read_warnings k files'))
      | Raise e =>
          (Raise e,
           mkWorld (mkFs true (index_json (disk w)) dirs')
             (log w ++ index_warnings (disk w)))
      end /\
    (forallb is_obj (stored_index (disk w)) = true ->
     exists index', o = Ok index').
Proof.
  intros H Hm m' files' dirs'.
  destruct (update_loop_pure (stored_index (disk w)) k m' (utcnow +:+ "Z"))
    as (o & Hloop & Hok).
  exists o. split; [|exact Hok].
  unfold update_knowledge_base.
  rewrite (bind_ok _ _ _ _ _ (kb_dir_exists_run w k)), H.
  rewrite bool_decide_eq_true_2 by eauto. cbn [negb].
  rewrite (bind_ok _ _ _ _ _ (kb_file_exists_run w k META_FILE files H)).
  erewrite (bind_ok _ _ w (JObj m) w); last first.
  { destruct (files !! META_FILE) as [[v|]|] eqn:E; try discriminate.
    - destruct v; try discriminate. cbn in Hm. simplify_eq.
      rewrite bool_decide_eq_true_2 by eauto.
      by apply (json_load_run w k META_FILE files).
    - cbn in Hm. simplify_eq.
      by rewrite bool_decide_eq_false_2 by (intros [? ?]; done). }
  erewrite (bind_ok _ _ w (JObj (set_opt m "name" name)) w);
    [|by destruct name].
  erewrite (bind_ok _ _ w
              (JObj (set_opt (set_opt m "name" name)
                       "dataset_name" dataset_name)) w);
    [|by destruct dataset_name].
  unfold bind at 1, lift at 1. cbn [py_setitem].
  unfold bind at 1, lift at 1. cbn [py_setitem].
  fold (updated_meta m k name dataset_name (utcnow +:+ "Z")). fold m'.
  rewrite (bind_ok _ _ _ _ _ (json_dump_run w k META_FILE (JObj m') files H)).
  erewrite bind_ok; last first.
  { apply write_opt_run. cbn [disk kb_dirs]. apply lookup_insert_eq. }
  cbn [disk kb_dirs index_json log]. rewrite insert_insert_eq.
  erewrite bind_ok; last first.
  { apply write_opt_run. cbn [disk kb_dirs]. apply lookup_insert_eq. }
  cbn [disk kb_dirs index_json log]. rewrite insert_insert_eq.
  fold (updated_files files m' schema prompts). fold files'. fold dirs'.
  rewrite (bind_ok _ _ _ _ _ (load_index_run _)).
  cbn [disk kb_dirs index_json log add_log].
  change (stored_index {| store_exists := true; index_json := index_json (disk w);
                          kb_dirs := dirs' |})
    with (stored_index (disk w)).
  change (index_warnings {| store_exists := true; index_json := index_json (disk w);
                            kb_dirs := dirs' |})
    with (index_warnings (disk w)).
  unfold bind at 1. rewrite Hloop.
  destruct o as [index'|e]; [|reflexivity].
  rewrite (bind_ok _ _ _ _ _ (save_index_run _ _)).
  cbn [disk kb_dirs index_json log].
  erewrite get_knowledge_base_present; last first.
  { cbn [disk kb_dirs]. apply lookup_insert_eq. }
  unfold add_log. cbn [disk log]. rewrite <- app_assoc. reflexivity.
Qed.

End Writers.

(** ** Fields of an assembled record *)

Section Records.

Implicit Types (k key : string) (files : gmap string content) (d : dict).

Lemma dict_set_keeps d key key' v :
  is_Some (dict_get d key) -> is_Some (dict_get (dict_set d key' v) key).
Proof.
  intros H. rewrite dict_get_set. by destruct (String.eqb key' key).
Qed.

Lemma merge_from_seq_keeps items : forall d key,
  is_Some (dict_get d key) ->
  is_Some (dict_get (fst (merge_from_seq d items)) key).
Proof.
  induction items as [|item rest IH]; intros d key H; [done|].
  cbn [merge_from_seq].
  destruct (as_pair item) as [[a b]|e]; [|done].
  unfold store_pair. cbn [fst snd].
  destruct a; cbn [hashable]; try done; try by apply IH.
  apply IH. by apply dict_set_keeps.
Qed.

(** [result.update(meta)] never drops a key, whatever [meta] is. *)
Lemma dict_update_keeps d v key :
  is_Some (dict_get d key) ->
  is_Some (dict_get (fst (dict_update d v)) key).
Proof.
  intros H. destruct v as [| | | |s|items|o]; cbn [dict_update fst]; try done.
  - by destruct s.
  - by apply merge_from_seq_keeps.
  - rewrite dict_get_merge. by destruct (dict_get o key).
Qed.

Lemma full_record_id k files : is_Some (dict_get (full_record k files) "id").
Proof.
  unfold full_record. do 2 apply dict_set_keeps.
  unfold read_meta. destruct (files !! META_FILE) as [[v|]|]; cbn [fst].
  - apply dict_update_keeps. cbn. eauto.
  - cbn. eauto.
  - cbn. eauto.
Qed.

Lemma full_record_schema k files :
  dict_get (full_record k files) "schema" =
    Some (fst (read_doc (files !! SCHEMA_FILE) _default_schema (FailedSchema k))).
Proof.
  unfold full_record.
  rewrite dict_get_set_ne by done. apply dict_get_set_eq.
Qed.

Lemma full_record_prompts k files :
  dict_get (full_record k files) "prompts" =
    Some (fst (read_doc (files !! PROMPTS_FILE) _default_prompts (FailedPrompts k))).
Proof. unfold full_record. apply dict_get_set_eq. Qed.

(** Every other key comes from the metadata step. *)
Lemma full_record_meta_key k files key :
  key <> "schema" -> key <> "prompts" ->
  dict_get (full_record k files) key =
    dict_get (fst (read_meta k (files !! META_FILE))) key.
Proof.
  intros Hs Hp. unfold full_record.
  rewrite !dict_get_set_ne by done. reflexivity.
Qed.

Lemma full_record_meta_obj k files m key :
  files !! META_FILE = Some (Json (JObj m)) ->
  key <> "schema" -> key <> "prompts" -> key <> "id" ->
  dict_get (full_record k files) key = dict_get m key.
Proof.
  intros Hm Hs Hp Hid. rewrite full_record_meta_key by done.
  rewrite Hm. cbn [read_meta dict_update fst].
  rewrite dict_get_merge. destruct (dict_get m key); [done|].
  cbn [dict_get]. destruct (String.eqb_spec "id" key); [congruence | done].
Qed.

Lemma full_record_no_meta k files key :
  files !! META_FILE = None \/ files !! META_FILE = Some Garbage ->
  key <> "schema" -> key <> "prompts" -> key <> "id" ->
  dict_get (full_record k files) key = None.
Proof.
  intros Hm Hs Hp Hid. rewrite full_record_meta_key by done.
  destruct Hm as [-> | ->]; cbn [read_meta fst dict_get];
    destruct (String.eqb_spec "id" key); congruence.
Qed.

End Records.

(** * The claims *)

(** ** Malformed persisted data *)

(** C1.  The claim asks that no operation lets a parse failure reach
    the caller.  [update_knowledge_base] does: on a record whose
    [meta.json] exists and does not parse it raises [JSONDecodeError]
    and leaves disk and log as they were, where [get_knowledge_base] on
    the same store logs one warning and returns a full record. *)
Theorem update_raises_on_malformed_meta :
  forall w utcnow kb_id files name dataset_name schema prompts,
    kb_dirs (disk w) !! kb_id = Some files ->
    files !! META_FILE = Some Garbage ->
    update_knowledge_base utcnow kb_id name dataset_name schema prompts w =
      (Raise JSONDecodeError, w) /\
    exists r ws,
      get_knowledge_base kb_id w = (Ok (Some r), add_log w ws) /\
      In (FailedMeta kb_id JSONDecodeError) ws.
Proof.
  intros w utcnow kb_id files name dataset_name schema prompts Hdir Hmeta.
  split.
  - by eapply update_run_garbage.
  - exists (full_record kb_id files), (read_warnings kb_id files). split.
    + by apply get_knowledge_base_present.
    + unfold read_warnings. rewrite Hmeta. cbn [read_meta snd]. by left.
Qed.

Lemma update_raises_on_malformed_meta_witness :
  let w := mkWorld (mkFs true None {["3f2a9c1e" := {[META_FILE := Garbage]}]}) [] in
  update_knowledge_base "2024-05-01T10:00:00" "3f2a9c1e"
    (Some "Films") None None None w = (Raise JSONDecodeError, w) /\
  exists r ws,
    get_knowledge_base "3f2a9c1e" w = (Ok (Some r), add_log w ws) /\
    In (FailedMeta "3f2a9c1e" JSONDecodeError) ws.
Proof.
  intros w.
  apply (update_raises_on_malformed_meta w "2024-05-01T10:00:00" "3f2a9c1e"
           {[META_FILE := Garbage]} (Some "Films") None None None).
  - vm_compute. reflexivity.
  - vm_compute. reflexivity.
Defined.

(** ** Creation *)

Lemma created_files_meta files k name dataset_name now schema prompts :
  created_files files k name dataset_name now schema prompts !! META_FILE =
    Some (Json (JObj (created_meta k name dataset_name now))).
Proof.
  unfold created_files.
  rewrite !lookup_insert_ne by done. apply lookup_insert_eq.
Qed.

Lemma created_files_schema files k name dataset_name now schema prompts :
  created_files files k name dataset_name now schema prompts !! SCHEMA_FILE =
    Some (Json (JObj (default _default_schema schema))).
Proof.
  unfold created_files.
  rewrite lookup_insert_ne by done. apply lookup_insert_eq.
Qed.

Lemma created_files_prompts files k name dataset_name now schema prompts :
  created_files files k name dataset_name now schema prompts !! PROMPTS_FILE =
    Some (Json (JObj (default _default_prompts prompts))).
Proof. unfold created_files. apply lookup_insert_eq. Qed.

Lemma created_files_no_warnings files k name dataset_name now schema prompts :
  read_warnings k
    (created_files files k name dataset_name now schema prompts) = [].
Proof.
  unfold read_warnings.
  rewrite created_files_meta, created_files_schema, created_files_prompts.
  reflexivity.
Qed.

(** C2.  Whatever the store holds, [create_knowledge_base] returns a
    record, and fetching the returned id right away returns that same
    record: its id is the generated one, its name and dataset name are
    the arguments, and its schema and prompts are the arguments or, when
    omitted, the module defaults. *)
Theorem create_then_get :
  forall w uuid4 utcnow name dataset_name schema prompts,
    let kb_id := substring 0 8 uuid4 in
    let created :=
      create_knowledge_base uuid4 utcnow name dataset_name schema prompts w in
    exists r,
      fst created = Ok (Some r) /\
      get_knowledge_base kb_id (snd created) = (Ok (Some r), snd created) /\
      dict_get r "id" = Some (JStr kb_id) /\
      dict_get r "name" = Some (JStr name) /\
      dict_get r "dataset_name" = Some (JStr dataset_name) /\
      dict_get r "schema" = Some (JObj (default _default_schema schema)) /\
      dict_get r "prompts" = Some (JObj (default _default_prompts prompts)).
Proof.
  intros w uuid4 utcnow name dataset_name schema prompts kb_id created.
  subst created. rewrite create_run. fold kb_id.
  set (files' := created_files _ _ _ _ _ _ _).
  exists (full_record kb_id files'). cbn [fst snd].
  split; [done|]. split.
  { erewrite get_knowledge_base_present;
      [|cbn [disk kb_dirs]; apply lookup_insert_eq].
    subst files'. rewrite created_files_no_warnings.
    unfold add_log. cbn [disk log]. by rewrite !app_nil_r. }
  rewrite full_record_schema, full_record_prompts.
  subst files'. rewrite created_files_schema, created_files_prompts.
  cbn [read_doc fst].
  rewrite !full_record_meta_key by done.
  rewrite created_files_meta. cbn [read_meta dict_update fst].
  rewrite !dict_get_merge. done.
Qed.

(** ** Accessors *)

Lemma get_schema_path_run w k :
  get_schema_path_for_kb k w =
    (Ok (if bool_decide (is_Some (kb_dirs (disk w) !! k ≫= (.!! SCHEMA_FILE)))
         then Some (path_str k SCHEMA_FILE) else None), w).
Proof. reflexivity. Qed.

(** C3, as the claim states it, fails for the path accessor: in a store
    where the directory of record [3f2a9c1e] exists and holds no
    [schema.json], [get_knowledge_base] finds the record while
    [get_schema_path_for_kb] answers not-found. *)
Lemma schema_path_has_no_default :
  ~ (forall w kb_id,
       is_Some (kb_dirs (disk w) !! kb_id) ->
       kb_dirs (disk w) !! kb_id ≫= (.!! SCHEMA_FILE) = None ->
       fst (get_schema_path_for_kb kb_id w) <> Ok None).
Proof.
  intros H.
  apply (H (mkWorld (mkFs true None {["3f2a9c1e" := ∅]}) []) "3f2a9c1e").
  - vm_compute. eauto.
  - vm_compute. reflexivity.
  - vm_compute. reflexivity.
Qed.

(** C3, amended.  All three accessors answer not-found when the record
    directory is absent.  When it is present, [get_schema_dict_for_kb]
    and [get_prompts_for_kb] return the default document for a missing
    file, while [get_schema_path_for_kb] returns the path exactly when
    [schema.json] itself exists and not-found otherwise. *)
Theorem accessors_not_found_and_defaults :
  forall w kb_id,
    (kb_dirs (disk w) !! kb_id = None ->
       fst (get_schema_path_for_kb kb_id w) = Ok None /\
       fst (get_schema_dict_for_kb kb_id w) = Ok None /\
       fst (get_prompts_for_kb kb_id w) = Ok None) /\
    (forall files,
       kb_dirs (disk w) !! kb_id = Some files ->
       (files !! SCHEMA_FILE = None ->
          fst (get_schema_dict_for_kb kb_id w) = Ok (Some (JObj _default_schema))) /\
       (files !! PROMPTS_FILE = None ->
          fst (get_prompts_for_kb kb_id w) = Ok (Some (JObj _default_prompts))) /\
       fst (get_schema_path_for_kb kb_id w) =
         Ok (if bool_decide (is_Some (files !! SCHEMA_FILE))
             then Some (path_str kb_id SCHEMA_FILE) else None)).
Proof.
  intros w kb_id. split.
  - intros Habs. rewrite get_schema_path_run, Habs.
    unfold get_schema_dict_for_kb, get_prompts_for_kb.
    rewrite !(bind_ok _ _ _ _ _ (get_knowledge_base_absent w kb_id Habs)).
    done.
  - intros files Hdir. rewrite get_schema_path_run, Hdir.
    unfold get_schema_dict_for_kb, get_prompts_for_kb.
    rewrite !(bind_ok _ _ _ _ _ (get_knowledge_base_present w kb_id files Hdir)).
    rewrite full_record_schema, full_record_prompts.
    split; [|split; [|done]].
    + by intros ->.
    + by intros ->.
Qed.

Lemma accessors_not_found_and_defaults_witness :
  let w := mkWorld (mkFs true None {["3f2a9c1e" := ∅]}) [] in
  fst (get_schema_dict_for_kb "3f2a9c1e" w) = Ok (Some (JObj _default_schema)) /\
  fst (get_prompts_for_kb "3f2a9c1e" w) = Ok (Some (JObj _default_prompts)) /\
  fst (get_schema_path_for_kb "3f2a9c1e" w) = Ok None /\
  fst (get_schema_dict_for_kb "0badc0de" w) = Ok None.
Proof.
  intros w.
  destruct (accessors_not_found_and_defaults w "3f2a9c1e") as [_ Hpresent].
  destruct (Hpresent ∅) as (Hs & Hp & Hpath).
  { vm_compute. reflexivity. }
  destruct (accessors_not_found_and_defaults w "0badc0de") as [Habsent _].
  destruct Habsent as (_ & Hs0 & _).
  { vm_compute. reflexivity. }
  split; [apply Hs; vm_compute; reflexivity|].
  split; [apply Hp; vm_compute; reflexivity|].
  split; [exact Hpath | exact Hs0].
Defined.

(** ** Timestamps *)

Section Timestamps.

Implicit Types (w : world) (k : string).

Lemma updated_meta_created_at m k name dataset_name now :
  dict_get (updated_meta m k name dataset_name now) "created_at" =
    dict_get m "created_at".
Proof.
  unfold updated_meta, set_opt.
  rewrite !dict_get_set_ne by done.
  destruct dataset_name, name; rewrite ?dict_get_set_ne by done; done.
Qed.

Lemma updated_meta_updated_at m k name dataset_name now :
  dict_get (updated_meta m k name dataset_name now) "updated_at" =
    Some (JStr now).
Proof.
  unfold updated_meta.
  rewrite dict_get_set_ne by done. apply dict_get_set_eq.
Qed.

Lemma updated_files_meta files m' schema prompts :
  updated_files files m' schema prompts !! META_FILE = Some (Json (JObj m')).
Proof.
  unfold updated_files, write_opt.
  destruct prompts, schema; rewrite ?lookup_insert_ne by done;
    apply lookup_insert_eq.
Qed.

Lemma create_stamped w uuid4 utcnow name dataset_name schema prompts :
  stamped
    (snd (create_knowledge_base uuid4 utcnow name dataset_name schema prompts w))
    (substring 0 8 uuid4) (utcnow +:+ "Z") (utcnow +:+ "Z").
Proof.
  rewrite create_run. cbn [snd].
  eexists _, _. split; [apply lookup_insert_eq|].
  split; [apply created_files_meta|]. done.
Qed.

(** An update re-stamps [updated_at] and leaves [created_at], also
    when it raises later on, in the index loop. *)
Lemma update_stamped w k c u utcnow name dataset_name schema prompts :
  stamped w k c u ->
  stamped
    (snd (update_knowledge_base utcnow k name dataset_name schema prompts w))
    k c (utcnow +:+ "Z").
Proof.
  intros (files & m & Hdir & Hmeta & Hc & Hu).
  destruct (update_run w utcnow k files m name dataset_name schema prompts Hdir)
    as (o & -> & _); [by rewrite Hmeta|].
  eexists _, _. split.
  { destruct o; cbn [snd disk kb_dirs]; apply lookup_insert_eq. }
  split; [apply updated_files_meta|].
  by rewrite updated_meta_created_at, updated_meta_updated_at.
Qed.

Lemma stamped_get w k c u :
  stamped w k c u ->
  exists r,
    fst (get_knowledge_base k w) = Ok (Some r) /\
    dict_get r "created_at" = Some (JStr c) /\
    dict_get r "updated_at" = Some (JStr u).
Proof.
  intros (files & m & Hdir & Hmeta & Hc & Hu).
  exists (full_record k files).
  rewrite (get_knowledge_base_present w k files Hdir).
  rewrite !(full_record_meta_obj k files m) by done. done.
Qed.

Lemma last_cons_default (l : list string) : forall a d,
  List.last (a :: l) d = List.last l a.
Proof.
  induction l as [|b l IH]; intros a d; [done|].
  change (List.last (a :: b :: l) d) with (List.last (b :: l) d).
  by rewrite !IH.
Qed.

Lemma run_updates_stamped k calls : forall w c u,
  stamped w k c u ->
  stamped (run_updates k calls w) k c
    (List.last (map (fun call => call_utcnow call +:+ "Z") calls) u).
Proof.
  induction calls as [|call rest IH]; intros w c u H; [done|].
  cbn [run_updates map].
  apply (update_stamped _ _ _ _ (call_utcnow call) (call_name call)
           (call_dataset_name call) (call_schema call) (call_prompts call))
    in H.
  apply IH in H. by rewrite last_cons_default.
Qed.

End Timestamps.

(** C4, as the claim states it, fails.  The stamps are the texts of
    [datetime.utcnow().isoformat()] with ["Z"] appended, and the code
    never compares them.  [isoformat] leaves the fraction out when the
    microseconds are zero, so a record created at 10:00:00 sharp and
    updated half a second later reads [created_at]
    ["2024-05-01T10:00:00Z"] and [updated_at]
    ["2024-05-01T10:00:00.500000Z"]: the first is above the second as
    strings, ["Z"] coming after ["."]. *)
Lemma created_at_can_exceed_updated_at :
  ~ (forall w uuid4 utcnow name dataset_name schema prompts calls r c u,
       let kb_id := substring 0 8 uuid4 in
       let w1 :=
         snd (create_knowledge_base uuid4 utcnow name dataset_name
                schema prompts w) in
       fst (get_knowledge_base kb_id (run_updates kb_id calls w1)) =
         Ok (Some r) ->
       dict_get r "created_at" = Some (JStr c) ->
       dict_get r "updated_at" = Some (JStr u) ->
       (c <=? u)%string = true).
Proof.
  intros H.
  pose (w := mkWorld (mkFs false None ∅) []).
  pose (calls := [mkCall "2024-05-01T10:00:00.500000" (Some "Films")
                    None None None]).
  pose (w2 :=
          run_updates "3f2a9c1e" calls
            (snd (create_knowledge_base "3f2a9c1e-7b1d-4c0a-9e55-0123456789ab"
                    "2024-05-01T10:00:00" "Movies" "imdb_sample" None None w))).
  assert (("2024-05-01T10:00:00Z" <=? "2024-05-01T10:00:00.500000Z")%string
          = true) as Hbad.
  { apply (H w "3f2a9c1e-7b1d-4c0a-9e55-0123456789ab" "2024-05-01T10:00:00"
             "Movies" "imdb_sample" None None calls
             (match fst (get_knowledge_base "3f2a9c1e" w2) with
              | Ok (Some r) => r
              | _ => []
              end)).
    - vm_compute. reflexivity.
    - vm_compute. reflexivity.
    - vm_compute. reflexivity. }
  vm_compute in Hbad. discriminate.
Qed.

(** C4, amended.  Create a record at clock reading [utcnow], then run
    any sequence of updates on it, each to its end whether it returns or
    raises (every intermediate state is the end of a shorter sequence).
    Right after the creation the record reads both stamps as the
    creation stamp.  After the updates it reads [created_at] as stamped
    at creation, unchanged, and [updated_at] as stamped by the last
    update, or by the creation when there was none. *)
Theorem created_at_fixed_updated_at_last_stamp :
  forall w uuid4 utcnow name dataset_name schema prompts calls,
    let kb_id := substring 0 8 uuid4 in
    let created_stamp := utcnow +:+ "Z" in
    let w1 :=
      snd (create_knowledge_base uuid4 utcnow name dataset_name schema prompts w) in
    let last_stamp :=
      List.last (map (fun call => call_utcnow call +:+ "Z") calls) created_stamp in
    (exists r0,
       fst (get_knowledge_base kb_id w1) = Ok (Some r0) /\
       dict_get r0 "created_at" = Some (JStr created_stamp) /\
       dict_get r0 "updated_at" = Some (JStr created_stamp)) /\
    exists r,
      fst (get_knowledge_base kb_id (run_updates kb_id calls w1)) = Ok (Some r) /\
      dict_get r "created_at" = Some (JStr created_stamp) /\
      dict_get r "updated_at" = Some (JStr last_stamp).
Proof.
  intros w uuid4 utcnow name dataset_name schema prompts calls
    kb_id created_stamp w1 last_stamp.
  pose proof (create_stamped w uuid4 utcnow name dataset_name schema prompts)
    as Hcreated.
  split; [exact (stamped_get _ _ _ _ Hcreated)|].
  apply (run_updates_stamped kb_id calls) in Hcreated.
  exact (stamped_get _ _ _ _ Hcreated).
Qed.

(** ** Updates *)

Section Updates.

Implicit Types (w : world) (k : string) (files : gmap string content).

Lemma updated_meta_name m k name dataset_name now :
  dict_get (updated_meta m k name dataset_name now) "name" =
    match name with
    | Some n => Some (JStr n)
    | None => dict_get m "name"
    end.
Proof.
  unfold updated_meta, set_opt.
  rewrite !dict_get_set_ne by done.
  destruct dataset_name, name;
    rewrite ?dict_get_set_ne by done; rewrite ?dict_get_set_eq; done.
Qed.

Lemma updated_meta_dataset_name m k name dataset_name now :
  dict_get (updated_meta m k name dataset_name now) "dataset_name" =
    match dataset_name with
    | Some d => Some (JStr d)
    | None => dict_get m "dataset_name"
    end.
Proof.
  unfold updated_meta, set_opt.
  rewrite !dict_get_set_ne by done.
  destruct dataset_name, name;
    rewrite ?dict_get_set_eq; rewrite ?dict_get_set_ne by done; done.
Qed.

Lemma updated_files_schema files m' schema prompts :
  updated_files files m' schema prompts !! SCHEMA_FILE =
    match schema with
    | Some s => Some (Json (JObj s))
    | None => files !! SCHEMA_FILE
    end.
Proof.
  unfold updated_files, write_opt.
  destruct prompts, schema; rewrite ?lookup_insert_ne by done;
    rewrite ?lookup_insert_eq; rewrite ?lookup_insert_ne by done; done.
Qed.

Lemma updated_files_prompts files m' schema prompts :
  updated_files files m' schema prompts !! PROMPTS_FILE =
    match prompts with
    | Some p => Some (Json (JObj p))
    | None => files !! PROMPTS_FILE
    end.
Proof.
  unfold updated_files, write_opt.
  destruct prompts, schema; rewrite ?lookup_insert_eq;
    rewrite ?lookup_insert_ne by done; done.
Qed.

(** A metadata key of the record as read before the update, when the
    stored metadata is an object or missing. *)
Lemma full_record_meta_dict k files m key :
  meta_dict (files !! META_FILE) = Some m ->
  key <> "schema" -> key <> "prompts" -> key <> "id" ->
  dict_get (full_record k files) key = dict_get m key.
Proof.
  intros Hm Hs Hp Hid.
  destruct (files !! META_FILE) as [[v|]|] eqn:E; try discriminate.
  - destruct v; try discriminate. cbn in Hm. simplify_eq.
    by apply full_record_meta_obj.
  - cbn in Hm. simplify_eq.
    rewrite full_record_no_meta by auto. done.
Qed.

End Updates.

(** What an update leaves on disk for its record: nothing new when the
    stored metadata stops it before the first write, the rewritten
    directory otherwise, also when the index loop raises afterwards. *)
Lemma update_disk_cases w utcnow k files name dataset_name schema prompts :
  kb_dirs (disk w) !! k = Some files ->
  let updated :=
    update_knowledge_base utcnow k name dataset_name schema prompts w in
  (meta_dict (files !! META_FILE) = None /\ snd updated = w) \/
  (exists m,
     meta_dict (files !! META_FILE) = Some m /\
     kb_dirs (disk (snd updated)) !! k =
       Some (updated_files files
               (updated_meta m k name dataset_name (utcnow +:+ "Z"))
               schema prompts)).
Proof.
  intros Hdir updated. subst updated.
  destruct (meta_dict (files !! META_FILE)) as [m|] eqn:Hm.
  - right. exists m. split; [done|].
    destruct (update_run w utcnow k files m name dataset_name schema prompts
                Hdir Hm) as (o & -> & _).
    destruct o; cbn [snd disk kb_dirs]; apply lookup_insert_eq.
  - left. split; [done|].
    destruct (files !! META_FILE) as [[v|]|] eqn:E; try discriminate.
    + erewrite update_run_not_obj; [done..|]. by destruct v.
    + by erewrite update_run_garbage.
Qed.

(** C5.  For every record whose directory exists, compare the record
    as [get_knowledge_base] reads it before and after a call of
    [update_knowledge_base], whether the call returns or raises: each of
    [name], [dataset_name], [schema] and [prompts] that was not supplied
    reads the same, and so does [created_at]; with only [name] supplied
    the dataset name, the schema and the prompts are unchanged.  When
    the stored metadata is missing or an object and the index entries
    are objects, the call returns the record read afterwards, every
    supplied field reads as supplied, and [updated_at] is the new
    stamp. *)
Theorem update_changes_only_supplied_fields :
  forall w utcnow kb_id files name dataset_name schema prompts,
    kb_dirs (disk w) !! kb_id = Some files ->
    let updated :=
      update_knowledge_base utcnow kb_id name dataset_name schema prompts w in
    exists before after,
      fst (get_knowledge_base kb_id w) = Ok (Some before) /\
      fst (get_knowledge_base kb_id (snd updated)) = Ok (Some after) /\
      (name = None -> dict_get after "name" = dict_get before "name") /\
      (dataset_name = None ->
         dict_get after "dataset_name" = dict_get before "dataset_name") /\
      (schema = None -> dict_get after "schema" = dict_get before "schema") /\
      (prompts = None -> dict_get after "prompts" = dict_get before "prompts") /\
      dict_get after "created_at" = dict_get before "created_at" /\
      (is_Some (meta_dict (files !! META_FILE)) ->
       forallb is_obj (stored_index (disk w)) = true ->
       fst updated = Ok (Some after) /\
       (forall n, name = Some n -> dict_get after "name" = Some (JStr n)) /\
       (forall d, dataset_name = Some d ->
          dict_get after "dataset_name" = Some (JStr d)) /\
       (forall s, schema = Some s -> dict_get after "schema" = Some (JObj s)) /\
       (forall p, prompts = Some p -> dict_get after "prompts" = Some (JObj p)) /\
       dict_get after "updated_at" = Some (JStr (utcnow +:+ "Z"))).
Proof.
  intros w utcnow kb_id files name dataset_name schema prompts Hdir updated.
  exists (full_record kb_id files).
  rewrite (get_knowledge_base_present w kb_id files Hdir).
  destruct (update_disk_cases w utcnow kb_id files name dataset_name schema
              prompts Hdir) as [[Hnone Hsame]|(m & Hm & Hdir')];
    fold updated in Hsame || fold updated in Hdir'.
  - exists (full_record kb_id files). rewrite Hsame.
    rewrite (get_knowledge_base_present w kb_id files Hdir).
    repeat (split; [done|]). rewrite Hnone. by intros [? ?].
  - set (m' := updated_meta m kb_id name dataset_name (utcnow +:+ "Z")) in *.
    set (files' := updated_files files m' schema prompts) in *.
    exists (full_record kb_id files').
    rewrite (get_knowledge_base_present _ kb_id files' Hdir').
    split; [done|]. split; [done|].
    rewrite (full_record_meta_obj kb_id files' m' "name"),
      (full_record_meta_obj kb_id files' m' "dataset_name"),
      (full_record_meta_obj kb_id files' m' "created_at"),
      (full_record_meta_obj kb_id files' m' "updated_at")
      by (done || apply updated_files_meta).
    rewrite (full_record_meta_dict kb_id files m "name"),
      (full_record_meta_dict kb_id files m "dataset_name"),
      (full_record_meta_dict kb_id files m "created_at") by done.
    rewrite !full_record_schema, !full_record_prompts.
    subst files'. rewrite updated_files_schema, updated_files_prompts.
    subst m'.
    rewrite updated_meta_name, updated_meta_dataset_name,
      updated_meta_created_at, updated_meta_updated_at.
    split; [by intros ->|]. split; [by intros ->|].
    split; [by intros ->|]. split; [by intros ->|]. split; [done|].
    intros _ Hindex.
    destruct (update_run w utcnow kb_id files m name dataset_name schema
                prompts Hdir Hm) as (o & Hrun & Hok).
    destruct (Hok Hindex) as [index' ->].
    subst updated. rewrite Hrun. cbn [fst].
    split; [done|].
    split; [by intros n ->|]. split; [by intros d ->|].
    split; [by intros s ->|]. split; [by intros p ->|]. done.
Qed.

Lemma update_changes_only_supplied_fields_witness :
  let w1 :=
    snd (create_knowledge_base "3f2a9c1e-7b1d-4c0a-9e55-0123456789ab"
           "2024-05-01T10:00:00.500000" "Movies" "imdb_sample" None None
           (mkWorld (mkFs false None ∅) [])) in
  let updated :=
    update_knowledge_base "2024-05-01T10:00:01.250000" "3f2a9c1e"
      (Some "Films") None None None w1 in
  exists before after,
    fst (get_knowledge_base "3f2a9c1e" w1) = Ok (Some before) /\
    fst (get_knowledge_base "3f2a9c1e" (snd updated)) = Ok (Some after) /\
    fst updated = Ok (Some after) /\
    dict_get after "name" = Some (JStr "Films") /\
    dict_get after "dataset_name" = dict_get before "dataset_name" /\
    dict_get after "schema" = dict_get before "schema" /\
    dict_get after "prompts" = dict_get before "prompts" /\
    dict_get after "created_at" = dict_get before "created_at" /\
    dict_get after "updated_at" = Some (JStr "2024-05-01T10:00:01.250000Z").
Proof.
  intros w1 updated.
  destruct (update_changes_only_supplied_fields w1
              "2024-05-01T10:00:01.250000" "3f2a9c1e"
              (created_files ∅ "3f2a9c1e" "Movies" "imdb_sample"
                 "2024-05-01T10:00:00.500000Z" None None)
              (Some "Films") None None None)
    as (before & after & Hb & Ha & _ & Hd & Hs & Hp & Hc & Hok).
  { vm_compute. reflexivity. }
  destruct Hok as (Hret & Hn & _ & _ & _ & Hu).
  { vm_compute. eauto. }
  { vm_compute. reflexivity. }
  exists before, after.
  split; [exact Hb|]. split; [exact Ha|]. split; [exact Hret|].
  split; [by apply Hn|]. split; [by apply Hd|]. split; [by apply Hs|].
  split; [by apply Hp|]. split; [exact Hc | exact Hu].
Defined.

(** ** Deletion *)

Section Deletion.

Implicit Types (w : world) (k : string).

Lemma list_knowledge_bases_run w :
  list_knowledge_bases w =
    list_loop (stored_index (disk w)) []
      (mkWorld (mkFs true (index_json (disk w)) (kb_dirs (disk w)))
         (log w ++ index_warnings (disk w))).
Proof.
  unfold list_knowledge_bases.
  by rewrite (bind_ok _ _ _ _ _ (load_index_run w)).
Qed.

Lemma forallb_filter {A} (p q : A -> bool) (l : list A) :
  forallb p l = true -> forallb p (List.filter q l) = true.
Proof.
  induction l as [|a l IH]; [done|]. cbn [forallb List.filter].
  intros [Ha Hl]%andb_true_iff. destruct (q a); cbn [forallb]; auto.
  by rewrite Ha, IH.
Qed.

(** No summary carries an id that no index entry has. *)
Lemma list_loop_without k index w l w' :
  forallb (fun e => negb (has_id k e)) index = true ->
  list_loop index [] w = (Ok l, w') ->
  forall s, s ∈ l -> dict_get s "id" <> Some (JStr k).
Proof.
  intros Hno Hrun s Hs Hid.
  destruct (list_loop_ids _ _ _ _ _ Hrun s Hs)
    as [Hin|(entry & k' & Hin & Hk' & _ & Hid')].
  - by apply elem_of_nil in Hin.
  - rewrite Hid in Hid'. simplify_eq.
    rewrite forallb_forall in Hno.
    apply list_elem_of_In, Hno in Hin. by rewrite Hk' in Hin.
Qed.

Lemma filter_without k (index : list json) :
  forallb (fun e => negb (has_id k e))
    (List.filter (fun e => negb (has_id k e)) index) = true.
Proof.
  apply forallb_forall. intros e He. by apply filter_In in He as [_ ?].
Qed.

End Deletion.


(** C6.  The claim asks that deleting a record whose directory exists
    removes its index entries, persists the index and returns true.
    When the stored index holds anything but objects,
    [delete_knowledge_base] does not: the directory tree is removed
    first, then the list comprehension calls [.get] on the entry that
    is not an object and the call raises [AttributeError].  The index is
    never written back, so it still holds every entry it held, those of
    the deleted record included, and [get_knowledge_base] answers
    not-found for the id from then on. *)
Theorem delete_raises_on_non_object_entry :
  forall w kb_id files,
    kb_dirs (disk w) !! kb_id = Some files ->
    forallb is_obj (stored_index (disk w)) = false ->
    let deleted := delete_knowledge_base kb_id w in
    fst deleted = Raise AttributeError /\
    kb_dirs (disk (snd deleted)) = delete kb_id (kb_dirs (disk w)) /\
    index_json (disk (snd deleted)) = index_json (disk w) /\
    fst (get_knowledge_base kb_id (snd deleted)) = Ok None.
Proof.
  intros w kb_id files Hdir Hbad deleted. subst deleted.
  rewrite (delete_run_present w kb_id files Hdir), Hbad.
  cbn [fst snd disk kb_dirs index_json].
  split; [done|]. split; [done|]. split; [done|].
  rewrite get_knowledge_base_absent; [done|].
  cbn [disk kb_dirs]. apply lookup_delete_eq.
Qed.

Lemma delete_raises_on_non_object_entry_witness :
  let w := mkWorld (mkFs true (Some (Json (JList [JStr "3f2a9c1e"])))
                         {["3f2a9c1e" := ∅]}) [] in
  let deleted := delete_knowledge_base "3f2a9c1e" w in
  fst deleted = Raise AttributeError /\
  kb_dirs (disk (snd deleted)) = delete "3f2a9c1e" (kb_dirs (disk w)) /\
  index_json (disk (snd deleted)) = Some (Json (JList [JStr "3f2a9c1e"])) /\
  fst (get_knowledge_base "3f2a9c1e" (snd deleted)) = Ok None.
Proof.
  intros w deleted.
  apply (delete_raises_on_non_object_entry w "3f2a9c1e" ∅).
  - vm_compute. reflexivity.
  - vm_compute. reflexivity.
Defined.


(** ** Listing as a function of the disk *)

Section ListingSpec.

Implicit Types (w : world) (f : fs).

Lemma list_loop_listing index : forall result w,
  fst (list_loop index result w) =
    match listing (disk w) index with
    | Ok l => Ok (result ++ l)
    | Raise e => Raise e
    end.
Proof.
  induction index as [|entry rest IH]; intros result w.
  - cbn. by rewrite app_nil_r.
  - rewrite list_loop_cons. cbn [listing].
    destruct (listed_entry (disk w) entry) as [[[s|] ws]|e]; [| |done].
    + rewrite IH. cbn [add_log disk].
      destruct (listing (disk w) rest); [|done].
      by rewrite <- app_assoc.
    + rewrite IH. by destruct (listing (disk w) rest).
Qed.

(** The listing reads the disk through the record directories only. *)
Lemma listing_dirs f f' index :
  kb_dirs f' = kb_dirs f -> listing f' index = listing f index.
Proof.
  intros Hdirs. induction index as [|entry rest IH]; [done|].
  cbn [listing]. rewrite IH.
  replace (listed_entry f' entry) with (listed_entry f entry); [done|].
  destruct entry as [| | | | |?|e]; try reflexivity.
  cbn [listed_entry]. by rewrite Hdirs.
Qed.

Lemma list_knowledge_bases_listing w :
  fst (list_knowledge_bases w) = listing (disk w) (stored_index (disk w)).
Proof.
  rewrite list_knowledge_bases_run, list_loop_listing. cbn [disk].
  rewrite (listing_dirs (disk w)) by done.
  by destruct (listing _ _).
Qed.

(** A listing that returns has met objects only. *)
Lemma listing_ok_obj f (index : list json) l :
  listing f index = Ok l -> forallb is_obj index = true.
Proof.
  revert l. induction index as [|x rest IH]; intros l Hl; [done|].
  cbn [listing] in Hl.
  destruct (listed_entry f x) as [[sx wsx]|ex] eqn:Ex; [|done].
  destruct (listing f rest) as [l'|]; [|done].
  cbn [forallb]. rewrite (IH l') by done.
  by destruct x.
Qed.

End ListingSpec.

(** C7, as the claim states it, fails: with index entry
    [{"id": "3f2a9c1e", "name": "Movies"}] and a [meta.json] that parses
    to [{"id": "3f2a9c1e"}], the name is in the index entry and not in
    the metadata, and the summary's name is the id, not ["Movies"]. *)
Lemma listing_does_not_merge_index_fields :
  ~ (forall w e k m l,
       stored_index (disk w) = [JObj e] ->
       dict_get e "id" = Some (JStr k) ->
       kb_dirs (disk w) !! k ≫= (.!! META_FILE) = Some (Json (JObj m)) ->
       fst (list_knowledge_bases w) = Ok l ->
       forall s field v,
         s ∈ l ->
         dict_get m field = None ->
         dict_get e field = Some v ->
         dict_get s field = Some v).
Proof.
  intros H.
  pose (e := [("id", JStr "3f2a9c1e"); ("name", JStr "Movies")]).
  pose (m := [("id", JStr "3f2a9c1e")]).
  pose (w := mkWorld
               (mkFs true (Some (Json (JList [JObj e])))
                     {["3f2a9c1e" := {[META_FILE := Json (JObj m)]}]}) []).
  specialize (H w e "3f2a9c1e" m [summary_of m "3f2a9c1e"]).
  specialize (H eq_refl eq_refl).
  assert (dict_get (summary_of m "3f2a9c1e") "name" = Some (JStr "Movies"))
    as Hbad.
  { apply H.
    - vm_compute. reflexivity.
    - vm_compute. reflexivity.
    - apply list_elem_of_singleton. reflexivity.
    - reflexivity.
    - reflexivity. }
  vm_compute in Hbad. discriminate.
Qed.

(** C7, amended.  On an index whose entries are objects with a string
    or falsy id, [list_knowledge_bases] returns, and what it returns is
    one summary for each entry with a non-empty id, in index order.  The
    summary carries the id of its entry.  When [meta.json] of that id is
    present and parses to an object, the other four fields come from
    the metadata alone, a field the metadata lacks taking its default
    (the id for the name, the empty string otherwise) whatever the index
    entry holds.  When the file is absent, does not parse, or parses to
    something that is not an object, the four fields come from the
    index entry, with the same defaults. *)
Theorem listing_prefers_metadata_alone :
  forall w,
    forallb entry_ok (stored_index (disk w)) = true ->
    exists l,
      fst (list_knowledge_bases w) = Ok l /\
      Forall2
        (fun entry s =>
           exists e k,
             entry = JObj e /\ dict_get e "id" = Some (JStr k) /\ k <> "" /\
             let src :=
               match kb_dirs (disk w) !! k ≫= (.!! META_FILE) with
               | Some (Json (JObj m)) => m
               | _ => e
               end in
             s = [("id", JStr k);
                  ("name", default (JStr k) (dict_get src "name"));
                  ("dataset_name", default (JStr "") (dict_get src "dataset_name"));
                  ("created_at", default (JStr "") (dict_get src "created_at"));
                  ("updated_at", default (JStr "") (dict_get src "updated_at"))])
        (List.filter has_truthy_id (stored_index (disk w)))
        l.
Proof.
  intros w Hok. rewrite list_knowledge_bases_listing.
  induction (stored_index (disk w)) as [|entry rest IH].
  - exists []. split; [done | constructor].
  - cbn [forallb] in Hok. apply andb_true_iff in Hok as [He Hrest].
    destruct (IH Hrest) as (l & Hl & Hall). clear IH.
    destruct entry as [| | | | |?|e]; try discriminate.
    cbn [listing listed_entry List.filter has_truthy_id]. rewrite Hl.
    cbn [entry_ok] in He.
    destruct (truthy (default JNull (dict_get e "id"))) eqn:Etr; cbn [negb];
      [|by exists l].
    destruct (default JNull (dict_get e "id")) as [|b|n|x|k|items|o] eqn:Eid;
      try (rewrite Etr in He; discriminate).
    assert (k <> "") as Hk.
    { intros ->. cbn in Etr. discriminate. }
    assert (dict_get e "id" = Some (JStr k)) as Hid.
    { destruct (dict_get e "id"); cbn in Eid; by simplify_eq. }
    exists (summary_of
              (match kb_dirs (disk w) !! k ≫= (.!! META_FILE) with
               | Some (Json (JObj m)) => m
               | _ => e
               end) k :: l).
    split.
    { destruct (kb_dirs (disk w) !! k ≫= (.!! META_FILE)) as [[v|]|];
        [destruct v|..]; reflexivity. }
    constructor; [|done]. exists e, k. by repeat split.
Qed.

Lemma listing_prefers_metadata_alone_witness :
  let e1 := [("id", JStr "3f2a9c1e"); ("name", JStr "Movies")] in
  let e2 := [("id", JStr "0badc0de"); ("name", JStr "Books")] in
  let m := [("id", JStr "3f2a9c1e"); ("created_at", JStr "2024-05-01T10:00:00Z")] in
  let w := mkWorld
             (mkFs true
                (Some (Json (JList [JObj e1; JObj [("name", JStr "orphan")];
                                    JObj e2])))
                {["3f2a9c1e" := {[META_FILE := Json (JObj m)]}]}) [] in
  fst (list_knowledge_bases w) =
    Ok [[("id", JStr "3f2a9c1e"); ("name", JStr "3f2a9c1e");
         ("dataset_name", JStr "");
         ("created_at", JStr "2024-05-01T10:00:00Z");
         ("updated_at", JStr "")];
        [("id", JStr "0badc0de"); ("name", JStr "Books");
         ("dataset_name", JStr ""); ("created_at", JStr "");
         ("updated_at", JStr "")]].
Proof.
  intros e1 e2 m w.
  destruct (listing_prefers_metadata_alone w) as (l & Hl & Hall).
  { vm_compute. reflexivity. }
  rewrite Hl. f_equal.
  change (List.filter has_truthy_id (stored_index (disk w)))
    with [JObj e1; JObj e2] in Hall.
  inversion Hall as [|? s1 ? l1 (? & k1 & ? & Hk1 & _ & ->) Hall1]; subst.
  inversion Hall1 as [|? s2 ? l2 (? & k2 & ? & Hk2 & _ & ->) Hall2]; subst.
  inversion Hall2; subst. simplify_eq.
  vm_compute in Hk1. vm_compute in Hk2. simplify_eq.
  vm_compute. reflexivity.
Defined.

(** ** Directories and the index *)


(** C8.  The claim asks that a record directory that is present counts
    whatever the index holds.  For reading it does: [get_knowledge_base]
    never looks at the index.  For deleting and listing it does not: in
    a store where no index entry names the record and some index entry
    is not an object, [delete_knowledge_base] removes the directory and
    then raises [AttributeError] from the list comprehension over the
    index, and [list_knowledge_bases] raises as well. *)
Theorem untracked_record_meets_damaged_index :
  forall w kb_id files,
    kb_dirs (disk w) !! kb_id = Some files ->
    forallb (fun e => negb (has_id kb_id e)) (stored_index (disk w)) = true ->
    forallb is_obj (stored_index (disk w)) = false ->
    (exists r, fst (get_knowledge_base kb_id w) = Ok (Some r)) /\
    fst (delete_knowledge_base kb_id w) = Raise AttributeError /\
    kb_dirs (disk (snd (delete_knowledge_base kb_id w))) !! kb_id = None /\
    (exists e, fst (list_knowledge_bases w) = Raise e).
Proof.
  intros w kb_id files Hdir _ Hbad.
  split.
  { exists (full_record kb_id files).
    by rewrite (get_knowledge_base_present w kb_id files Hdir). }
  rewrite (delete_run_present w kb_id files Hdir), Hbad.
  cbn [fst snd disk kb_dirs].
  split; [done|]. split; [apply lookup_delete_eq|].
  rewrite list_knowledge_bases_listing.
  destruct (listing (disk w) (stored_index (disk w))) as [l|e] eqn:Hl;
    [|by exists e].
  apply listing_ok_obj in Hl. congruence.
Qed.

Lemma untracked_record_meets_damaged_index_witness :
  let w := mkWorld (mkFs true (Some (Json (JList [JInt 1])))
                         {["3f2a9c1e" := ∅]}) [] in
  (exists r, fst (get_knowledge_base "3f2a9c1e" w) = Ok (Some r)) /\
  fst (delete_knowledge_base "3f2a9c1e" w) = Raise AttributeError /\
  kb_dirs (disk (snd (delete_knowledge_base "3f2a9c1e" w))) !! "3f2a9c1e" = None /\
  (exists e, fst (list_knowledge_bases w) = Raise e).
Proof.
  intros w.
  apply (untracked_record_meets_damaged_index w "3f2a9c1e" ∅).
  - vm_compute. reflexivity.
  - vm_compute. reflexivity.
  - vm_compute. reflexivity.
Defined.


(** ** Keys of a returned record *)

(** C9, as the claim states it, fails: the values under the three keys
    are whatever the files hold, and a file can hold [null].  With the
    directory of [3f2a9c1e] present and a [schema.json] that parses to
    [null], the record is returned with [None] under ["schema"]. *)
Lemma record_values_can_be_null :
  ~ (forall w kb_id r,
       fst (get_knowledge_base kb_id w) = Ok (Some r) ->
       forall key, key ∈ ["id"; "schema"; "prompts"] ->
         exists v, dict_get r key = Some v /\ v <> JNull).
Proof.
  intros H.
  pose (files := ({[SCHEMA_FILE := Json JNull]} : gmap string content)).
  pose (w := mkWorld (mkFs true None {["3f2a9c1e" := files]}) []).
  destruct (H w "3f2a9c1e" (full_record "3f2a9c1e" files)) with (key := "schema")
    as (v & Hv & Hnull).
  - vm_compute. reflexivity.
  - apply elem_of_cons. right. apply elem_of_cons. by left.
  - vm_compute in Hv. by simplify_eq.
Qed.

(** C9, amended.  A record returned by [get_knowledge_base] always has
    the keys ["id"], ["schema"] and ["prompts"].  The schema and the
    prompts are what the file parses to, whatever JSON value that is,
    and the module default when the file is missing or does not parse.
    The id is the one asked for unless the metadata say otherwise: with
    an object in [meta.json] it is the object's ["id"] when that has
    one, whatever value that is.  When [meta.json] is missing or does
    not parse, the id is the one asked for and the record has no
    ["name"], ["dataset_name"], ["created_at"] or ["updated_at"] key at
    all. *)
Theorem get_record_keys :
  forall w kb_id,
    (forall r,
       fst (get_knowledge_base kb_id w) = Ok (Some r) ->
       exists files,
         kb_dirs (disk w) !! kb_id = Some files /\
         is_Some (dict_get r "id") /\
         (forall m, files !! META_FILE = Some (Json (JObj m)) ->
            dict_get r "id" = Some (default (JStr kb_id) (dict_get m "id"))) /\
         dict_get r "schema" =
           Some (match files !! SCHEMA_FILE with
                 | Some (Json v) => v
                 | _ => JObj _default_schema
                 end) /\
         dict_get r "prompts" =
           Some (match files !! PROMPTS_FILE with
                 | Some (Json v) => v
                 | _ => JObj _default_prompts
                 end)) /\
    (forall files,
       kb_dirs (disk w) !! kb_id = Some files ->
       files !! META_FILE = None \/ files !! META_FILE = Some Garbage ->
       exists r,
         fst (get_knowledge_base kb_id w) = Ok (Some r) /\
         dict_get r "id" = Some (JStr kb_id) /\
         dict_get r "name" = None /\
         dict_get r "dataset_name" = None /\
         dict_get r "created_at" = None /\
         dict_get r "updated_at" = None).
Proof.
  intros w kb_id. split.
  - intros r Hget.
    destruct (kb_dirs (disk w) !! kb_id) as [files|] eqn:Hdir.
    + rewrite (get_knowledge_base_present w kb_id files Hdir) in Hget.
      cbn [fst] in Hget. simplify_eq.
      exists files. split; [done|]. split; [apply full_record_id|].
      rewrite full_record_schema, full_record_prompts.
      split; [|split].
      * intros m Hm. rewrite full_record_meta_key by done.
        rewrite Hm. cbn [read_meta dict_update fst].
        rewrite dict_get_merge. by destruct (dict_get m "id").
      * by destruct (files !! SCHEMA_FILE) as [[?|]|].
      * by destruct (files !! PROMPTS_FILE) as [[?|]|].
    + by rewrite (get_knowledge_base_absent w kb_id Hdir) in Hget.
  - intros files Hdir Hmeta.
    exists (full_record kb_id files).
    rewrite (get_knowledge_base_present w kb_id files Hdir).
    split; [done|].
    rewrite (full_record_no_meta kb_id files "name"),
      (full_record_no_meta kb_id files "dataset_name"),
      (full_record_no_meta kb_id files "created_at"),
      (full_record_no_meta kb_id files "updated_at") by done.
    split; [|done].
    unfold full_record. rewrite !dict_get_set_ne by done.
    by destruct Hmeta as [-> | ->].
Qed.

Lemma get_record_keys_witness :
  let w :=
    mkWorld (mkFs true None
               {["3f2a9c1e" := {[META_FILE := Garbage;
                                 PROMPTS_FILE := Json JNull]}]}) [] in
  exists r,
    fst (get_knowledge_base "3f2a9c1e" w) = Ok (Some r) /\
    dict_get r "id" = Some (JStr "3f2a9c1e") /\
    dict_get r "name" = None /\
    dict_get r "dataset_name" = None /\
    dict_get r "created_at" = None /\
    dict_get r "updated_at" = None /\
    dict_get r "schema" = Some (JObj _default_schema) /\
    dict_get r "prompts" = Some JNull.
Proof.
  intros w.
  destruct (get_record_keys w "3f2a9c1e") as [Hkeys Habsent].
  destruct (Habsent {[META_FILE := Garbage; PROMPTS_FILE := Json JNull]})
    as (r & Hget & Hid & Hn & Hd & Hc & Hu).
  { vm_compute. reflexivity. }
  { right. vm_compute. reflexivity. }
  exists r. repeat (split; [assumption|]).
  destruct (Hkeys r Hget) as (files & Hdir & _ & _ & Hs & Hp).
  vm_compute in Hdir. simplify_eq. split; [exact Hs | exact Hp].
Defined.

(** ** Entries without an id *)

Section IdLess.

Implicit Types (f : fs).

Lemma listed_entry_falsy f e :
  truthy (default JNull (dict_get e "id")) = false ->
  listed_entry f (JObj e) = Ok (None, []).
Proof. intros H. cbn [listed_entry]. by rewrite H. Qed.

Lemma listing_skip f e pre post :
  truthy (default JNull (dict_get e "id")) = false ->
  listing f (pre ++ JObj e :: post) = listing f (pre ++ post).
Proof.
  intros H. induction pre as [|a pre IH].
  - cbn [app listing]. rewrite listed_entry_falsy by done.
    by destruct (listing f post).
  - cbn [app listing]. by rewrite IH.
Qed.

Lemma listing_ids f index l :
  listing f index = Ok l ->
  forall s, s ∈ l ->
    exists k, dict_get s "id" = Some (JStr k) /\ k <> "".
Proof.
  revert l. induction index as [|entry rest IH]; intros l Hl s Hs.
  - cbn in Hl. simplify_eq. by apply elem_of_nil in Hs.
  - cbn [listing] in Hl.
    destruct (listed_entry f entry) as [[[s0|] ws]|e] eqn:E; [| |done].
    + destruct (listing f rest) as [l'|]; [|done]. simplify_eq.
      apply elem_of_cons in Hs as [->|Hs]; [|by eapply IH].
      destruct (listed_entry_some _ _ _ _ E) as (k & _ & ? & ?). eauto.
    + destruct (listing f rest) as [l'|]; [|done]. simplify_eq.
      by eapply IH.
Qed.

End IdLess.

(** C10.  Whatever the index file holds, every summary that
    [list_knowledge_bases] returns has a non-empty string as its id.  An
    index entry whose ["id"] is missing, [null], empty or otherwise
    falsy counts for nothing: the loop goes on from it with the same
    result and log, and the listing is the one of the index without
    that entry.  The listing returns a sequence whenever every entry is
    an object whose id is falsy or a string. *)
Theorem listing_skips_falsy_ids :
  forall w,
    (forall l, fst (list_knowledge_bases w) = Ok l ->
       forall s, s ∈ l ->
         exists k, dict_get s "id" = Some (JStr k) /\ k <> "") /\
    (forall e,
       truthy (default JNull (dict_get e "id")) = false ->
       (forall rest result,
          list_loop (JObj e :: rest) result w = list_loop rest result w) /\
       (forall pre post w0,
          stored_index (disk w) = pre ++ JObj e :: post ->
          stored_index (disk w0) = pre ++ post ->
          kb_dirs (disk w0) = kb_dirs (disk w) ->
          fst (list_knowledge_bases w) = fst (list_knowledge_bases w0))) /\
    (forallb entry_ok (stored_index (disk w)) = true ->
       exists l, fst (list_knowledge_bases w) = Ok l).
Proof.
  intros w. split; [|split].
  - intros l Hl. rewrite list_knowledge_bases_listing in Hl.
    by eapply listing_ids.
  - intros e He. split.
    + intros rest result.
      by rewrite list_loop_cons, listed_entry_falsy.
    + intros pre post w0 Hw Hw0 Hdirs.
      rewrite !list_knowledge_bases_listing, Hw, Hw0.
      rewrite (listing_skip _ e) by done.
      clear Hw Hw0. generalize (pre ++ post). intros index.
      induction index as [|a index IH]; [done|].
      cbn [listing]. rewrite IH.
      replace (listed_entry (disk w0) a) with (listed_entry (disk w) a);
        [done|].
      destruct a as [| | | | |?|d]; try reflexivity.
      cbn [listed_entry]. by rewrite Hdirs.
  - intros Hok. rewrite list_knowledge_bases_run.
    destruct (list_loop_total (stored_index (disk w)) []
                (mkWorld (mkFs true (index_json (disk w)) (kb_dirs (disk w)))
                   (log w ++ index_warnings (disk w))) Hok) as (l & w' & ->).
    by exists l.
Qed.

Lemma listing_skips_falsy_ids_witness :
  let tracked := JObj [("id", JStr "3f2a9c1e"); ("name", JStr "Movies")] in
  let w :=
    mkWorld
      (mkFs true (Some (Json (JList [JObj [("name", JStr "orphan")]; tracked;
                                JObj [("id", JStr "")]])))
            ∅) [] in
  (exists l, fst (list_knowledge_bases w) = Ok l /\
     forall s, s ∈ l -> exists k, dict_get s "id" = Some (JStr k) /\ k <> "") /\
  fst (list_knowledge_bases w) =
    fst (list_knowledge_bases
           (mkWorld (mkFs true (Some (Json (JList [tracked; JObj [("id", JStr "")]])))
                          ∅) [])).
Proof.
  intros tracked w.
  destruct (listing_skips_falsy_ids w) as (Hids & Hskip & Hok).
  destruct Hok as [l Hl]; [vm_compute; reflexivity|].
  split; [exists l; split; [exact Hl | exact (Hids l Hl)]|].
  destruct (Hskip [("name", JStr "orphan")]) as [_ Hless];
    [vm_compute; reflexivity|].
  apply (Hless [] [tracked; JObj [("id", JStr "")]]); reflexivity.
Defined.


(** * Further properties of the module *)

(** ** The index file *)

(** X1.  What [_save_index] writes, [_load_index] reads back: the same
    entries in the same order, with no warning, whatever the index held
    before; the record directories are not touched. *)
Theorem save_then_load_index :
  forall w entries,
    let saved := snd (_save_index entries w) in
    _load_index saved = (Ok entries, saved) /\
    kb_dirs (disk saved) = kb_dirs (disk w) /\
    log saved = log w.
Proof.
  intros w entries saved. subst saved.
  rewrite save_index_run. cbn [snd]. split; [|done].
  rewrite load_index_run. cbn [disk index_json].
  unfold index_warnings, stored_index, add_log. cbn [disk index_json log].
  by rewrite app_nil_r.
Qed.

(** X2.  [_load_index] never raises.  It creates the storage root when
    that is missing and changes nothing else on disk: the index file
    and the record directories are as before.  It answers the empty
    list for a missing file, for a document that is not a list
    (silently) and for text that does not parse (with one warning);
    only a stored list is returned, as it is. *)
Theorem load_index_is_lenient :
  forall w,
    exists entries ws,
      _load_index w =
        (Ok entries,
         mkWorld (mkFs true (index_json (disk w)) (kb_dirs (disk w)))
           (log w ++ ws)) /\
      match index_json (disk w) with
      | Some (Json (JList stored)) => entries = stored /\ ws = []
      | Some (Json _) => entries = [] /\ ws = []
      | Some Garbage => entries = [] /\ ws = [FailedIndex JSONDecodeError]
      | None => entries = [] /\ ws = []
      end.
Proof.
  intros w. exists (stored_index (disk w)), (index_warnings (disk w)).
  split; [apply load_index_run|].
  unfold stored_index, index_warnings.
  destruct (index_json (disk w)) as [[v|]|]; [destruct v|..]; done.
Qed.

(** ** Readers *)

Section Readers.

Implicit Types (w : world) (k : string).

Lemma add_log_add_log w ws ws' :
  add_log (add_log w ws) ws' = add_log w (ws ++ ws').
Proof. unfold add_log. cbn [disk log]. by rewrite app_assoc. Qed.

Lemma get_knowledge_base_reads w k :
  exists r ws, get_knowledge_base k w = (Ok r, add_log w ws).
Proof.
  destruct (kb_dirs (disk w) !! k) as [files|] eqn:Hdir.
  - rewrite (get_knowledge_base_present w k files Hdir). eauto.
  - rewrite (get_knowledge_base_absent w k Hdir).
    exists None, []. by rewrite add_log_nil.
Qed.

Lemma list_loop_reads index : forall result w,
  exists ws, snd (list_loop index result w) = add_log w ws.
Proof.
  induction index as [|entry rest IH]; intros result w.
  - exists []. by rewrite add_log_nil.
  - rewrite list_loop_cons.
    destruct (listed_entry (disk w) entry) as [[[s|] ws]|e].
    + destruct (IH (result ++ [s]) (add_log w ws)) as [ws' ->].
      rewrite add_log_add_log. eauto.
    + apply IH.
    + exists []. by rewrite add_log_nil.
Qed.

End Readers.

(** X3.  The readers leave every file alone.  For every store and id,
    [get_knowledge_base], [get_schema_dict_for_kb] and
    [get_prompts_for_kb] return without raising, whatever the files
    hold, and [get_schema_path_for_kb] does too; these four leave the
    disk exactly as it was.  [list_knowledge_bases] creates the storage
    root when that is missing and leaves the index file and the record
    directories as they were.  All of them can only add warnings to the
    log. *)
Theorem readers_leave_files_alone :
  forall w kb_id,
    (exists r ws, get_knowledge_base kb_id w = (Ok r, add_log w ws)) /\
    (exists r ws, get_schema_dict_for_kb kb_id w = (Ok r, add_log w ws)) /\
    (exists r ws, get_prompts_for_kb kb_id w = (Ok r, add_log w ws)) /\
    (exists r, get_schema_path_for_kb kb_id w = (Ok r, w)) /\
    (exists ws,
       snd (list_knowledge_bases w) =
         mkWorld (mkFs true (index_json (disk w)) (kb_dirs (disk w)))
           (log w ++ ws)).
Proof.
  intros w kb_id.
  destruct (get_knowledge_base_reads w kb_id) as (r & ws & Hget).
  split; [eauto|].
  split.
  { unfold get_schema_dict_for_kb. rewrite (bind_ok _ _ _ _ _ Hget).
    destruct r; cbv [ret]; eauto. }
  split.
  { unfold get_prompts_for_kb. rewrite (bind_ok _ _ _ _ _ Hget).
    destruct r; cbv [ret]; eauto. }
  split; [rewrite get_schema_path_run; eauto|].
  rewrite list_knowledge_bases_run.
  destruct (list_loop_reads (stored_index (disk w)) []
              (mkWorld (mkFs true (index_json (disk w)) (kb_dirs (disk w)))
                 (log w ++ index_warnings (disk w)))) as [ws' ->].
  unfold add_log. cbn [disk log]. rewrite <- app_assoc. eauto.
Qed.

(** X4.  Not-found has no side effect.  When the record directory is
    absent, [get_knowledge_base], [update_knowledge_base] and the three
    accessors answer [None] and [delete_knowledge_base] answers false,
    and disk and log are exactly as before: no file is created, the
    index is not even read. *)
Theorem absent_record_is_left_alone :
  forall w kb_id utcnow name dataset_name schema prompts,
    kb_dirs (disk w) !! kb_id = None ->
    get_knowledge_base kb_id w = (Ok None, w) /\
    update_knowledge_base utcnow kb_id name dataset_name schema prompts w =
      (Ok None, w) /\
    delete_knowledge_base kb_id w = (Ok false, w) /\
    get_schema_path_for_kb kb_id w = (Ok None, w) /\
    get_schema_dict_for_kb kb_id w = (Ok None, w) /\
    get_prompts_for_kb kb_id w = (Ok None, w).
Proof.
  intros w kb_id utcnow name dataset_name schema prompts Habs.
  pose proof (get_knowledge_base_absent w kb_id Habs) as Hget.
  split; [exact Hget|].
  split; [by apply update_run_absent|].
  split; [by apply delete_run_absent|].
  split; [by rewrite get_schema_path_run, Habs|].
  unfold get_schema_dict_for_kb, get_prompts_for_kb.
  by rewrite !(bind_ok _ _ _ _ _ Hget).
Qed.

Lemma absent_record_is_left_alone_witness :
  let w := mkWorld (mkFs true (Some Garbage) {["3f2a9c1e" := ∅]}) [] in
  get_knowledge_base "0badc0de" w = (Ok None, w) /\
  update_knowledge_base "2024-05-01T10:00:00" "0badc0de"
    (Some "Films") None None None w = (Ok None, w) /\
  delete_knowledge_base "0badc0de" w = (Ok false, w).
Proof.
  intros w.
  destruct (absent_record_is_left_alone w "0badc0de" "2024-05-01T10:00:00"
              (Some "Films") None None None) as (Hg & Hu & Hd & _).
  { vm_compute. reflexivity. }
  split; [exact Hg|]. split; [exact Hu | exact Hd].
Defined.

(** ** The index under the writers *)

Section IndexMaintenance.

Implicit Types (w : world) (k : string) (files : gmap string content).

(** The entry [update_knowledge_base] puts in place of a matching one. *)
Lemma update_loop_match e rest k m now w :
  has_id k (JObj e) = true ->
  update_loop (JObj e :: rest) k (JObj m) now w =
    (Ok (JObj
           [("id", JStr k);
            ("name", default (JStr k) (dict_get m "name"));
            ("dataset_name", default (JStr "") (dict_get m "dataset_name"));
            ("created_at",
             default (default (JStr "") (dict_get e "created_at"))
               (dict_get m "created_at"));
            ("updated_at", JStr now)] :: rest), w).
Proof.
  intros Hid. cbn [has_id] in Hid. cbn [update_loop py_get].
  unfold bind at 1, lift at 1. rewrite Hid. reflexivity.
Qed.

Lemma update_loop_not_obj v rest k meta now w :
  is_obj v = false ->
  update_loop (v :: rest) k meta now w = (Raise AttributeError, w).
Proof. by destruct v. Qed.

(** Entries ahead of the first match are kept as they are. *)
Lemma update_loop_prefix pre rest k meta now w :
  forallb is_obj pre = true ->
  forallb (fun e => negb (has_id k e)) pre = true ->
  update_loop (pre ++ rest) k meta now w =
    match update_loop rest k meta now w with
    | (Ok rest', w') => (Ok (pre ++ rest'), w')
    | (Raise e, w') => (Raise e, w')
    end.
Proof.
  induction pre as [|a pre IH]; intros Hobj Hno.
  - cbn [app]. by destruct (update_loop rest k meta now w) as [[?|?] ?].
  - cbn [forallb] in Hobj, Hno.
    apply andb_true_iff in Hobj as [Ha Hobj].
    apply andb_true_iff in Hno as [Hna Hno].
    destruct a as [| | | | |?|e]; try discriminate.
    apply negb_true_iff in Hna. cbn [has_id] in Hna.
    cbn [app update_loop py_get]. unfold bind at 1, lift at 1.
    rewrite Hna. unfold bind at 1. rewrite (IH Hobj Hno).
    by destruct (update_loop rest k meta now w) as [[?|?] ?].
Qed.

Lemma update_loop_no_match index k meta now w :
  forallb is_obj index = true ->
  forallb (fun e => negb (has_id k e)) index = true ->
  update_loop index k meta now w = (Ok index, w).
Proof.
  intros Hobj Hno.
  rewrite <- (app_nil_r index) at 1.
  rewrite (update_loop_prefix index [] k meta now w Hobj Hno).
  cbn [update_loop]. cbv [ret]. by rewrite app_nil_r.
Qed.

(** [update_knowledge_base] on a record whose metadata is missing or an
    object, in terms of what its index loop returns. *)
Lemma update_run_loop w utcnow k files m name dataset_name schema prompts o :
  kb_dirs (disk w) !! k = Some files ->
  meta_dict (files !! META_FILE) = Some m ->
  let m' := updated_meta m k name dataset_name (utcnow +:+ "Z") in
  let files' := updated_files files m' schema prompts in
  let dirs' := <[k := files']> (kb_dirs (disk w)) in
  (forall w', update_loop (stored_index (disk w)) k (JObj m')
                (utcnow +:+ "Z") w' = (o, w')) ->
  update_knowledge_base utcnow k name dataset_name schema prompts w =
    match o with
    | Ok index' =>
        (Ok (Some (full_record k files')),
         mkWorld (mkFs true (Some (Json (JList index'))) dirs')
           (log w ++ index_warnings (disk w) ++ read_warnings k files'))
    | Raise e =>
        (Raise e,
         mkWorld (mkFs true (index_json (disk w)) dirs')
           (log w ++ index_warnings (disk w)))
    end.
Proof.
  intros H Hm m' files' dirs' Hloop.
  destruct (update_run w utcnow k files m name dataset_name schema prompts
              H Hm) as (o' & Hrun & _).
  fold m' files' dirs' in Hrun. rewrite Hrun.
  enough (o' = o) as -> by done.
  (* both describe the one run of the index loop *)
  revert Hrun. unfold update_knowledge_base.
  rewrite (bind_ok _ _ _ _ _ (kb_dir_exists_run w k)), H.
  rewrite bool_decide_eq_true_2 by eauto. cbn [negb].
  rewrite (bind_ok _ _ _ _ _ (kb_file_exists_run w k META_FILE files H)).
  erewrite (bind_ok _ _ w (JObj m) w); last first.
  { destruct (files !! META_FILE) as [[v|]|] eqn:E; try discriminate.
    - destruct v; try discriminate. cbn in Hm. simplify_eq.
      rewrite bool_decide_eq_true_2 by eauto.
      by apply (json_load_run w k META_FILE files).
    - cbn in Hm. simplify_eq.
      by rewrite bool_decide_eq_false_2 by (intros [? ?]; done). }
  erewrite (bind_ok _ _ w (JObj (set_opt m "name" name)) w);
    [|by destruct name].
  erewrite (bind_ok _ _ w
              (JObj (set_opt (set_opt m "name" name)
                       "dataset_name" dataset_name)) w);
    [|by destruct dataset_name].
  unfold bind at 1, lift at 1. cbn [py_setitem].
  unfold bind at 1, lift at 1. cbn [py_setitem].
  fold (updated_meta m k name dataset_name (utcnow +:+ "Z")). fold m'.
  rewrite (bind_ok _ _ _ _ _ (json_dump_run w k META_FILE (JObj m') files H)).
  erewrite bind_ok; last first.
  { apply write_opt_run. cbn [disk kb_dirs]. apply lookup_insert_eq. }
  cbn [disk kb_dirs index_json log]. rewrite insert_insert_eq.
  erewrite bind_ok; last first.
  { apply write_opt_run. cbn [disk kb_dirs]. apply lookup_insert_eq. }
  cbn [disk kb_dirs index_json log]. rewrite insert_insert_eq.
  fold (updated_files files m' schema prompts). fold files'. fold dirs'.
  rewrite (bind_ok _ _ _ _ _ (load_index_run _)).
  cbn [disk kb_dirs index_json log add_log].
  change (stored_index {| store_exists := true; index_json := index_json (disk w);
                          kb_dirs := dirs' |})
    with (stored_index (disk w)).
  unfold bind at 1. rewrite Hloop.
  destruct o as [index'|e].
  - rewrite (bind_ok _ _ _ _ _ (save_index_run _ _)).
    cbn [disk kb_dirs index_json log].
    erewrite get_knowledge_base_present; last first.
    { cbn [disk kb_dirs]. apply lookup_insert_eq. }
    intros Heq. destruct o' as [index''|e'].
    + apply (f_equal (fun p => index_json (disk (snd p)))) in Heq.
      cbn [snd disk index_json add_log] in Heq. by simplify_eq.
    + apply (f_equal fst) in Heq. cbn [fst] in Heq. discriminate.
  - intros Heq. apply (f_equal fst) in Heq.
    destruct o'; cbn [fst] in Heq; [discriminate | by simplify_eq].
Qed.

End IndexMaintenance.
Section IndexTyping.

Implicit Types (w : world) (k : string) (index : list json).

Lemma entry_ok_obj index :
  forallb entry_ok index = true -> forallb is_obj index = true.
Proof.
  induction index as [|e index IH]; [done|]. cbn [forallb].
  intros [He Hl]%andb_true_iff. rewrite IH by done.
  by destruct e.
Qed.

(** On typed entries the index loop of an update returns, and what it
    returns is typed again and as long as before. *)
Lemma update_loop_entry_ok index k m now :
  forallb entry_ok index = true ->
  exists index',
    (forall w, update_loop index k (JObj m) now w = (Ok index', w)) /\
    forallb entry_ok index' = true /\
    length index' = length index.
Proof.
  induction index as [|entry rest IH]; intros Hok.
  - by exists [].
  - cbn [forallb] in Hok. apply andb_true_iff in Hok as [He Hrest].
    destruct entry as [| | | | |?|e]; try discriminate.
    destruct (has_id k (JObj e)) eqn:Hid.
    + eexists. split; [intros w; by apply update_loop_match|].
      split; [|done]. cbn [forallb entry_ok dict_get String.eqb].
      by rewrite Hrest.
    + destruct (IH Hrest) as (rest' & Hrun & Hok' & Hlen).
      exists (JObj e :: rest'). split.
      * intros w. cbn [has_id] in Hid. cbn [update_loop py_get].
        unfold bind at 1, lift at 1. rewrite Hid.
        unfold bind. by rewrite Hrun.
      * split; [|by cbn [length]; rewrite Hlen].
        cbn [forallb]. by rewrite He, Hok'.
Qed.

End IndexTyping.

(** X5.  The writers keep the index typed.  If every stored index
    entry is an object whose id is a string or falsy, the same holds
    after [create_knowledge_base], after [update_knowledge_base] and
    after [delete_knowledge_base], for every argument and whether the
    call returns or raises. *)
Theorem writers_keep_index_typed :
  forall w,
    forallb entry_ok (stored_index (disk w)) = true ->
    (forall uuid4 utcnow name dataset_name schema prompts,
       forallb entry_ok
         (stored_index
            (disk (snd (create_knowledge_base uuid4 utcnow name dataset_name
                          schema prompts w)))) = true) /\
    (forall utcnow kb_id name dataset_name schema prompts,
       forallb entry_ok
         (stored_index
            (disk (snd (update_knowledge_base utcnow kb_id name dataset_name
                          schema prompts w)))) = true) /\
    (forall kb_id,
       forallb entry_ok
         (stored_index (disk (snd (delete_knowledge_base kb_id w)))) = true).
Proof.
  intros w Hok. split; [|split].
  - intros uuid4 utcnow name dataset_name schema prompts.
    rewrite create_run. cbn [snd disk]. unfold stored_index at 1.
    cbn [index_json]. rewrite forallb_app, Hok. reflexivity.
  - intros utcnow kb_id name dataset_name schema prompts.
    destruct (kb_dirs (disk w) !! kb_id) as [files|] eqn:Hdir;
      [|by rewrite update_run_absent].
    destruct (meta_dict (files !! META_FILE)) as [m|] eqn:Hm.
    + destruct (update_loop_entry_ok (stored_index (disk w)) kb_id
                  (updated_meta m kb_id name dataset_name (utcnow +:+ "Z"))
                  (utcnow +:+ "Z") Hok) as (index' & Hloop & Hok' & _).
      by rewrite (update_run_loop w utcnow kb_id files m name dataset_name
                    schema prompts (Ok index') Hdir Hm Hloop).
    + destruct (files !! META_FILE) as [[v|]|] eqn:E; try discriminate.
      * erewrite update_run_not_obj; [done..|]. by destruct v.
      * by erewrite update_run_garbage.
  - intros kb_id.
    destruct (kb_dirs (disk w) !! kb_id) as [files|] eqn:Hdir;
      [|by rewrite delete_run_absent].
    rewrite (delete_run_present w kb_id files Hdir).
    rewrite (entry_ok_obj _ Hok). cbn [snd disk]. unfold stored_index at 1.
    cbn [index_json]. by apply forallb_filter.
Qed.

Lemma writers_keep_index_typed_witness :
  let w :=
    mkWorld
      (mkFs true (Some (Json (JList [JObj [("id", JStr "3f2a9c1e")];
                                JObj [("name", JStr "orphan")]])))
            {["3f2a9c1e" := ∅]}) [] in
  forallb entry_ok
    (stored_index
       (disk (snd (update_knowledge_base "2024-05-01T10:00:00" "3f2a9c1e"
                     (Some "Films") None None None w)))) = true /\
  forallb entry_ok
    (stored_index (disk (snd (delete_knowledge_base "3f2a9c1e" w)))) = true.
Proof.
  intros w.
  destruct (writers_keep_index_typed w) as (_ & Hu & Hd).
  { vm_compute. reflexivity. }
  split; [apply Hu | apply Hd].
Defined.

(** X6.  An update of a record that no index entry names does nothing
    to the entries: with the directory present, the metadata missing
    or an object, and index entries that are objects, the call returns
    a record and writes the index back with exactly the entries it had,
    so the record stays unlisted. *)
Theorem update_of_untracked_record_adds_no_entry :
  forall w utcnow kb_id files name dataset_name schema prompts,
    kb_dirs (disk w) !! kb_id = Some files ->
    is_Some (meta_dict (files !! META_FILE)) ->
    forallb is_obj (stored_index (disk w)) = true ->
    forallb (fun e => negb (has_id kb_id e)) (stored_index (disk w)) = true ->
    let updated :=
      update_knowledge_base utcnow kb_id name dataset_name schema prompts w in
    (exists r, fst updated = Ok (Some r)) /\
    index_json (disk (snd updated)) =
      Some (Json (JList (stored_index (disk w)))).
Proof.
  intros w utcnow kb_id files name dataset_name schema prompts
    Hdir [m Hm] Hobj Hno updated. subst updated.
  rewrite (update_run_loop w utcnow kb_id files m name dataset_name schema
             prompts (Ok (stored_index (disk w))) Hdir Hm).
  - cbn [fst snd disk index_json]. eauto.
  - intros w'. by apply update_loop_no_match.
Qed.

Lemma update_of_untracked_record_adds_no_entry_witness :
  let w :=
    mkWorld (mkFs true (Some (Json (JList [JObj [("id", JStr "0badc0de")]])))
                  {["3f2a9c1e" := ∅]}) [] in
  let updated :=
    update_knowledge_base "2024-05-01T10:00:00" "3f2a9c1e"
      (Some "Films") None None None w in
  (exists r, fst updated = Ok (Some r)) /\
  index_json (disk (snd updated)) =
    Some (Json (JList [JObj [("id", JStr "0badc0de")]])).
Proof.
  intros w updated.
  apply (update_of_untracked_record_adds_no_entry w "2024-05-01T10:00:00"
           "3f2a9c1e" ∅ (Some "Films") None None None).
  - vm_compute. reflexivity.
  - vm_compute. eauto.
  - vm_compute. reflexivity.
  - vm_compute. reflexivity.
Defined.

(** X7.  An update rewrites the first index entry that carries the id
    and no other.  With the index [pre ++ entry :: post], where the
    entries of [pre] are objects with other ids and [entry] carries the
    id, the index written back is [pre ++ fresh :: post]: [post] is
    kept as it is, duplicates of the id included, and [fresh] takes
    name and dataset name from the metadata just written, [created_at]
    from that metadata or else from the old entry, and the new stamp as
    [updated_at]. *)
Theorem update_rewrites_first_matching_entry :
  forall w utcnow kb_id files m name dataset_name schema prompts pre e post,
    kb_dirs (disk w) !! kb_id = Some files ->
    meta_dict (files !! META_FILE) = Some m ->
    stored_index (disk w) = pre ++ JObj e :: post ->
    forallb is_obj pre = true ->
    forallb (fun e => negb (has_id kb_id e)) pre = true ->
    has_id kb_id (JObj e) = true ->
    let now := utcnow +:+ "Z" in
    let m' := updated_meta m kb_id name dataset_name now in
    let fresh :=
      JObj [("id", JStr kb_id);
            ("name", default (JStr kb_id) (dict_get m' "name"));
            ("dataset_name", default (JStr "") (dict_get m' "dataset_name"));
            ("created_at",
             default (default (JStr "") (dict_get e "created_at"))
               (dict_get m "created_at"));
            ("updated_at", JStr now)] in
    let updated :=
      update_knowledge_base utcnow kb_id name dataset_name schema prompts w in
    (exists r, fst updated = Ok (Some r)) /\
    index_json (disk (snd updated)) =
      Some (Json (JList (pre ++ fresh :: post))).
Proof.
  intros w utcnow kb_id files m name dataset_name schema prompts pre e post
    Hdir Hm Hidx Hobj Hno Hid now m' fresh updated. subst updated.
  rewrite (update_run_loop w utcnow kb_id files m name dataset_name schema
             prompts (Ok (pre ++ fresh :: post)) Hdir Hm).
  - cbn [fst snd disk index_json]. eauto.
  - intros w'. rewrite Hidx.
    rewrite (update_loop_prefix pre _ kb_id _ _ w' Hobj Hno).
    rewrite (update_loop_match e post kb_id _ _ w' Hid).
    subst fresh m' now. by rewrite updated_meta_created_at.
Qed.

Lemma update_rewrites_first_matching_entry_witness :
  let other := JObj [("id", JStr "0badc0de"); ("name", JStr "Books")] in
  let old := [("id", JStr "3f2a9c1e"); ("name", JStr "Movies");
              ("created_at", JStr "2024-04-30T09:00:00Z")] in
  let w :=
    mkWorld (mkFs true (Some (Json (JList [other; JObj old; JObj old])))
                  {["3f2a9c1e" := ∅]}) [] in
  let updated :=
    update_knowledge_base "2024-05-01T10:00:00" "3f2a9c1e"
      (Some "Films") None None None w in
  index_json (disk (snd updated)) =
    Some (Json (JList
      [other;
       JObj [("id", JStr "3f2a9c1e"); ("name", JStr "Films");
             ("dataset_name", JStr "");
             ("created_at", JStr "2024-04-30T09:00:00Z");
             ("updated_at", JStr "2024-05-01T10:00:00Z")];
       JObj old])).
Proof.
  intros other old w updated.
  destruct (update_rewrites_first_matching_entry w "2024-05-01T10:00:00"
              "3f2a9c1e" ∅ [] (Some "Films") None None None
              [other] old [JObj old]) as [_ Hindex].
  - vm_compute. reflexivity.
  - vm_compute. reflexivity.
  - reflexivity.
  - reflexivity.
  - vm_compute. reflexivity.
  - vm_compute. reflexivity.
  - exact Hindex.
Defined.

(** X8.  An update is not atomic.  When an index entry that is not an
    object stands ahead of any entry carrying the id, the call raises
    [AttributeError] from the index loop, after the metadata (and any
    supplied schema or prompts) have been written: the record directory
    holds the new files, the index file is as it was. *)
Theorem update_writes_before_it_raises :
  forall w utcnow kb_id files m name dataset_name schema prompts pre bad post,
    kb_dirs (disk w) !! kb_id = Some files ->
    meta_dict (files !! META_FILE) = Some m ->
    stored_index (disk w) = pre ++ bad :: post ->
    forallb is_obj pre = true ->
    forallb (fun e => negb (has_id kb_id e)) pre = true ->
    is_obj bad = false ->
    let m' := updated_meta m kb_id name dataset_name (utcnow +:+ "Z") in
    let updated :=
      update_knowledge_base utcnow kb_id name dataset_name schema prompts w in
    fst updated = Raise AttributeError /\
    kb_dirs (disk (snd updated)) !! kb_id =
      Some (updated_files files m' schema prompts) /\
    index_json (disk (snd updated)) = index_json (disk w).
Proof.
  intros w utcnow kb_id files m name dataset_name schema prompts pre bad post
    Hdir Hm Hidx Hobj Hno Hbad m' updated. subst updated.
  rewrite (update_run_loop w utcnow kb_id files m name dataset_name schema
             prompts (Raise AttributeError) Hdir Hm).
  - cbn [fst snd disk kb_dirs index_json].
    split; [done|]. split; [apply lookup_insert_eq | done].
  - intros w'. rewrite Hidx.
    rewrite (update_loop_prefix pre _ kb_id _ _ w' Hobj Hno).
    by rewrite update_loop_not_obj.
Qed.

Lemma update_writes_before_it_raises_witness :
  let w :=
    mkWorld (mkFs true (Some (Json (JList [JInt 1; JObj [("id", JStr "3f2a9c1e")]])))
                  {["3f2a9c1e" := ∅]}) [] in
  let updated :=
    update_knowledge_base "2024-05-01T10:00:00" "3f2a9c1e"
      (Some "Films") None None None w in
  fst updated = Raise AttributeError /\
  kb_dirs (disk (snd updated)) !! "3f2a9c1e" =
    Some (updated_files ∅
            (updated_meta [] "3f2a9c1e" (Some "Films") None
               "2024-05-01T10:00:00Z") None None) /\
  index_json (disk (snd updated)) = index_json (disk w).
Proof.
  intros w updated.
  apply (update_writes_before_it_raises w "2024-05-01T10:00:00" "3f2a9c1e"
           ∅ [] (Some "Films") None None None []
           (JInt 1) [JObj [("id", JStr "3f2a9c1e")]]).
  - vm_compute. reflexivity.
  - vm_compute. reflexivity.
  - reflexivity.
  - reflexivity.
  - reflexivity.
  - reflexivity.
Defined.

(** ** Creation and deletion *)

(** X9.  [create_knowledge_base] writes inside the directory of the new
    id and appends to the index, nothing else.  For every store and
    arguments, the index written back is the entries that were stored
    followed by one entry for the new record; every other directory is
    as before; and in the directory of the id itself, which is reused
    without a check when it exists, every file other than the three
    documents is as before. *)
Theorem create_appends_and_keeps_the_rest :
  forall w uuid4 utcnow name dataset_name schema prompts,
    let kb_id := substring 0 8 uuid4 in
    let w' :=
      snd (create_knowledge_base uuid4 utcnow name dataset_name schema prompts w) in
    index_json (disk w') =
      Some (Json (JList (stored_index (disk w) ++
               [JObj [("id", JStr kb_id); ("name", JStr name);
                      ("dataset_name", JStr dataset_name);
                      ("created_at", JStr (utcnow +:+ "Z"));
                      ("updated_at", JStr (utcnow +:+ "Z"))]]))) /\
    (forall other, other <> kb_id ->
       kb_dirs (disk w') !! other = kb_dirs (disk w) !! other) /\
    (forall file,
       file <> META_FILE -> file <> SCHEMA_FILE -> file <> PROMPTS_FILE ->
       kb_dirs (disk w') !! kb_id ≫= (.!! file) =
       kb_dirs (disk w) !! kb_id ≫= (.!! file)).
Proof.
  intros w uuid4 utcnow name dataset_name schema prompts kb_id w'.
  subst w'. rewrite create_run. fold kb_id. cbn [snd disk index_json kb_dirs].
  split; [done|]. split.
  - intros other Hne. by rewrite lookup_insert_ne.
  - intros file Hm Hs Hp. rewrite lookup_insert_eq. cbn.
    unfold created_files. rewrite !lookup_insert_ne by done.
    by destruct (kb_dirs (disk w) !! kb_id).
Qed.

Lemma create_appends_and_keeps_the_rest_witness :
  let w :=
    mkWorld
      (mkFs true (Some (Json (JList [JObj [("id", JStr "0badc0de")]])))
            {["0badc0de" := {[META_FILE := Garbage]};
              "3f2a9c1e" := {["notes.txt" := Garbage]}]}) [] in
  let w' :=
    snd (create_knowledge_base "3f2a9c1e-7b1d-4c0a-9e55-0123456789ab"
           "2024-05-01T10:00:00" "Movies" "imdb_sample" None None w) in
  kb_dirs (disk w') !! "0badc0de" = kb_dirs (disk w) !! "0badc0de" /\
  kb_dirs (disk w') !! "3f2a9c1e" ≫= (.!! "notes.txt") = Some Garbage.
Proof.
  intros w w'.
  destruct (create_appends_and_keeps_the_rest w
              "3f2a9c1e-7b1d-4c0a-9e55-0123456789ab" "2024-05-01T10:00:00"
              "Movies" "imdb_sample" None None) as (_ & Hother & Hfile).
  split.
  - apply Hother. discriminate.
  - etransitivity; [apply Hfile; discriminate|]. vm_compute. reflexivity.
Defined.

(** X10.  Creating a record and deleting it again restores the store.
    When the generated id names no directory yet and the stored index
    entries are objects, the deletion returns true, the directories are
    exactly those before the creation, and the index holds the entries
    that were stored, less any stale entry that carried the id; a
    second deletion returns false. *)
Theorem create_then_delete_restores :
  forall w uuid4 utcnow name dataset_name schema prompts,
    let kb_id := substring 0 8 uuid4 in
    kb_dirs (disk w) !! kb_id = None ->
    forallb is_obj (stored_index (disk w)) = true ->
    let w1 :=
      snd (create_knowledge_base uuid4 utcnow name dataset_name schema prompts w) in
    let w2 := snd (delete_knowledge_base kb_id w1) in
    fst (delete_knowledge_base kb_id w1) = Ok true /\
    kb_dirs (disk w2) = kb_dirs (disk w) /\
    index_json (disk w2) =
      Some (Json (JList (List.filter (fun e => negb (has_id kb_id e))
                           (stored_index (disk w))))) /\
    (forallb (fun e => negb (has_id kb_id e)) (stored_index (disk w)) = true ->
       index_json (disk w2) = Some (Json (JList (stored_index (disk w))))) /\
    fst (delete_knowledge_base kb_id w2) = Ok false.
Proof.
  intros w uuid4 utcnow name dataset_name schema prompts kb_id Hfresh Hobj
    w1 w2.
  subst w2 w1. rewrite create_run. fold kb_id. cbn [snd].
  set (files' := created_files _ _ _ _ _ _ _).
  set (w1 := mkWorld _ _).
  assert (kb_dirs (disk w1) !! kb_id = Some files') as Hdir
    by apply lookup_insert_eq.
  rewrite (delete_run_present w1 kb_id files' Hdir).
  assert (stored_index (disk w1) =
          stored_index (disk w) ++
            [JObj (created_meta kb_id name dataset_name (utcnow +:+ "Z"))])
    as -> by reflexivity.
  assert (has_id kb_id
            (JObj (created_meta kb_id name dataset_name (utcnow +:+ "Z"))) = true)
    as Hnew by (cbn; apply String.eqb_refl).
  rewrite forallb_app, Hobj.
  cbn [forallb is_obj andb fst snd disk kb_dirs index_json].
  rewrite List.filter_app. cbn [List.filter]. rewrite Hnew. cbn [negb].
  rewrite app_nil_r. subst w1. cbn [disk kb_dirs index_json log].
  rewrite delete_insert_eq, (delete_id _ _ Hfresh).
  split; [done|]. split; [done|]. split; [done|]. split.
  - intros Hno. do 3 f_equal.
    clear -Hno. induction (stored_index (disk w)) as [|e l IH]; [done|].
    cbn [forallb] in Hno. apply andb_true_iff in Hno as [He Hl].
    cbn [List.filter]. by rewrite He, IH.
  - rewrite delete_run_absent; [done|]. exact Hfresh.
Qed.

Lemma create_then_delete_restores_witness :
  let w :=
    mkWorld (mkFs true (Some (Json (JList [JObj [("id", JStr "0badc0de")]])))
                  {["0badc0de" := ∅]}) [] in
  let w1 :=
    snd (create_knowledge_base "3f2a9c1e-7b1d-4c0a-9e55-0123456789ab"
           "2024-05-01T10:00:00" "Movies" "imdb_sample" None None w) in
  let w2 := snd (delete_knowledge_base "3f2a9c1e" w1) in
  fst (delete_knowledge_base "3f2a9c1e" w1) = Ok true /\
  kb_dirs (disk w2) = kb_dirs (disk w) /\
  index_json (disk w2) = index_json (disk w).
Proof.
  intros w w1 w2.
  destruct (create_then_delete_restores w
              "3f2a9c1e-7b1d-4c0a-9e55-0123456789ab" "2024-05-01T10:00:00"
              "Movies" "imdb_sample" None None)
    as (Hdel & Hdirs & _ & Hindex & _).
  { vm_compute. reflexivity. }
  { vm_compute. reflexivity. }
  split; [exact Hdel|]. split; [exact Hdirs|].
  apply Hindex. vm_compute. reflexivity.
Defined.

(** ** Listing and the writers *)

Section ListingMore.

Implicit Types (f : fs) (index : list json).

Lemma listing_app f a b :
  listing f (a ++ b) =
    match listing f a with
    | Ok la =>
        match listing f b with
        | Ok lb => Ok (la ++ lb)
        | Raise e => Raise e
        end
    | Raise e => Raise e
    end.
Proof.
  induction a as [|x a IH]; cbn [app listing].
  - by destruct (listing f b).
  - destruct (listed_entry f x) as [[s ws]|e]; [|done]. rewrite IH.
    destruct (listing f a) as [la|]; [|done].
    destruct (listing f b) as [lb|]; [|done].
    by destruct s.
Qed.

(** The reading of an entry depends on the disk only through the
    directory of the id it carries. *)
Lemma listed_entry_other f f' k entry :
  has_id k entry = false ->
  (forall other, other <> k -> kb_dirs f' !! other = kb_dirs f !! other) ->
  listed_entry f' entry = listed_entry f entry.
Proof.
  intros Hid Hsame. destruct entry as [| | | | |?|e]; try reflexivity.
  cbn [listed_entry has_id] in *.
  destruct (default JNull (dict_get e "id")) as [|b|n|x|k'|l|o];
    try reflexivity.
  cbn [eq_str] in Hid. apply String.eqb_neq in Hid.
  by rewrite Hsame.
Qed.

Lemma listing_other f f' k index :
  forallb (fun e => negb (has_id k e)) index = true ->
  (forall other, other <> k -> kb_dirs f' !! other = kb_dirs f !! other) ->
  listing f' index = listing f index.
Proof.
  intros Hno Hsame. induction index as [|entry rest IH]; [done|].
  cbn [forallb] in Hno. apply andb_true_iff in Hno as [He Hrest].
  apply negb_true_iff in He. cbn [listing].
  by rewrite (listed_entry_other f f' k entry He Hsame), IH.
Qed.

Lemma listed_entry_keys f entry s ws :
  listed_entry f entry = Ok (Some s, ws) ->
  map fst s = ["id"; "name"; "dataset_name"; "created_at"; "updated_at"].
Proof.
  destruct entry as [| | | | |?|e]; try discriminate.
  cbn [listed_entry].
  destruct (negb (truthy (default JNull (dict_get e "id")))); [discriminate|].
  destruct (default JNull (dict_get e "id")) as [|b|n|x|k|l|o];
    try discriminate.
  destruct (kb_dirs f !! k ≫= lookup META_FILE) as [[m|]|];
    [destruct m|..]; intros H; by simplify_eq.
Qed.

Lemma listing_elem f index l :
  listing f index = Ok l ->
  forall entry s ws,
    entry ∈ index -> listed_entry f entry = Ok (Some s, ws) -> s ∈ l.
Proof.
  revert l. induction index as [|x rest IH]; intros l Hl entry s ws Hin He.
  - by apply elem_of_nil in Hin.
  - cbn [listing] in Hl.
    destruct (listed_entry f x) as [[sx wsx]|ex] eqn:Ex; [|done].
    destruct (listing f rest) as [l'|]; [|done]. simplify_eq.
    apply elem_of_cons in Hin as [->|Hin].
    + rewrite He in Ex. simplify_eq. apply elem_of_cons. by left.
    + assert (s ∈ l') by (by eapply IH).
      destruct sx; [apply elem_of_cons; by right | done].
Qed.

Lemma listing_keys f index l :
  listing f index = Ok l ->
  forall s, s ∈ l ->
    map fst s = ["id"; "name"; "dataset_name"; "created_at"; "updated_at"].
Proof.
  revert l. induction index as [|x rest IH]; intros l Hl s Hs.
  - cbn in Hl. simplify_eq. by apply elem_of_nil in Hs.
  - cbn [listing] in Hl.
    destruct (listed_entry f x) as [[sx wsx]|ex] eqn:Ex; [|done].
    destruct (listing f rest) as [l'|]; [|done]. simplify_eq.
    destruct sx as [s0|]; [|by eapply IH].
    apply elem_of_cons in Hs as [->|Hs]; [|by eapply IH].
    by eapply listed_entry_keys.
Qed.

End ListingMore.

(** X11.  A created record is listed last.  When the generated id is
    not empty and no stored index entry carries it, a listing that
    returned [l] before the creation returns, after it, [l] followed by
    one summary with the new id, the given name and dataset name, and
    both timestamps equal to the creation stamp. *)
Theorem created_record_is_listed_last :
  forall w uuid4 utcnow name dataset_name schema prompts l,
    let kb_id := substring 0 8 uuid4 in
    kb_id <> "" ->
    forallb (fun e => negb (has_id kb_id e)) (stored_index (disk w)) = true ->
    fst (list_knowledge_bases w) = Ok l ->
    fst (list_knowledge_bases
           (snd (create_knowledge_base uuid4 utcnow name dataset_name
                   schema prompts w))) =
      Ok (l ++ [[("id", JStr kb_id); ("name", JStr name);
                 ("dataset_name", JStr dataset_name);
                 ("created_at", JStr (utcnow +:+ "Z"));
                 ("updated_at", JStr (utcnow +:+ "Z"))]]).
Proof.
  intros w uuid4 utcnow name dataset_name schema prompts l kb_id
    Hk Hno Hl.
  rewrite list_knowledge_bases_listing in *.
  rewrite create_run. fold kb_id. cbn [snd disk].
  set (files' := created_files _ _ _ _ _ _ _).
  set (f' := mkFs _ _ _).
  assert (stored_index f' =
          stored_index (disk w) ++
            [JObj (created_meta kb_id name dataset_name (utcnow +:+ "Z"))])
    as -> by reflexivity.
  rewrite listing_app.
  rewrite (listing_other (disk w) f' kb_id _ Hno), Hl; last first.
  { intros other Hne. subst f'. cbn [kb_dirs]. by rewrite lookup_insert_ne. }
  assert (listed_entry f'
            (JObj (created_meta kb_id name dataset_name (utcnow +:+ "Z"))) =
          Ok (Some (created_meta kb_id name dataset_name (utcnow +:+ "Z")), []))
    as Hnew.
  { cbn [listed_entry].
    change (default JNull
              (dict_get (created_meta kb_id name dataset_name (utcnow +:+ "Z"))
                 "id")) with (JStr kb_id).
    cbn [truthy].
    destruct (String.eqb_spec kb_id "") as [?|_]; [done|]. cbn [negb].
    subst f'. cbn [kb_dirs]. rewrite lookup_insert_eq.
    change (Some files' ≫= lookup META_FILE) with (files' !! META_FILE).
    subst files'. rewrite created_files_meta. reflexivity. }
  cbn [listing]. rewrite Hnew. reflexivity.
Qed.

Lemma created_record_is_listed_last_witness :
  let w :=
    mkWorld (mkFs true (Some (Json (JList [JObj [("id", JStr "0badc0de")]])))
                  ∅) [] in
  fst (list_knowledge_bases
         (snd (create_knowledge_base "3f2a9c1e-7b1d-4c0a-9e55-0123456789ab"
                 "2024-05-01T10:00:00" "Movies" "imdb_sample" None None w))) =
    Ok ([[("id", JStr "0badc0de"); ("name", JStr "0badc0de");
          ("dataset_name", JStr ""); ("created_at", JStr "");
          ("updated_at", JStr "")]] ++
        [[("id", JStr "3f2a9c1e"); ("name", JStr "Movies");
          ("dataset_name", JStr "imdb_sample");
          ("created_at", JStr "2024-05-01T10:00:00Z");
          ("updated_at", JStr "2024-05-01T10:00:00Z")]]).
Proof.
  intros w.
  apply (created_record_is_listed_last w
           "3f2a9c1e-7b1d-4c0a-9e55-0123456789ab" "2024-05-01T10:00:00"
           "Movies" "imdb_sample" None None).
  - discriminate.
  - vm_compute. reflexivity.
  - vm_compute. reflexivity.
Defined.

(** X12.  A summary is the five fields and nothing else.  Whatever the
    index and the metadata files hold, every summary that
    [list_knowledge_bases] returns has exactly the keys [id], [name],
    [dataset_name], [created_at], [updated_at], in this order: extra
    keys of an index entry or of a metadata document, a schema or
    prompts among them, never show up in a listing. *)
Theorem summaries_have_five_keys :
  forall w l,
    fst (list_knowledge_bases w) = Ok l ->
    forall s, s ∈ l ->
      map fst s = ["id"; "name"; "dataset_name"; "created_at"; "updated_at"].
Proof.
  intros w l Hl. rewrite list_knowledge_bases_listing in Hl.
  by eapply listing_keys.
Qed.

Lemma summaries_have_five_keys_witness :
  let w :=
    mkWorld
      (mkFs true (Some (Json (JList [JObj [("id", JStr "3f2a9c1e");
                                      ("owner", JStr "alice")]])))
            {["3f2a9c1e" :=
                {[META_FILE :=
                    Json (JObj [("name", JStr "Movies");
                                ("schema", JObj [("Nodes", JList [])])])]}]})
      [] in
  fst (list_knowledge_bases w) =
    Ok [[("id", JStr "3f2a9c1e"); ("name", JStr "Movies");
         ("dataset_name", JStr ""); ("created_at", JStr "");
         ("updated_at", JStr "")]] /\
  map fst [("id", JStr "3f2a9c1e"); ("name", JStr "Movies");
           ("dataset_name", JStr ""); ("created_at", JStr "");
           ("updated_at", JStr "")] =
    ["id"; "name"; "dataset_name"; "created_at"; "updated_at"].
Proof.
  intros w.
  assert (fst (list_knowledge_bases w) =
            Ok [[("id", JStr "3f2a9c1e"); ("name", JStr "Movies");
                 ("dataset_name", JStr ""); ("created_at", JStr "");
                 ("updated_at", JStr "")]]) as Hl
    by (vm_compute; reflexivity).
  split; [exact Hl|].
  apply (summaries_have_five_keys w _ Hl).
  apply list_elem_of_singleton. reflexivity.
Defined.

(** X13.  Listing does not look at directories.  An index entry with a
    non-empty string id whose record directory is gone is still listed,
    with the fields of the entry itself, while [get_knowledge_base]
    answers not-found for the same id. *)
Theorem stale_index_entry_is_still_listed :
  forall w e kb_id l,
    JObj e ∈ stored_index (disk w) ->
    default JNull (dict_get e "id") = JStr kb_id ->
    kb_id <> "" ->
    kb_dirs (disk w) !! kb_id = None ->
    fst (list_knowledge_bases w) = Ok l ->
    [("id", JStr kb_id);
     ("name", default (JStr kb_id) (dict_get e "name"));
     ("dataset_name", default (JStr "") (dict_get e "dataset_name"));
     ("created_at", default (JStr "") (dict_get e "created_at"));
     ("updated_at", default (JStr "") (dict_get e "updated_at"))] ∈ l /\
    fst (get_knowledge_base kb_id w) = Ok None.
Proof.
  intros w e kb_id l Hin Hid Hk Hdir Hl.
  rewrite list_knowledge_bases_listing in Hl.
  split; [|by rewrite get_knowledge_base_absent].
  eapply (listing_elem _ _ _ Hl (JObj e) _ []); [exact Hin|].
  cbn [listed_entry]. rewrite Hid. cbn [truthy].
  destruct (String.eqb_spec kb_id "") as [?|_]; [done|]. cbn [negb].
  by rewrite Hdir.
Qed.

Lemma stale_index_entry_is_still_listed_witness :
  let e := [("id", JStr "3f2a9c1e"); ("name", JStr "Movies")] in
  let w := mkWorld (mkFs true (Some (Json (JList [JObj e]))) ∅) [] in
  [("id", JStr "3f2a9c1e"); ("name", JStr "Movies");
   ("dataset_name", JStr ""); ("created_at", JStr "");
   ("updated_at", JStr "")] ∈
    [[("id", JStr "3f2a9c1e"); ("name", JStr "Movies");
      ("dataset_name", JStr ""); ("created_at", JStr "");
      ("updated_at", JStr "")]] /\
  fst (get_knowledge_base "3f2a9c1e" w) = Ok None.
Proof.
  intros e w.
  apply (stale_index_entry_is_still_listed w e "3f2a9c1e").
  - apply list_elem_of_singleton. reflexivity.
  - reflexivity.
  - discriminate.
  - vm_compute. reflexivity.
  - vm_compute. reflexivity.
Defined.

(** ** Reading one record *)

Lemma full_record_meta_key' k files key :
  key <> "schema" ->
  dict_get (full_record k files) key =
    dict_get
      (dict_set (fst (read_meta k (files !! META_FILE))) "prompts"
         (fst (read_doc (files !! PROMPTS_FILE) _default_prompts
                 (FailedPrompts k))))
      key.
Proof.
  intros Hs. unfold full_record. rewrite !dict_get_set.
  destruct (String.eqb_spec "prompts" key); [done|].
  destruct (String.eqb_spec "schema" key); [congruence | done].
Qed.

(** X14.  The three files of a record are read independently.  A
    [schema.json] that does not parse makes [get_knowledge_base] log
    one schema warning and return the default schema, and every other
    key of the record, the prompts among them, is what it would be
    with any other content in [schema.json]. *)
Theorem corrupt_schema_leaves_other_fields :
  forall w kb_id files,
    kb_dirs (disk w) !! kb_id = Some files ->
    files !! SCHEMA_FILE = Some Garbage ->
    exists r,
      fst (get_knowledge_base kb_id w) = Ok (Some r) /\
      dict_get r "schema" = Some (JObj _default_schema) /\
      In (FailedSchema kb_id JSONDecodeError)
         (log (snd (get_knowledge_base kb_id w))) /\
      forall w0 c r0,
        kb_dirs (disk w0) !! kb_id = Some (<[SCHEMA_FILE := c]> files) ->
        fst (get_knowledge_base kb_id w0) = Ok (Some r0) ->
        forall key, key <> "schema" -> dict_get r key = dict_get r0 key.
Proof.
  intros w kb_id files Hdir Hs.
  exists (full_record kb_id files).
  rewrite (get_knowledge_base_present w kb_id files Hdir).
  cbn [fst snd]. split; [done|].
  split; [by rewrite full_record_schema, Hs|].
  split.
  { unfold add_log, read_warnings. cbn [log]. rewrite Hs. cbn [read_doc snd].
    apply in_or_app. right. apply in_or_app. right. apply in_or_app. left.
    by left. }
  intros w0 c r0 Hdir0 Hget0 key Hkey.
  rewrite (get_knowledge_base_present w0 kb_id _ Hdir0) in Hget0.
  cbn [fst] in Hget0. simplify_eq.
  rewrite full_record_meta_key' by done.
  symmetry. rewrite full_record_meta_key' by done.
  rewrite !(lookup_insert_ne _ SCHEMA_FILE) by done. reflexivity.
Qed.

Lemma corrupt_schema_leaves_other_fields_witness :
  let files : gmap string content :=
    {[SCHEMA_FILE := Garbage;
      PROMPTS_FILE := Json (JObj [("construction", JStr "build")])]} in
  let w := mkWorld (mkFs true None {["3f2a9c1e" := files]}) [] in
  exists r,
    fst (get_knowledge_base "3f2a9c1e" w) = Ok (Some r) /\
    dict_get r "schema" = Some (JObj _default_schema) /\
    In (FailedSchema "3f2a9c1e" JSONDecodeError)
       (log (snd (get_knowledge_base "3f2a9c1e" w))).
Proof.
  intros files w.
  destruct (corrupt_schema_leaves_other_fields w "3f2a9c1e" files)
    as (r & Hget & Hs & Hlog & _).
  { vm_compute. reflexivity. }
  { vm_compute. reflexivity. }
  exists r. split; [exact Hget|]. split; [exact Hs | exact Hlog].
Defined.

(** X15.  The id of a record as read is the one its metadata stores.
    When [meta.json] holds an object with an ["id"] key,
    [get_knowledge_base] returns that value as the record's id, whatever
    id was asked for; [update_knowledge_base] always stores the id it
    was called with, so the record it returns carries that id. *)
Theorem metadata_id_wins_until_updated :
  forall w utcnow kb_id files m v name dataset_name schema prompts,
    kb_dirs (disk w) !! kb_id = Some files ->
    files !! META_FILE = Some (Json (JObj m)) ->
    dict_get m "id" = Some v ->
    (exists r, fst (get_knowledge_base kb_id w) = Ok (Some r) /\
               dict_get r "id" = Some v) /\
    (forall r,
       fst (update_knowledge_base utcnow kb_id name dataset_name schema
              prompts w) = Ok (Some r) ->
       dict_get r "id" = Some (JStr kb_id)).
Proof.
  intros w utcnow kb_id files m v name dataset_name schema prompts
    Hdir Hmeta Hid.
  split.
  - exists (full_record kb_id files).
    rewrite (get_knowledge_base_present w kb_id files Hdir).
    split; [done|]. rewrite full_record_meta_key by done.
    rewrite Hmeta. cbn [read_meta dict_update fst].
    by rewrite dict_get_merge, Hid.
  - intros r Hr.
    destruct (update_run w utcnow kb_id files m name dataset_name schema
                prompts Hdir) as (o & Hrun & _); [by rewrite Hmeta|].
    rewrite Hrun in Hr. destruct o as [index'|e]; [|done].
    cbn [fst] in Hr. simplify_eq.
    rewrite full_record_meta_key by done.
    rewrite updated_files_meta. cbn [read_meta dict_update fst].
    rewrite dict_get_merge. unfold updated_meta.
    by rewrite dict_get_set_eq.
Qed.

Lemma metadata_id_wins_until_updated_witness :
  let m := [("id", JStr "0badc0de"); ("name", JStr "Books")] in
  let w :=
    mkWorld (mkFs true None {["3f2a9c1e" := {[META_FILE := Json (JObj m)]}]}) [] in
  (exists r, fst (get_knowledge_base "3f2a9c1e" w) = Ok (Some r) /\
             dict_get r "id" = Some (JStr "0badc0de")) /\
  (forall r,
     fst (update_knowledge_base "2024-05-01T10:00:00" "3f2a9c1e" None None
            None None w) = Ok (Some r) ->
     dict_get r "id" = Some (JStr "3f2a9c1e")).
Proof.
  intros m w.
  apply (metadata_id_wins_until_updated w "2024-05-01T10:00:00" "3f2a9c1e"
           {[META_FILE := Json (JObj m)]} m (JStr "0badc0de")).
  - vm_compute. reflexivity.
  - vm_compute. reflexivity.
  - reflexivity.
Defined.

(** X16.  For the two document accessors a stored JSON [null] reads as
    not-found.  When [schema.json] (or [prompts.json]) parses to
    [null], [get_knowledge_base] returns a record whose ["schema"]
    (["prompts"]) key holds [None], and [get_schema_dict_for_kb]
    ([get_prompts_for_kb]) returns [None], the answer it also gives for
    a record that does not exist. *)
Theorem null_document_reads_as_not_found :
  forall w kb_id files,
    kb_dirs (disk w) !! kb_id = Some files ->
    (files !! SCHEMA_FILE = Some (Json JNull) ->
       fst (get_schema_dict_for_kb kb_id w) = Ok None /\
       exists r, fst (get_knowledge_base kb_id w) = Ok (Some r) /\
                 dict_get r "schema" = Some JNull) /\
    (files !! PROMPTS_FILE = Some (Json JNull) ->
       fst (get_prompts_for_kb kb_id w) = Ok None /\
       exists r, fst (get_knowledge_base kb_id w) = Ok (Some r) /\
                 dict_get r "prompts" = Some JNull).
Proof.
  intros w kb_id files Hdir.
  pose proof (get_knowledge_base_present w kb_id files Hdir) as Hget.
  unfold get_schema_dict_for_kb, get_prompts_for_kb.
  rewrite !(bind_ok _ _ _ _ _ Hget), Hget. cbn [fst].
  rewrite full_record_schema, full_record_prompts.
  split.
  - intros Hs. rewrite Hs. split; [done|].
    eexists. split; [done|]. by rewrite full_record_schema, Hs.
  - intros Hp. rewrite Hp. split; [done|].
    eexists. split; [done|]. by rewrite full_record_prompts, Hp.
Qed.

Lemma null_document_reads_as_not_found_witness :
  let w :=
    mkWorld (mkFs true None {["3f2a9c1e" := {[SCHEMA_FILE := Json JNull]}]}) [] in
  fst (get_schema_dict_for_kb "3f2a9c1e" w) = Ok None /\
  exists r, fst (get_knowledge_base "3f2a9c1e" w) = Ok (Some r) /\
            dict_get r "schema" = Some JNull.
Proof.
  intros w.
  destruct (null_document_reads_as_not_found w "3f2a9c1e"
              {[SCHEMA_FILE := Json JNull]}) as [Hs _].
  { vm_compute. reflexivity. }
  apply Hs. vm_compute. reflexivity.
Defined.

(** X17.  Metadata that parses to a scalar is ignored.  When
    [meta.json] holds [null], a boolean or a number,
    [get_knowledge_base] logs one metadata warning and returns the
    record it returns when the file is missing: the id asked for, no
    other metadata key, and the schema and prompts as stored. *)
Theorem scalar_metadata_is_ignored :
  forall w kb_id files v,
    kb_dirs (disk w) !! kb_id = Some files ->
    files !! META_FILE = Some (Json v) ->
    match v with
    | JNull | JBool _ | JInt _ | JFloat _ => True
    | _ => False
    end ->
    exists r,
      get_knowledge_base kb_id w =
        (Ok (Some r),
         add_log w
           (FailedMeta kb_id TypeError ::
            read_warnings kb_id (delete META_FILE files))) /\
      dict_get r "id" = Some (JStr kb_id) /\
      forall w0,
        kb_dirs (disk w0) !! kb_id = Some (delete META_FILE files) ->
        fst (get_knowledge_base kb_id w0) = Ok (Some r).
Proof.
  intros w kb_id files v Hdir Hmeta Hv.
  exists (full_record kb_id files).
  rewrite (get_knowledge_base_present w kb_id files Hdir).
  assert (full_record kb_id (delete META_FILE files) =
          full_record kb_id files) as Hsame.
  { unfold full_record.
    rewrite lookup_delete_eq, !lookup_delete_ne, Hmeta by done.
    by destruct v. }
  split; [|split].
  - do 2 f_equal. unfold read_warnings.
    rewrite lookup_delete_eq, !lookup_delete_ne, Hmeta by done.
    by destruct v.
  - rewrite full_record_meta_key by done. rewrite Hmeta. by destruct v.
  - intros w0 Hdir0.
    by rewrite (get_knowledge_base_present w0 kb_id _ Hdir0), Hsame.
Qed.

Lemma scalar_metadata_is_ignored_witness :
  let w :=
    mkWorld (mkFs true None {["3f2a9c1e" := {[META_FILE := Json (JInt 7)]}]}) [] in
  exists r,
    get_knowledge_base "3f2a9c1e" w =
      (Ok (Some r), add_log w [FailedMeta "3f2a9c1e" TypeError]) /\
    dict_get r "id" = Some (JStr "3f2a9c1e").
Proof.
  intros w.
  destruct (scalar_metadata_is_ignored w "3f2a9c1e"
              {[META_FILE := Json (JInt 7)]} (JInt 7))
    as (r & Hget & Hid & _).
  { vm_compute. reflexivity. }
  { vm_compute. reflexivity. }
  { exact I. }
  exists r. split; [|exact Hid].
  rewrite Hget. do 2 f_equal.
Defined.

(** X18.  A path answer is a promise about the record.  Whenever
    [get_schema_path_for_kb] returns a path, the path is
    [kb_store/<id>/schema.json], the record exists for
    [get_knowledge_base], and the schema that one returns is the file's
    content when it parses and the default schema when it does not. *)
Theorem schema_path_points_at_a_record :
  forall w kb_id p,
    fst (get_schema_path_for_kb kb_id w) = Ok (Some p) ->
    p = "kb_store/" +:+ kb_id +:+ "/schema.json" /\
    exists files c r,
      kb_dirs (disk w) !! kb_id = Some files /\
      files !! SCHEMA_FILE = Some c /\
      fst (get_knowledge_base kb_id w) = Ok (Some r) /\
      dict_get r "schema" =
        Some (match c with
              | Json v => v
              | Garbage => JObj _default_schema
              end).
Proof.
  intros w kb_id p Hp. rewrite get_schema_path_run in Hp. cbn [fst] in Hp.
  destruct (kb_dirs (disk w) !! kb_id) as [files|] eqn:Hdir; [|done].
  cbn in Hp. destruct (files !! SCHEMA_FILE) as [c|] eqn:Hc; [|done].
  rewrite bool_decide_eq_true_2 in Hp by eauto. simplify_eq.
  split; [reflexivity|].
  exists files, c, (full_record kb_id files).
  rewrite (get_knowledge_base_present w kb_id files Hdir).
  split; [done|]. split; [done|]. split; [done|].
  rewrite full_record_schema, Hc. by destruct c.
Qed.

Lemma schema_path_points_at_a_record_witness :
  let w :=
    mkWorld (mkFs true None {["3f2a9c1e" := {[SCHEMA_FILE := Garbage]}]}) [] in
  "kb_store/3f2a9c1e/schema.json" = "kb_store/" +:+ "3f2a9c1e" +:+ "/schema.json" /\
  exists files c r,
    kb_dirs (disk w) !! "3f2a9c1e" = Some files /\
    files !! SCHEMA_FILE = Some c /\
    fst (get_knowledge_base "3f2a9c1e" w) = Ok (Some r) /\
    dict_get r "schema" =
      Some (match c with
            | Json v => v
            | Garbage => JObj _default_schema
            end).
Proof.
  intros w.
  apply (schema_path_points_at_a_record w "3f2a9c1e"
           "kb_store/3f2a9c1e/schema.json").
  vm_compute. reflexivity.
Defined.

(** ** More on updates *)

Section UpdateTwice.

Implicit Types (w : world) (k : string) (d m : dict).

Lemma dict_set_same d k v :
  dict_get d k = Some v -> dict_set d k v = d.
Proof.
  induction d as [|[k' v'] d IH]; [done|]. cbn [dict_get dict_set].
  destruct (String.eqb k' k); [by intros [= ->] | intros H; by rewrite IH].
Qed.

Lemma updated_meta_id m k name dataset_name now :
  dict_get (updated_meta m k name dataset_name now) "id" = Some (JStr k).
Proof. unfold updated_meta. apply dict_get_set_eq. Qed.

(** Writing the same fields into the metadata again changes nothing. *)
Lemma updated_meta_twice m k name dataset_name now :
  let m' := updated_meta m k name dataset_name now in
  updated_meta m' k name dataset_name now = m'.
Proof.
  intros m'.
  assert (set_opt m' "name" name = m') as Hn.
  { destruct name as [n|]; [|done]. cbn [set_opt]. apply dict_set_same.
    subst m'. by rewrite updated_meta_name. }
  assert (set_opt m' "dataset_name" dataset_name = m') as Hd.
  { destruct dataset_name as [n|]; [|done]. cbn [set_opt].
    apply dict_set_same. subst m'. by rewrite updated_meta_dataset_name. }
  unfold updated_meta at 1. rewrite Hn, Hd.
  rewrite (dict_set_same m' "updated_at")
    by (subst m'; apply updated_meta_updated_at).
  apply dict_set_same. subst m'. apply updated_meta_id.
Qed.

Lemma updated_files_twice (files : gmap string content) m' schema prompts :
  let files' := updated_files files m' schema prompts in
  updated_files files' m' schema prompts = files'.
Proof.
  intros files'. unfold updated_files at 1.
  rewrite (insert_id files' META_FILE)
    by (subst files'; apply updated_files_meta).
  assert (write_opt files' SCHEMA_FILE schema = files') as ->.
  { destruct schema as [s|]; [|done]. cbn [write_opt]. apply insert_id.
    subst files'. by rewrite updated_files_schema. }
  destruct prompts as [p|]; [|done]. cbn [write_opt]. apply insert_id.
  subst files'. by rewrite updated_files_prompts.
Qed.

(** Running the index loop on its own result changes nothing. *)
Lemma update_loop_twice index k m now : forall index' w,
  update_loop index k (JObj m) now w = (Ok index', w) ->
  update_loop index' k (JObj m) now w = (Ok index', w).
Proof.
  induction index as [|entry rest IH]; intros index' w Hrun.
  - cbv [update_loop ret] in Hrun. by simplify_eq.
  - destruct entry as [| | | | |?|e]; try discriminate.
    destruct (has_id k (JObj e)) eqn:Hid.
    + rewrite (update_loop_match e rest k m now w Hid) in Hrun.
      simplify_eq.
      rewrite update_loop_match
        by (cbn [has_id dict_get String.eqb Ascii.eqb Bool.eqb default eq_str];
            cbn; apply String.eqb_refl).
      destruct (dict_get m "created_at"); reflexivity.
    + cbn [has_id] in Hid. cbn [update_loop py_get] in Hrun.
      unfold bind at 1, lift at 1 in Hrun. rewrite Hid in Hrun.
      unfold bind at 1 in Hrun.
      destruct (update_loop rest k (JObj m) now w) as [[rest'|ex] w1] eqn:E;
        [|discriminate].
      cbv [ret] in Hrun. simplify_eq.
      destruct (update_loop_pure rest k m now) as (o & Hpure & _).
      rewrite Hpure in E. simplify_eq.
      cbn [update_loop py_get]. unfold bind at 1, lift at 1. rewrite Hid.
      unfold bind at 1. rewrite (IH rest' w (Hpure w)). reflexivity.
Qed.

End UpdateTwice.

(** X19.  [update_knowledge_base] writes only inside the directory of
    its record.  For every store and arguments, whether the call
    returns or raises, every other directory is as before, and in the
    record's directory every file is as before except [meta.json] and
    the documents that were supplied: a [schema.json] or [prompts.json]
    that was not supplied is left as it is, unreadable text included. *)
Theorem update_writes_only_its_documents :
  forall w utcnow kb_id name dataset_name schema prompts,
    let w' :=
      snd (update_knowledge_base utcnow kb_id name dataset_name schema
             prompts w) in
    (forall other, other <> kb_id ->
       kb_dirs (disk w') !! other = kb_dirs (disk w) !! other) /\
    (forall file,
       file <> META_FILE ->
       (file = SCHEMA_FILE -> schema = None) ->
       (file = PROMPTS_FILE -> prompts = None) ->
       kb_dirs (disk w') !! kb_id ≫= (.!! file) =
       kb_dirs (disk w) !! kb_id ≫= (.!! file)).
Proof.
  intros w utcnow kb_id name dataset_name schema prompts w'. subst w'.
  destruct (kb_dirs (disk w) !! kb_id) as [files|] eqn:Hdir; last first.
  { rewrite (update_run_absent w utcnow kb_id name dataset_name schema
               prompts Hdir). cbn [snd]. split; intros; rewrite ?Hdir; reflexivity. }
  destruct (meta_dict (files !! META_FILE)) as [m|] eqn:Hm.
  - destruct (update_run w utcnow kb_id files m name dataset_name schema
                prompts Hdir Hm) as (o & -> & _).
    assert (forall ix l,
              kb_dirs (disk
                (match o with
                 | Ok index' =>
                     (Ok (Some (full_record kb_id
                        (updated_files files
                           (updated_meta m kb_id name dataset_name
                              (utcnow +:+ "Z")) schema prompts))),
                      mkWorld (mkFs true (Some (Json (JList index'))) ix) l)
                 | Raise e =>
                     (Raise e, mkWorld (mkFs true (index_json (disk w)) ix) l)
                 end).2) = ix) as Hdirs by (intros; by destruct o).
    split.
    + intros other Hne. destruct o; cbn [snd disk kb_dirs];
        by rewrite lookup_insert_ne.
    + intros file Hmeta Hs Hp.
      assert (updated_files files
                (updated_meta m kb_id name dataset_name (utcnow +:+ "Z"))
                schema prompts !! file = files !! file) as Hfile.
      { unfold updated_files, write_opt.
        destruct prompts as [p|], schema as [s|];
          rewrite ?(lookup_insert_ne _ PROMPTS_FILE)
            by (intros <-; by specialize (Hp eq_refl));
          rewrite ?(lookup_insert_ne _ SCHEMA_FILE)
            by (intros <-; by specialize (Hs eq_refl));
          by rewrite lookup_insert_ne. }
      destruct o; cbn [snd disk kb_dirs]; rewrite lookup_insert_eq;
        exact Hfile.
  - destruct (files !! META_FILE) as [[v|]|] eqn:E; try discriminate.
    + assert (is_obj v = false) as Hv by (by destruct v).
      rewrite (update_run_not_obj w utcnow kb_id files v name dataset_name
                 schema prompts Hdir E Hv).
      cbn [snd]. split; intros; rewrite ?Hdir; reflexivity.
    + rewrite (update_run_garbage w utcnow kb_id files name dataset_name
                 schema prompts Hdir E).
      cbn [snd]. split; intros; rewrite ?Hdir; reflexivity.
Qed.

Lemma update_writes_only_its_documents_witness :
  let w :=
    mkWorld
      (mkFs true None
            {["0badc0de" := {[META_FILE := Garbage]};
              "3f2a9c1e" := {[SCHEMA_FILE := Garbage]}]}) [] in
  let w' :=
    snd (update_knowledge_base "2024-05-01T10:00:00" "3f2a9c1e"
           (Some "Films") None None None w) in
  kb_dirs (disk w') !! "0badc0de" = kb_dirs (disk w) !! "0badc0de" /\
  kb_dirs (disk w') !! "3f2a9c1e" ≫= (.!! SCHEMA_FILE) = Some Garbage.
Proof.
  intros w w'.
  destruct (update_writes_only_its_documents w "2024-05-01T10:00:00"
              "3f2a9c1e" (Some "Films") None None None) as [Hother Hfile].
  split.
  - apply Hother. discriminate.
  - etransitivity; [apply Hfile; (discriminate || reflexivity)|].
    vm_compute. reflexivity.
Defined.

(** X20.  An update repeated with the same arguments and the same clock
    reading leaves the disk as the first one left it: the files of the
    record and the index entries are the same, whether the calls return
    or raise. *)
Theorem update_twice_is_update_once :
  forall w utcnow kb_id name dataset_name schema prompts,
    let update := update_knowledge_base utcnow kb_id name dataset_name
                    schema prompts in
    disk (snd (update (snd (update w)))) = disk (snd (update w)).
Proof.
  intros w utcnow kb_id name dataset_name schema prompts update.
  subst update.
  destruct (kb_dirs (disk w) !! kb_id) as [files|] eqn:Hdir; last first.
  { pose proof (update_run_absent w utcnow kb_id name dataset_name schema
                  prompts Hdir) as H.
    rewrite H. cbn [snd]. by rewrite H. }
  destruct (meta_dict (files !! META_FILE)) as [m|] eqn:Hm; last first.
  { destruct (files !! META_FILE) as [[v|]|] eqn:E; try discriminate.
    - assert (is_obj v = false) as Hv by (by destruct v).
      pose proof (update_run_not_obj w utcnow kb_id files v name
                    dataset_name schema prompts Hdir E Hv) as H.
      rewrite H. cbn [snd]. by rewrite H.
    - pose proof (update_run_garbage w utcnow kb_id files name dataset_name
                    schema prompts Hdir E) as H.
      rewrite H. cbn [snd]. by rewrite H. }
  set (now := utcnow +:+ "Z").
  set (m' := updated_meta m kb_id name dataset_name now).
  set (files' := updated_files files m' schema prompts).
  destruct (update_loop_pure (stored_index (disk w)) kb_id m' now)
    as (o & Hloop & _).
  rewrite (update_run_loop w utcnow kb_id files m name dataset_name schema
             prompts o Hdir Hm Hloop).
  fold now m' files'.
  assert (meta_dict (files' !! META_FILE) = Some m') as Hm'
    by (subst files'; by rewrite updated_files_meta).
  assert (updated_meta m' kb_id name dataset_name now = m') as Hmm
    by apply updated_meta_twice.
  assert (updated_files files' m' schema prompts = files') as Hff
    by apply updated_files_twice.
  destruct o as [index'|e]; cbn [snd].
  - set (w1 := mkWorld _ _).
    assert (kb_dirs (disk w1) !! kb_id = Some files') as Hdir1
      by apply lookup_insert_eq.
    rewrite (update_run_loop w1 utcnow kb_id files' m' name dataset_name
               schema prompts (Ok index') Hdir1 Hm').
    + fold now. rewrite Hmm, Hff.
      subst w1. cbn [snd disk kb_dirs index_json].
      by rewrite insert_insert_eq.
    + intros w0. fold now. rewrite Hmm.
      change (stored_index (disk w1)) with index'.
      apply (update_loop_twice (stored_index (disk w))). apply Hloop.
  - set (w1 := mkWorld _ _).
    assert (kb_dirs (disk w1) !! kb_id = Some files') as Hdir1
      by apply lookup_insert_eq.
    rewrite (update_run_loop w1 utcnow kb_id files' m' name dataset_name
               schema prompts (Raise e) Hdir1 Hm').
    + fold now. rewrite Hmm, Hff.
      subst w1. cbn [snd disk kb_dirs index_json].
      by rewrite insert_insert_eq.
    + intros w0. fold now. rewrite Hmm.
      change (stored_index (disk w1)) with (stored_index (disk w)).
      apply Hloop.
Qed.

(** ** The generated id *)

Section GeneratedId.

Lemma substring_length (n : nat) : forall s : string,
  n <= String.length s -> String.length (substring 0 n s) = n.
Proof.
  induction n as [|n IH]; intros s Hn.
  - by destruct s.
  - destruct s as [|a s]; cbn [String.length] in Hn; [lia|].
    cbn [substring String.length]. rewrite IH; [done | lia].
Qed.

Lemma substring_prefix (n : nat) : forall s : string,
  String.prefix (substring 0 n s) s = true.
Proof.
  induction n as [|n IH]; intros s.
  - by destruct s.
  - destruct s as [|a s]; [done|].
    cbn [substring String.prefix].
    destruct (ascii_dec a a); [apply IH | done].
Qed.

End GeneratedId.

(** X21.  The id of a created record is the first eight characters of
    the uuid text.  When that text has at least eight characters (the
    text of a UUID has thirty-six), the record returned by
    [create_knowledge_base] carries an id of exactly eight characters,
    a prefix of the uuid text, and the record directory of that id
    exists afterwards. *)
Theorem created_id_is_eight_characters :
  forall w uuid4 utcnow name dataset_name schema prompts,
    8 <= String.length uuid4 ->
    let created :=
      create_knowledge_base uuid4 utcnow name dataset_name schema prompts w in
    exists r kb_id,
      fst created = Ok (Some r) /\
      dict_get r "id" = Some (JStr kb_id) /\
      String.length kb_id = 8 /\
      String.prefix kb_id uuid4 = true /\
      is_Some (kb_dirs (disk (snd created)) !! kb_id).
Proof.
  intros w uuid4 utcnow name dataset_name schema prompts Hlen created.
  subst created. rewrite create_run. cbn [fst snd disk kb_dirs].
  set (kb_id := substring 0 8 uuid4). set (files' := created_files _ _ _ _ _ _ _).
  exists (full_record kb_id files'), kb_id.
  split; [done|]. split.
  { rewrite full_record_meta_key by done.
    subst files'. rewrite created_files_meta.
    cbn [read_meta dict_update fst]. by rewrite dict_get_merge. }
  split; [by apply substring_length|].
  split; [apply substring_prefix|].
  rewrite lookup_insert_eq. eauto.
Qed.

Lemma created_id_is_eight_characters_witness :
  let created :=
    create_knowledge_base "3f2a9c1e-7b1d-4c0a-9e55-0123456789ab"
      "2024-05-01T10:00:00" "Movies" "imdb_sample" None None
      (mkWorld (mkFs false None ∅) []) in
  exists r kb_id,
    fst created = Ok (Some r) /\
    dict_get r "id" = Some (JStr kb_id) /\
    String.length kb_id = 8 /\
    String.prefix kb_id "3f2a9c1e-7b1d-4c0a-9e55-0123456789ab" = true /\
    is_Some (kb_dirs (disk (snd created)) !! kb_id).
Proof.
  intros created.
  apply (created_id_is_eight_characters (mkWorld (mkFs false None ∅) [])
           "3f2a9c1e-7b1d-4c0a-9e55-0123456789ab" "2024-05-01T10:00:00"
           "Movies" "imdb_sample" None None).
  vm_compute. lia.
Defined.

(** ** Listing after a deletion or an update *)

Section ListingAfter.

Implicit Types (f : fs) (index : list json) (k : string).


(** Every summary listed is the reading of some index entry. *)
Lemma listing_from_entry f index l :
  listing f index = Ok l ->
  forall s, s ∈ l ->
    exists entry ws, entry ∈ index /\ listed_entry f entry = Ok (Some s, ws).
Proof.
  revert l. induction index as [|x rest IH]; intros l Hl s Hs.
  - cbn in Hl. simplify_eq. by apply elem_of_nil in Hs.
  - cbn [listing] in Hl.
    destruct (listed_entry f x) as [[sx wsx]|ex] eqn:Ex; [|done].
    destruct (listing f rest) as [l'|] eqn:El; [|done]. simplify_eq.
    assert (s ∈ l' -> exists entry ws,
              entry ∈ x :: rest /\ listed_entry f entry = Ok (Some s, ws))
      as Hrest.
    { intros Hin. destruct (IH l' eq_refl s Hin) as (en & ws & ? & ?).
      exists en, ws. split; [apply elem_of_cons; by right | done]. }
    destruct sx as [s0|]; [|by apply Hrest].
    apply elem_of_cons in Hs as [->|Hs]; [|by apply Hrest].
    exists x, wsx. split; [apply elem_of_cons; by left | done].
Qed.

(** The summary of an entry carries the id of the entry. *)
Lemma listed_entry_id f entry s ws k :
  listed_entry f entry = Ok (Some s, ws) ->
  eq_str (default JNull (dict_get s "id")) k = has_id k entry.
Proof.
  intros H. destruct entry as [| | | | |?|e]; try discriminate.
  cbn [listed_entry has_id] in *.
  destruct (negb (truthy (default JNull (dict_get e "id")))); [discriminate|].
  destruct (default JNull (dict_get e "id")) as [|b|n|x|k'|l|o];
    try discriminate.
  destruct (kb_dirs f !! k' ≫= lookup META_FILE) as [[m|]|];
    [destruct m|..]; by simplify_eq.
Qed.

Lemma listing_filter f index k l :
  listing f index = Ok l ->
  listing f (List.filter (fun e => negb (has_id k e)) index) =
    Ok (List.filter
          (fun s => negb (eq_str (default JNull (dict_get s "id")) k)) l).
Proof.
  revert l. induction index as [|x rest IH]; intros l Hl.
  - cbn in Hl. by simplify_eq.
  - cbn [listing] in Hl.
    destruct (listed_entry f x) as [[sx wsx]|ex] eqn:Ex; [|done].
    destruct (listing f rest) as [l'|] eqn:El; [|done]. simplify_eq.
    specialize (IH l' eq_refl). cbn [List.filter].
    destruct sx as [s0|].
    + cbn [List.filter]. rewrite (listed_entry_id f x s0 wsx k Ex).
      destruct (has_id k x); cbn [negb]; [exact IH|].
      cbn [listing]. by rewrite Ex, IH.
    + destruct (negb (has_id k x)); [|exact IH].
      cbn [listing]. by rewrite Ex, IH.
Qed.

End ListingAfter.

(** X22.  Deleting a record takes exactly its summaries out of the
    listing.  When the record directory is present and the listing
    returned [l] before, the deletion returns true and the listing
    afterwards returns [l] without the summaries that carry the id, the
    others unchanged and in the same order. *)
Theorem delete_removes_only_its_summaries :
  forall w kb_id l,
    is_Some (kb_dirs (disk w) !! kb_id) ->
    fst (list_knowledge_bases w) = Ok l ->
    fst (delete_knowledge_base kb_id w) = Ok true /\
    fst (list_knowledge_bases (snd (delete_knowledge_base kb_id w))) =
      Ok (List.filter
            (fun s => negb (eq_str (default JNull (dict_get s "id")) kb_id))
            l).
Proof.
  intros w kb_id l [files Hdir] Hl.
  rewrite list_knowledge_bases_listing in Hl.
  rewrite (delete_run_present w kb_id files Hdir).
  rewrite (listing_ok_obj _ _ _ Hl). cbn [fst snd].
  split; [done|].
  rewrite list_knowledge_bases_listing. cbn [disk].
  set (f' := mkFs _ _ _).
  change (stored_index f')
    with (List.filter (fun e => negb (has_id kb_id e)) (stored_index (disk w))).
  rewrite <- (listing_filter (disk w) _ kb_id l Hl).
  clear Hl.
  assert (forall index,
            forallb (fun e => negb (has_id kb_id e)) index = true ->
            listing f' index = listing (disk w) index) as Hsame.
  { intros index Hno. induction index as [|entry rest IH]; [done|].
    cbn [forallb] in Hno. apply andb_true_iff in Hno as [He Hrest].
    apply negb_true_iff in He. cbn [listing].
    rewrite (listed_entry_untracked (disk w) f' kb_id entry He) by done.
    by rewrite IH. }
  apply Hsame, filter_without.
Qed.

Lemma delete_removes_only_its_summaries_witness :
  let other := [("id", JStr "0badc0de"); ("name", JStr "Books")] in
  let w :=
    mkWorld
      (mkFs true (Some (Json (JList [JObj [("id", JStr "3f2a9c1e")]; JObj other])))
            {["3f2a9c1e" := ∅]}) [] in
  fst (delete_knowledge_base "3f2a9c1e" w) = Ok true /\
  fst (list_knowledge_bases (snd (delete_knowledge_base "3f2a9c1e" w))) =
    Ok [[("id", JStr "0badc0de"); ("name", JStr "Books");
         ("dataset_name", JStr ""); ("created_at", JStr "");
         ("updated_at", JStr "")]].
Proof.
  intros other w.
  destruct (delete_removes_only_its_summaries w "3f2a9c1e"
              [summary_of [("id", JStr "3f2a9c1e")] "3f2a9c1e";
               summary_of other "0badc0de"]) as [Hdel Hlist].
  { vm_compute. eauto. }
  { vm_compute. reflexivity. }
  split; [exact Hdel | exact Hlist].
Defined.

(** X23.  A returned update shows in the listing.  When
    [update_knowledge_base] returns a record, every summary listed
    afterwards under the record's id is read from the metadata just
    written: it carries the new stamp as [updated_at], and the supplied
    name and dataset name when they were supplied. *)
Theorem listing_reflects_update :
  forall w utcnow kb_id name dataset_name schema prompts r l,
    let updated :=
      update_knowledge_base utcnow kb_id name dataset_name schema prompts w in
    fst updated = Ok (Some r) ->
    fst (list_knowledge_bases (snd updated)) = Ok l ->
    forall s,
      s ∈ l ->
      dict_get s "id" = Some (JStr kb_id) ->
      dict_get s "updated_at" = Some (JStr (utcnow +:+ "Z")) /\
      (forall n, name = Some n -> dict_get s "name" = Some (JStr n)) /\
      (forall d, dataset_name = Some d ->
         dict_get s "dataset_name" = Some (JStr d)).
Proof.
  intros w utcnow kb_id name dataset_name schema prompts r l updated
    Hret Hl s Hs Hid. subst updated.
  destruct (kb_dirs (disk w) !! kb_id) as [files|] eqn:Hdir; last first.
  { by rewrite (update_run_absent w utcnow kb_id name dataset_name schema
                  prompts Hdir) in Hret. }
  destruct (meta_dict (files !! META_FILE)) as [m|] eqn:Hm; last first.
  { destruct (files !! META_FILE) as [[v|]|] eqn:E; try discriminate.
    - assert (is_obj v = false) as Hv by (by destruct v).
      by rewrite (update_run_not_obj w utcnow kb_id files v name dataset_name
                    schema prompts Hdir E Hv) in Hret.
    - by rewrite (update_run_garbage w utcnow kb_id files name dataset_name
                    schema prompts Hdir E) in Hret. }
  set (m' := updated_meta m kb_id name dataset_name (utcnow +:+ "Z")).
  destruct (update_run w utcnow kb_id files m name dataset_name schema
              prompts Hdir Hm) as (o & Hrun & _).
  rewrite Hrun in Hret, Hl. destruct o as [index'|e]; [|done].
  cbn [snd] in Hl. rewrite list_knowledge_bases_listing in Hl.
  cbn [disk] in Hl. set (f' := mkFs _ _ _) in Hl.
  destruct (listing_from_entry f' _ l Hl s Hs) as (entry & ws & _ & He).
  pose proof (listed_entry_id f' entry s ws kb_id He) as Hhas.
  rewrite Hid in Hhas.
  change (default JNull (Some (JStr kb_id))) with (JStr kb_id) in Hhas.
  cbn [eq_str] in Hhas.
  rewrite String.eqb_refl in Hhas. symmetry in Hhas.
  destruct entry as [| | | | |?|e]; try discriminate.
  cbn [has_id] in Hhas. cbn [listed_entry] in He.
  destruct (default JNull (dict_get e "id")) as [|?|?|?|k'|?|?];
    try discriminate.
  cbn [eq_str] in Hhas. apply String.eqb_eq in Hhas as ->.
  destruct (negb (truthy (JStr kb_id))); [discriminate|].
  subst f'. cbn [kb_dirs] in He. rewrite lookup_insert_eq in He.
  subst m'.
  change (Some ?fs ≫= lookup META_FILE) with (fs !! META_FILE) in He.
  rewrite updated_files_meta in He. simplify_eq.
  cbn [summary_of dict_get String.eqb Ascii.eqb Bool.eqb].
  rewrite updated_meta_updated_at, updated_meta_name,
    updated_meta_dataset_name.
  split; [done|]. split; [by intros n -> | by intros d ->].
Qed.

Lemma listing_reflects_update_witness :
  let w1 :=
    snd (create_knowledge_base "3f2a9c1e-7b1d-4c0a-9e55-0123456789ab"
           "2024-05-01T10:00:00.500000" "Movies" "imdb_sample" None None
           (mkWorld (mkFs false None ∅) [])) in
  let updated :=
    update_knowledge_base "2024-05-01T10:00:01.250000" "3f2a9c1e"
      (Some "Films") None None None w1 in
  let s :=
    [("id", JStr "3f2a9c1e"); ("name", JStr "Films");
     ("dataset_name", JStr "imdb_sample");
     ("created_at", JStr "2024-05-01T10:00:00.500000Z");
     ("updated_at", JStr "2024-05-01T10:00:01.250000Z")] in
  fst (list_knowledge_bases (snd updated)) = Ok [s] /\
  dict_get s "updated_at" = Some (JStr "2024-05-01T10:00:01.250000Z") /\
  dict_get s "name" = Some (JStr "Films").
Proof.
  intros w1 updated s.
  assert (fst (list_knowledge_bases (snd updated)) = Ok [s]) as Hl
    by (vm_compute; reflexivity).
  split; [exact Hl|].
  destruct (listing_reflects_update w1 "2024-05-01T10:00:01.250000"
              "3f2a9c1e" (Some "Films") None None None
              (match fst updated with Ok (Some r) => r | _ => [] end)
              [s] ltac:(vm_compute; reflexivity) Hl s) as (Hu & Hn & _).
  - apply list_elem_of_singleton. reflexivity.
  - reflexivity.
  - split; [exact Hu | by apply Hn].
Defined.

(** ** Deletion on a well-formed index *)

(** X24.  [delete_knowledge_base] returns false exactly when
    the record directory is absent.  When it is present, in a store
    whose index entries are objects, it returns true.  Whenever it
    returns true, the directory tree is gone and every other directory
    is as before, the index is written back without the entries
    carrying that id, and from then on [get_knowledge_base] and
    [get_schema_path_for_kb] answer not-found for the id and no listed
    summary carries it. *)
Theorem delete_removes_record :
  forall w kb_id,
    (fst (delete_knowledge_base kb_id w) = Ok false <->
       kb_dirs (disk w) !! kb_id = None) /\
    (is_Some (kb_dirs (disk w) !! kb_id) ->
     forallb is_obj (stored_index (disk w)) = true ->
     fst (delete_knowledge_base kb_id w) = Ok true) /\
    (fst (delete_knowledge_base kb_id w) = Ok true ->
     let w' := snd (delete_knowledge_base kb_id w) in
     kb_dirs (disk w') = delete kb_id (kb_dirs (disk w)) /\
     index_json (disk w') =
       Some (Json (JList (List.filter (fun e => negb (has_id kb_id e))
                            (stored_index (disk w))))) /\
     fst (get_knowledge_base kb_id w') = Ok None /\
     fst (get_schema_path_for_kb kb_id w') = Ok None /\
     (forall l, fst (list_knowledge_bases w') = Ok l ->
        forall s, s ∈ l -> dict_get s "id" <> Some (JStr kb_id)) /\
     (forallb entry_ok (stored_index (disk w)) = true ->
        exists l, fst (list_knowledge_bases w') = Ok l)).
Proof.
  intros w kb_id.
  destruct (kb_dirs (disk w) !! kb_id) as [files|] eqn:Hdir.
  - rewrite (delete_run_present w kb_id files Hdir).
    destruct (forallb is_obj (stored_index (disk w))) eqn:Hobj;
      cbn [fst snd]; [|by repeat split].
    split; [done|]. split; [done|]. intros _.
    set (index' := List.filter _ _).
    set (w' := mkWorld _ _).
    assert (kb_dirs (disk w') !! kb_id = None) as Hgone
      by apply lookup_delete_eq.
    split; [done|]. split; [done|].
    split; [by rewrite get_knowledge_base_absent|].
    split; [by rewrite get_schema_path_run, Hgone|].
    rewrite list_knowledge_bases_run.
    change (stored_index (disk w')) with index'.
    split.
    + intros l Hl.
      destruct (list_loop index' [] _) as [o w''] eqn:Hrun.
      cbn [fst] in Hl. subst o.
      eapply list_loop_without; [|exact Hrun]. apply filter_without.
    + intros Hok.
      destruct (list_loop_total index' []
                  (mkWorld (mkFs true (index_json (disk w')) (kb_dirs (disk w')))
                     (log w' ++ index_warnings (disk w'))))
        as (l & w'' & ->); [by apply forallb_filter|].
      by exists l.
  - rewrite (delete_run_absent w kb_id Hdir). cbn [fst].
    split; [done|]. split; [by intros [? ?]|]. done.
Qed.

Lemma delete_removes_record_witness :
  let w1 :=
    snd (create_knowledge_base "3f2a9c1e-7b1d-4c0a-9e55-0123456789ab"
           "2024-05-01T10:00:00.500000" "Movies" "imdb_sample" None None
           (mkWorld (mkFs false None ∅) [])) in
  let w' := snd (delete_knowledge_base "3f2a9c1e" w1) in
  fst (delete_knowledge_base "3f2a9c1e" w1) = Ok true /\
  fst (get_knowledge_base "3f2a9c1e" w') = Ok None /\
  fst (get_schema_path_for_kb "3f2a9c1e" w') = Ok None /\
  (exists l, fst (list_knowledge_bases w') = Ok l) /\
  fst (delete_knowledge_base "3f2a9c1e" w') = Ok false.
Proof.
  intros w1 w'.
  destruct (delete_removes_record w1 "3f2a9c1e") as (_ & Htrue & Hafter).
  assert (fst (delete_knowledge_base "3f2a9c1e" w1) = Ok true) as Hdel.
  { apply Htrue; vm_compute; eauto. }
  destruct (Hafter Hdel) as (_ & _ & Hget & Hpath & _ & Hlist).
  destruct (delete_removes_record w' "3f2a9c1e") as [[_ Hfalse] _].
  split; [exact Hdel|]. split; [exact Hget|]. split; [exact Hpath|].
  split; [apply Hlist; vm_compute; reflexivity|].
  apply Hfalse. vm_compute. reflexivity.
Defined.

(** ** Directories and the index, as the code has them *)

(** X25.  A record directory that is present makes the record
    exist for reading, whatever the index file holds:
    [get_knowledge_base] returns a record for every index content.
    [delete_knowledge_base] removes the directory for every index
    content, and returns true exactly when the stored index entries
    are objects, tracked or not.  A directory that no index entry names
    leaves the listing as it is without that directory, and the listing
    returns whenever the entries are objects whose id is a string or
    falsy. *)
Theorem directory_is_authoritative :
  forall w kb_id files,
    kb_dirs (disk w) !! kb_id = Some files ->
    (exists r, fst (get_knowledge_base kb_id w) = Ok (Some r)) /\
    kb_dirs (disk (snd (delete_knowledge_base kb_id w))) !! kb_id = None /\
    (fst (delete_knowledge_base kb_id w) = Ok true <->
       forallb is_obj (stored_index (disk w)) = true) /\
    (forallb (fun e => negb (has_id kb_id e)) (stored_index (disk w)) = true ->
       forall w0,
         index_json (disk w0) = index_json (disk w) ->
         kb_dirs (disk w0) = delete kb_id (kb_dirs (disk w)) ->
         fst (list_knowledge_bases w) = fst (list_knowledge_bases w0)) /\
    (forallb entry_ok (stored_index (disk w)) = true ->
       exists l, fst (list_knowledge_bases w) = Ok l).
Proof.
  intros w kb_id files Hdir.
  split; [|split; [|split; [|split]]].
  - exists (full_record kb_id files).
    by rewrite (get_knowledge_base_present w kb_id files Hdir).
  - rewrite (delete_run_present w kb_id files Hdir).
    destruct (forallb is_obj _); cbn [snd disk kb_dirs];
      apply lookup_delete_eq.
  - rewrite (delete_run_present w kb_id files Hdir).
    by destruct (forallb is_obj _).
  - intros Hno w0 Hindex Hdirs.
    rewrite !list_knowledge_bases_run.
    assert (stored_index (disk w0) = stored_index (disk w)) as ->
      by (unfold stored_index; by rewrite Hindex).
    symmetry. by apply (list_loop_untracked kb_id).
  - intros Hok. rewrite list_knowledge_bases_run.
    destruct (list_loop_total (stored_index (disk w)) []
                (mkWorld (mkFs true (index_json (disk w)) (kb_dirs (disk w)))
                   (log w ++ index_warnings (disk w))) Hok) as (l & w' & ->).
    by exists l.
Qed.

Lemma directory_is_authoritative_witness :
  let w := mkWorld (mkFs true (Some Garbage) {["3f2a9c1e" := ∅]}) [] in
  (exists r, fst (get_knowledge_base "3f2a9c1e" w) = Ok (Some r)) /\
  fst (delete_knowledge_base "3f2a9c1e" w) = Ok true /\
  fst (list_knowledge_bases w) =
    fst (list_knowledge_bases (mkWorld (mkFs true (Some Garbage) ∅) [])) /\
  (exists l, fst (list_knowledge_bases w) = Ok l).
Proof.
  intros w.
  destruct (directory_is_authoritative w "3f2a9c1e" ∅)
    as (Hget & _ & Hdel & Hlist & Hok).
  { vm_compute. reflexivity. }
  split; [exact Hget|].
  split; [apply Hdel; vm_compute; reflexivity|].
  split; [|apply Hok; vm_compute; reflexivity].
  apply Hlist.
  - vm_compute. reflexivity.
  - reflexivity.
  - vm_compute. reflexivity.
Defined.

(** ** The storage root *)

(** X26.  The storage root is created on demand and nothing is ever
    left below a root that does not exist.  [list_knowledge_bases] and
    [create_knowledge_base] leave a root that exists, whatever they
    found; and every operation of the module takes a well-formed disk
    (no index file and no record directory without a root) to a
    well-formed disk, whether it returns or raises. *)
Theorem operations_keep_disk_well_formed :
  forall w,
    well_formed (disk w) ->
    store_exists (disk (snd (list_knowledge_bases w))) = true /\
    (forall uuid4 utcnow name dataset_name schema prompts,
       store_exists
         (disk (snd (create_knowledge_base uuid4 utcnow name dataset_name
                       schema prompts w))) = true) /\
    (forall kb_id,
       well_formed (disk (snd (get_knowledge_base kb_id w)))) /\
    (forall utcnow kb_id name dataset_name schema prompts,
       well_formed
         (disk (snd (update_knowledge_base utcnow kb_id name dataset_name
                       schema prompts w)))) /\
    (forall kb_id,
       well_formed (disk (snd (delete_knowledge_base kb_id w)))).
Proof.
  intros w Hwf. split; [|split; [|split; [|split]]].
  - rewrite list_knowledge_bases_run.
    destruct (list_loop_reads (stored_index (disk w)) []
                (mkWorld (mkFs true (index_json (disk w)) (kb_dirs (disk w)))
                   (log w ++ index_warnings (disk w)))) as [ws ->].
    reflexivity.
  - intros uuid4 utcnow name dataset_name schema prompts.
    by rewrite create_run.
  - intros kb_id.
    destruct (get_knowledge_base_reads w kb_id) as (r & ws & ->).
    exact Hwf.
  - intros utcnow kb_id name dataset_name schema prompts.
    destruct (kb_dirs (disk w) !! kb_id) as [files|] eqn:Hdir;
      [|by rewrite update_run_absent].
    destruct (meta_dict (files !! META_FILE)) as [m|] eqn:Hm.
    + destruct (update_run w utcnow kb_id files m name dataset_name schema
                  prompts Hdir Hm) as (o & -> & _).
      by destruct o.
    + destruct (files !! META_FILE) as [[v|]|] eqn:E; try discriminate.
      * erewrite update_run_not_obj; [done..|]. by destruct v.
      * by erewrite update_run_garbage.
  - intros kb_id.
    destruct (kb_dirs (disk w) !! kb_id) as [files|] eqn:Hdir;
      [|by rewrite delete_run_absent].
    rewrite (delete_run_present w kb_id files Hdir).
    by destruct (forallb is_obj _).
Qed.

Lemma operations_keep_disk_well_formed_witness :
  let w := mkWorld (mkFs false None ∅) [] in
  store_exists (disk (snd (list_knowledge_bases w))) = true /\
  well_formed (disk (snd (get_knowledge_base "3f2a9c1e" w))) /\
  well_formed (disk (snd (delete_knowledge_base "3f2a9c1e" w))).
Proof.
  intros w.
  destruct (operations_keep_disk_well_formed w) as (Hl & _ & Hg & _ & Hd).
  { intros _. split; reflexivity. }
  split; [exact Hl|]. split; [apply Hg | apply Hd].
Defined.
